(** * The API client and the supervisor dashboard of frontend-id-transportes

    A shallow embedding of [src/services/api.ts] (class [ApiService]: token
    validation, auth header, [request], [getSecureFile], [login],
    [uploadCompanyLogo]) and of the driver-status part of
    [src/pages/dashboard/SupervisorDashboard] ([loadDriverStatuses] and the
    rendering of the speed), followed by the properties of the specification
    that concern them.

    Conventions.
    - [localStorage] is a finite map from keys to strings, threaded through
      every function that reads or writes it.
    - A JavaScript computation that may throw (or an [async] function whose
      promise may reject) returns [Throws A].
    - Values obtained from [JSON.parse] are terms of [JSON]; [undefined] is
      [None] in an [option JSON].
    - Built-ins of the language and of the browser whose definition is not
      part of the repository ([atob], [JSON.parse], number/string conversions,
      [Date.parse], [localeCompare]) are the fields of the class [Platform];
      the network ([fetch]) and the routing table ([getBaseUrl], module
      [@/config/api]) are section variables. *)

From Stdlib Require Import Ascii QArith Qabs Qround OrdersEx.
From stdpp Require Import gmap strings list sorting pretty.

Set Warnings "-register-all".
Open Scope string_scope.
Open Scope Z_scope.

(** ** Exceptions *)

(** A thrown value: an instance of [Error] with its [message], or any other
    value (of which only a description is kept). *)
Inductive Exn : Type :=
| JsError (message : string)
| NonError (description : string).

Inductive Throws (A : Type) : Type :=
| Ok (a : A)
| Throw (e : Exn).
Arguments Ok {A} a.
Arguments Throw {A} e.

Definition bindT {A B} (m : Throws A) (k : A -> Throws B) : Throws B :=
  match m with
  | Ok a => k a
  | Throw e => Throw e
  end.

(** [try { m } catch (e) { h e }] *)
Definition try_catch {A} (m : Throws A) (h : Exn -> Throws A) : Throws A :=
  match m with
  | Ok a => Ok a
  | Throw e => h e
  end.

(** [p.catch(() => v)] on a promise *)
Definition catch_default {A} (m : Throws A) (v : A) : A :=
  match m with
  | Ok a => a
  | Throw _ => v
  end.

(** [let! x := m in k] sequences two computations and stops at the first
    one that throws. *)
Notation "'let!' x := m 'in' k" := (bindT m (fun x => k))
  (at level 10, x name, m at level 100, k at level 200,
   format "'[v' 'let!'  x  :=  m  'in' '/' k ']'").

(** ** Strings *)

(** [s.includes(needle)] *)
Fixpoint includes (needle s : string) : bool :=
  String.prefix needle s ||
  match s with
  | EmptyString => false
  | String _ rest => includes needle rest
  end.

(** [s.split(c)] for a one-character separator: the list is never empty. *)
Fixpoint split_on (c : ascii) (s : string) : list string :=
  match s with
  | EmptyString => [EmptyString]
  | String a rest =>
      if Ascii.eqb a c then EmptyString :: split_on c rest
      else match split_on c rest with
           | [] => [String a EmptyString]
           | p :: ps => String a p :: ps
           end
  end.

(** [s.replace(/from/g, to)] for single characters *)
Fixpoint replace_all (from to : ascii) (s : string) : string :=
  match s with
  | EmptyString => EmptyString
  | String a rest =>
      String (if Ascii.eqb a from then to else a) (replace_all from to rest)
  end.

Definition str_empty (s : string) : bool :=
  match s with
  | EmptyString => true
  | String _ _ => false
  end.

(** ** Numbers and JSON values *)

(** An IEEE double, seen through the value it denotes. *)
Inductive JsNumber : Type :=
| NaN
| PosInf
| NegInf
| Fin (q : Q).

Definition isFinite (n : JsNumber) : bool :=
  match n with
  | Fin _ => true
  | _ => false
  end.

(** [a > b] on numbers; any comparison with [NaN] is [false]. *)
Definition num_gt (a b : JsNumber) : bool :=
  match a, b with
  | NaN, _ | _, NaN => false
  | PosInf, PosInf => false
  | PosInf, _ => true
  | _, PosInf => false
  | NegInf, _ => false
  | Fin _, NegInf => true
  | Fin x, Fin y => negb (Qle_bool x y)
  end.

(** [a < b] on numbers *)
Definition num_lt (a b : JsNumber) : bool := num_gt b a.

Definition num_of_Z (z : Z) : JsNumber := Fin (inject_Z z).

Inductive JSON : Type :=
| JNull
| JBool (b : bool)
| JNum (n : JsNumber)
| JStr (s : string)
| JArr (items : list JSON)
| JObj (fields : list (string * JSON)).

(** Own property of an object, in insertion order. *)
Fixpoint assoc_get (k : string) (fields : list (string * JSON)) : option JSON :=
  match fields with
  | [] => None
  | (k', v) :: rest => if String.eqb k k' then Some v else assoc_get k rest
  end.

(** [{...o, k: v}]: an existing key keeps its place, a new one comes last. *)
Fixpoint assoc_set (k : string) (v : JSON) (fields : list (string * JSON))
  : list (string * JSON) :=
  match fields with
  | [] => [(k, v)]
  | (k', v') :: rest =>
      if String.eqb k k' then (k, v) :: rest else (k', v') :: assoc_set k v rest
  end.

(** [v.k] or [v[k]] for a name [k] that is no built-in property: throws a
    [TypeError] on [null], is [undefined] on the other primitives and on
    arrays. *)
Definition get_prop (v : JSON) (k : string) : Throws (option JSON) :=
  match v with
  | JNull => Throw (JsError "Cannot read properties of null")
  | JObj fields => Ok (assoc_get k fields)
  | _ => Ok None
  end.

(** [v?.k]: [undefined] when [v] is [null] or [undefined]. *)
Definition get_prop_opt (v : option JSON) (k : string) : option JSON :=
  match v with
  | Some (JObj fields) => assoc_get k fields
  | _ => None
  end.

(** Truthiness of a value or [undefined]. *)
Definition truthy (v : option JSON) : bool :=
  match v with
  | None => false
  | Some JNull => false
  | Some (JBool b) => b
  | Some (JNum NaN) => false
  | Some (JNum (Fin q)) => negb (Qeq_bool q 0%Q)
  | Some (JNum _) => true
  | Some (JStr s) => negb (str_empty s)
  | Some (JArr _) | Some (JObj _) => true
  end.

(** [a ?? b] *)
Definition nullish (a : option JSON) (b : option JSON) : option JSON :=
  match a with
  | None | Some JNull => b
  | Some _ => a
  end.

(** ** The platform *)

Class Platform : Type := {
  (** [atob]: throws on a string that is not base64 *)
  atob : string -> Throws string;
  (** [JSON.parse]: throws a [SyntaxError] on a malformed text *)
  JSON_parse : string -> Throws JSON;
  (** the numeric value of a string, [NaN] when it has none *)
  StringToNumber : string -> JsNumber;
  (** the decimal rendering of a number *)
  NumberToString : JsNumber -> string;
  (** conversion of an array or an object to a primitive: the outcome of its
      [toString], or a [TypeError] *)
  ObjectToString : JSON -> Throws string;
  (** [new Date(s).getTime()], [None] for an invalid date *)
  Date_parse : string -> option Z;
  (** [a.localeCompare(b, 'pt-BR')]: negative, zero or positive *)
  localeCompare : string -> string -> Z;
  (** [JSON.stringify] *)
  JSON_stringify : JSON -> string;
  (** [URL.createObjectURL] of a blob, given by its content *)
  createObjectURL : string -> string
}.

(** ** Conversions *)

Section Conversions.
Context {P : Platform}.

(** [ToNumber]: what [Number(v)] and the operands of [>] go through. An
    array or an object is first turned into a string. *)
Definition ToNumber (v : option JSON) : Throws JsNumber :=
  match v with
  | None => Ok NaN
  | Some JNull => Ok (Fin 0%Q)
  | Some (JBool b) => Ok (Fin (if b then 1%Q else 0%Q))
  | Some (JNum n) => Ok n
  | Some (JStr s) => Ok (StringToNumber s)
  | Some (JArr items) => let! s := ObjectToString (JArr items) in Ok (StringToNumber s)
  | Some (JObj fields) => let! s := ObjectToString (JObj fields) in Ok (StringToNumber s)
  end.

(** [String(v)], also the conversion done by [new Error(v)] and by a
    template literal. *)
Definition ToStringJ (v : JSON) : Throws string :=
  match v with
  | JNull => Ok "null"
  | JBool true => Ok "true"
  | JBool false => Ok "false"
  | JNum n => Ok (NumberToString n)
  | JStr s => Ok s
  | JArr items => ObjectToString (JArr items)
  | JObj fields => ObjectToString (JObj fields)
  end.

(** [v > n] for a number [n] *)
Definition js_gt (v : option JSON) (n : JsNumber) : Throws bool :=
  let! x := ToNumber v in Ok (num_gt x n).

(** [v?.includes(needle)]: [undefined] (falsy) on [null] and [undefined],
    the substring test on a string, strict membership on an array, and a
    [TypeError] on a value without an [includes] method. *)
Definition includes_call (v : option JSON) (needle : string) : Throws bool :=
  match v with
  | None | Some JNull => Ok false
  | Some (JStr s) => Ok (includes needle s)
  | Some (JArr items) =>
      Ok (existsb (fun x => match x with
                            | JStr s => String.eqb s needle
                            | _ => false
                            end) items)
  | Some _ => Throw (JsError "errorData?.error?.includes is not a function")
  end.

End Conversions.

(** ** Session storage *)

Abbreviation Storage := (gmap string string).
Abbreviation Headers := (gmap string string).

Definition getItem (ls : Storage) (k : string) : option string := ls !! k.

Definition removeItem (k : string) (ls : Storage) : Storage := delete k ls.

(** The five keys of a session. *)
Definition session_keys : list string :=
  ["id_transporte_token"; "id_transporte_user"; "id_transporte_company";
   "temp_token"; "temp_user"].

(** [token] is truthy: present and not the empty string. *)
Definition token_present (token : option string) : bool :=
  match token with
  | Some t => negb (str_empty t)
  | None => false
  end.

(** The opening lines of [isTokenValid] and of [getAuthHeader]:
    [let token = getItem('id_transporte_token');
     if (!token) token = getItem('temp_token');] *)
Definition readToken (ls : Storage) : option string :=
  let token := getItem ls "id_transporte_token" in
  if negb (token_present token) then getItem ls "temp_token" else token.

(** ** ApiService *)

Inductive BodyInit : Type :=
| BodyText (text : string)
| BodyFormData (entries : list (string * string)).

Record RequestInit : Type := {
  method : option string;
  headers : option Headers;
  body : option BodyInit
}.

Record Response : Type := {
  ok : bool;
  status : Z;
  statusText : string;
  json : Throws JSON;
  blob : Throws string
}.

(** [options.body instanceof FormData] *)
Definition isFormData (b : option BodyInit) : bool :=
  match b with
  | Some (BodyFormData _) => true
  | _ => false
  end.

Definition CONFIG_ERROR : string :=
  "Erro de configuração do servidor. Entre em contato com o administrador.".

Definition CONNECTION_ERROR : string :=
  "Não foi possível conectar ao servidor. Verifique sua conexão.".

Definition failed (msg : string) : JSON :=
  JObj [("success", JBool false); ("error", JStr msg)].

Definition succeeded (data : JSON) : JSON :=
  JObj [("success", JBool true); ("data", data)].

(** [data && typeof data === 'object' && 'success' in data] *)
Definition has_success_key (data : JSON) : bool :=
  match data with
  | JObj fields => bool_decide (is_Some (assoc_get "success" fields))
  | _ => false
  end.

(** [{ ...response, data: v }] *)
Definition with_data (response : JSON) (v : JSON) : JSON :=
  match response with
  | JObj fields => JObj (assoc_set "data" v fields)
  | _ => JObj [("data", v)]
  end.

Section ApiService.
Context {P : Platform}.
(** [getBaseUrl] of [@/config/api] and the [fetch] of the browser. *)
Variable getBaseUrl : string -> string.
Variable fetch : string -> RequestInit -> Throws Response.

(** The body of the [try] of [isTokenValid], for a truthy [token]. [now] is
    [Date.now()], in milliseconds. *)
Definition isTokenValid_try (token : string) (now : Z) : Throws bool :=
  let parts := split_on "." token in
  if negb (Nat.eqb (length parts) 3) then Ok false
  else
    let base64 := replace_all "_" "/" (replace_all "-" "+" (nth 1 parts "")) in
    let! decoded := atob base64 in
    let! payload := JSON_parse decoded in
    let currentTime := now `div` 1000 in
    let! exp := get_prop payload "exp" in
    js_gt exp (num_of_Z currentTime).

Definition isTokenValid (ls : Storage) (now : Z) : bool :=
  match readToken ls with
  | Some token =>
      if str_empty token then false
      else match isTokenValid_try token now with
           | Ok b => b
           | Throw _ => false
           end
  | None => false
  end.

(** The five [removeItem] of [getAuthHeader], in their order. *)
Definition clearSession (ls : Storage) : Storage :=
  removeItem "temp_user"
    (removeItem "temp_token"
       (removeItem "id_transporte_company"
          (removeItem "id_transporte_user"
             (removeItem "id_transporte_token" ls)))).

Definition getAuthHeader (ls : Storage) (now : Z) : Headers * Storage :=
  match readToken ls with
  | Some token =>
      if str_empty token then (∅, ls)
      else if negb (isTokenValid ls now) then (∅, clearSession ls)
      else ({["Authorization" := "Bearer " ++ token]}, ls)
  | None => (∅, ls)
  end.

(** [{ 'Content-Type': 'application/json', ...auth, ...options.headers }]:
    the union of stdpp keeps the left value, so the last spread stands
    first. *)
Definition merged_headers (auth : Headers) (options : RequestInit) : Headers :=
  default ∅ (headers options) ∪ auth ∪ {["Content-Type" := "application/json"]}.

(** [{ headers, ...options }], the second argument of [fetch]: a key of
    [options] replaces the one written before the spread. *)
Definition fetch_options (hdrs : Headers) (options : RequestInit) : RequestInit :=
  {| method := method options;
     headers := match headers options with
                | Some h => Some h
                | None => Some hdrs
                end;
     body := body options |}.

(** The part of [request] that precedes the call of [fetch]: the URL, the
    options given to [fetch] and the storage left by [getAuthHeader]. *)
Definition request_prepare (ls : Storage) (now : Z) (endpoint : string)
    (options : RequestInit) : string * RequestInit * Storage :=
  let baseUrl := getBaseUrl endpoint in
  let fullUrl := baseUrl ++ endpoint in
  let '(auth, ls') := getAuthHeader ls now in
  let hdrs := merged_headers auth options in
  let hdrs := if isFormData (body options) then delete "Content-Type" hdrs else hdrs in
  (fullUrl, fetch_options hdrs options, ls').

(** The part of the [try] of [request] that follows [fetch]. *)
Definition request_response (response : Response) : Throws JSON :=
  if negb (ok response) then
    let errorData := catch_default (json response) JNull in
    let err := get_prop_opt (Some errorData) "error" in
    let! secret := includes_call err "secretOrPrivateKey" in
    if secret then Throw (JsError CONFIG_ERROR)
    else
      let! msg := (if truthy err then ToStringJ (default JNull err)
             else Ok ("HTTP " ++ pretty (status response))) in
      Throw (JsError msg)
  else
    let! data := json response in
    if has_success_key data then Ok data else Ok (succeeded data).

(** The [catch] of [request]. *)
Definition request_catch (error : Exn) : string :=
  match error with
  | JsError message =>
      if includes "secretOrPrivateKey" message then CONFIG_ERROR
      else if includes "Failed to fetch" message then CONNECTION_ERROR
      else message
  | NonError _ => "Erro de conexão"
  end.

Definition request (ls : Storage) (now : Z) (endpoint : string)
    (options : RequestInit) : Throws JSON * Storage :=
  let '(fullUrl, init, ls') := request_prepare ls now endpoint options in
  (try_catch (let! response := fetch fullUrl init in request_response response)
             (fun error => Ok (failed (request_catch error))),
   ls').

Definition no_options : RequestInit :=
  {| method := None; headers := None; body := None |}.

Definition getSecureFile (ls : Storage) (now : Z) (url : string)
  : Throws string * Storage :=
  let '(hdrs, ls') := getAuthHeader ls now in
  (try_catch
     (if bool_decide (hdrs = ∅) then Throw (JsError "Usuário não autenticado.")
      else
        let! response := fetch url {| method := Some "GET"; headers := Some hdrs;
                                      body := None |} in
        if negb (ok response) then
          let errorData := catch_default (json response) JNull in
          let err := get_prop_opt (Some errorData) "error" in
          let! msg := (if truthy err then ToStringJ (default JNull err)
                 else Ok ("Falha ao buscar o arquivo: " ++ statusText response)) in
          Throw (JsError msg)
        else
          let! b := blob response in
          Ok (createObjectURL b))
     (fun error => Throw error),
   ls').

Definition login (ls : Storage) (now : Z) (credentials : JSON)
  : Throws JSON * Storage :=
  let '(r, ls') :=
    request ls now "/api/auth/login"
      {| method := Some "POST"; headers := None;
         body := Some (BodyText (JSON_stringify credentials)) |} in
  (let! response := r in
   let! success := get_prop response "success" in
   if negb (truthy success) then Ok response
   else
     let! data := get_prop response "data" in
     if negb (truthy data) then Ok response
     else
       let! inner := get_prop (default JNull data) "data" in
       match inner with
       | Some v => if truthy inner then Ok (with_data response v) else Ok response
       | None => Ok response
       end,
   ls').

Definition getCurrentLocations (ls : Storage) (now : Z) : Throws JSON * Storage :=
  request ls now "/api/tracking/drivers/current-locations" no_options.

(** The options that [uploadCompanyLogo] gives to [fetch]: the header is
    built from the stored final token, as it is. *)
Definition uploadCompanyLogo_options (ls : Storage) (logoFile : string)
  : RequestInit :=
  let token := getItem ls "id_transporte_token" in
  {| method := Some "POST";
     headers := Some (match token with
                      | Some t => if str_empty t then ∅
                                  else {["Authorization" := "Bearer " ++ t]}
                      | None => ∅
                      end);
     body := Some (BodyFormData [("logo", logoFile)]) |}.

Definition uploadCompanyLogo (ls : Storage) (companyId : string)
    (logoFile : string) : Throws JSON * Storage :=
  let init := uploadCompanyLogo_options ls logoFile in
  (try_catch
     (let baseUrl := getBaseUrl "/api/companies" in
      let! response := fetch (baseUrl ++ "/api/companies/" ++ companyId ++ "/logo") init in
      if negb (ok response) then
        let errorData := catch_default (json response) JNull in
        let err := get_prop_opt (Some errorData) "error" in
        let! msg := (if truthy err then ToStringJ (default JNull err)
               else Ok ("HTTP " ++ pretty (status response))) in
        Throw (JsError msg)
      else
        let! data := json response in
        Ok (succeeded data))
     (fun error =>
        Ok (failed (match error with
                    | JsError message => message
                    | NonError _ => "Erro no upload do logo"
                    end))),
   ls).

End ApiService.

(** ** SupervisorDashboard: the status of the drivers *)

Inductive MovementStatus : Type :=
| moving
| idle
| offline.

(** [DriverStatusItem]; the fields are [id], [name], [speed], [lastUpdate]
    and [status] in the source. *)
Record DriverStatusItem : Type := {
  item_id : string;
  item_name : string;
  item_speed : JsNumber;
  item_lastUpdate : option string;
  item_status : MovementStatus
}.

(** What a call of [loadDriverStatuses] does to the page, in order. *)
Inductive UiEvent : Type :=
| SetDriversLoading (b : bool)
| SetDriverStatuses (items : list DriverStatusItem)
| ConsoleError (error : Exn)
| Toast (title description variant : string).

Record UiState : Type := {
  driversLoading : bool;
  driverStatuses : list DriverStatusItem;
  toasts : list string;
  consoleErrors : list Exn
}.

Definition ui_step (st : UiState) (ev : UiEvent) : UiState :=
  match ev with
  | SetDriversLoading b =>
      {| driversLoading := b; driverStatuses := driverStatuses st;
         toasts := toasts st; consoleErrors := consoleErrors st |}
  | SetDriverStatuses items =>
      {| driversLoading := driversLoading st; driverStatuses := items;
         toasts := toasts st; consoleErrors := consoleErrors st |}
  | ConsoleError error =>
      {| driversLoading := driversLoading st; driverStatuses := driverStatuses st;
         toasts := toasts st; consoleErrors := consoleErrors st ++ [error] |}
  | Toast title _ _ =>
      {| driversLoading := driversLoading st; driverStatuses := driverStatuses st;
         toasts := toasts st ++ [title]; consoleErrors := consoleErrors st |}
  end.

Definition ui_run (st : UiState) (evs : list UiEvent) : UiState :=
  foldl ui_step st evs.

Definition is_toast (ev : UiEvent) : bool :=
  match ev with
  | Toast _ _ _ => true
  | _ => false
  end.

(** [x.toFixed(1)]: the sign, then the integer closest to [10 * |x|] (the
    larger one on a tie) written with one decimal; the plain rendering from
    [10^21] on. *)
Definition toFixed1 {P : Platform} (x : JsNumber) : string :=
  match x with
  | NaN => "NaN"
  | PosInf => "Infinity"
  | NegInf => "-Infinity"
  | Fin q =>
      let s := if Qle_bool 0 q then "" else "-" in
      let a := Qabs q in
      if Qle_bool (inject_Z (10 ^ 21)) a then s ++ NumberToString (Fin a)
      else
        let n := Qfloor (a * inject_Z 10 + (1 # 2)) in
        s ++ pretty (n `div` 10) ++ "." ++ pretty (n `mod` 10)
  end.

(** The speed shown for a driver:
    [const safeSpeed = driver.speed < 0 ? 0 : driver.speed;
     const formattedSpeed = safeSpeed.toFixed(1);] *)
Definition formattedSpeed {P : Platform} (driver : DriverStatusItem) : string :=
  let safeSpeed :=
    if num_lt (item_speed driver) (Fin 0%Q) then Fin 0%Q else item_speed driver in
  toFixed1 safeSpeed.

Section DriverStatus.
Context {P : Platform}.
Variable getBaseUrl : string -> string.
Variable fetch : string -> RequestInit -> Throws Response.
(** The two policy constants of [@/lib/driver-status]: the silence, in
    milliseconds, after which a driver is offline, and the speed, in km/h,
    above which a driver is moving. *)
Variable OFFLINE_AFTER_MS : Z.
Variable MOVING_ABOVE_KMH : Q.

(** Modelled from the spec: the clamping done by [computeMovementStatus];
    the module [@/lib/driver-status] is not among the sources. A negative
    speed is clamped to zero before any comparison with a threshold. *)
Definition clampSpeed (speed : JsNumber) : JsNumber :=
  if num_lt speed (Fin 0%Q) then Fin 0%Q else speed.

(** Modelled from the spec: [computeMovementStatus] of [@/lib/driver-status],
    which is not among the sources. Offline if the last update is absent or
    unparsable, or if [now - lastUpdate] exceeds the staleness threshold;
    else moving if the clamped speed exceeds the movement threshold; else
    idle. *)
Definition computeMovementStatus (speed : JsNumber) (last_update : option string)
    (now : Z) : MovementStatus :=
  match last_update with
  | None => offline
  | Some iso =>
      match Date_parse iso with
      | None => offline
      | Some t =>
          if OFFLINE_AFTER_MS <? now - t then offline
          else if num_gt (clampSpeed speed) (Fin MOVING_ABOVE_KMH) then moving
          else idle
      end
  end.

(** The function given to [.map] in [loadDriverStatuses]; [None] is the
    [null] returned for an entry without identifier. *)
Definition normalizeDriver (now : Z) (raw : JSON) : Throws (option DriverStatusItem) :=
  let driver := match raw with JNull => JObj [] | _ => raw end in
  let! driver_id := get_prop driver "driver_id" in
  let! other_id := get_prop driver "id" in
  match nullish driver_id other_id with
  | None | Some JNull => Ok None
  | Some id =>
      let! speedValueRaw := get_prop driver "speed" in
      let! speedValue := ToNumber (nullish speedValueRaw (Some (JNum (Fin 0%Q)))) in
      let safeSpeed := if isFinite speedValue then speedValue else Fin 0%Q in
      let! lastUpdateValue := get_prop driver "last_update" in
      let lastUpdate := match lastUpdateValue with
                        | Some (JStr s) => Some s
                        | _ => None
                        end in
      let! id_string := ToStringJ id in
      let! driver_name := get_prop driver "driver_name" in
      let! name_string :=
        ToStringJ (default (JStr "Motorista")
                     (nullish driver_name (Some (JStr "Motorista")))) in
      Ok (Some {| item_id := id_string;
                  item_name := name_string;
                  item_speed := safeSpeed;
                  item_lastUpdate := lastUpdate;
                  item_status :=
                    computeMovementStatus
                      (match speedValueRaw with
                       | Some (JNum n) => n
                       | _ => safeSpeed
                       end)
                      lastUpdate now |})
  end.

(** [items.map(f)] for an [f] that may throw. *)
Fixpoint mapT {A B} (f : A -> Throws B) (l : list A) : Throws (list B) :=
  match l with
  | [] => Ok []
  | x :: rest =>
      let! y := f x in
      let! ys := mapT f rest in
      Ok (y :: ys)
  end.

(** [.filter(item => Boolean(item))] *)
Definition keepItems (l : list (option DriverStatusItem)) : list DriverStatusItem :=
  omap (fun x => x) l.

(** [a.name.localeCompare(b.name, 'pt-BR') <= 0]: [a] may stand before [b]. *)
Definition name_le (a b : DriverStatusItem) : bool :=
  localeCompare (item_name a) (item_name b) <=? 0.

(** [.sort(compare)]: the sort of the language is stable, and for a
    consistent comparison its result is that of a stable insertion sort. *)
Fixpoint insertByName (x : DriverStatusItem) (l : list DriverStatusItem)
  : list DriverStatusItem :=
  match l with
  | [] => [x]
  | y :: rest => if name_le x y then x :: y :: rest else y :: insertByName x rest
  end.

Definition sortByName (l : list DriverStatusItem) : list DriverStatusItem :=
  foldr insertByName [] l.

Definition normalizeDrivers (now : Z) (data : list JSON)
  : Throws (list DriverStatusItem) :=
  let! mapped := mapT (normalizeDriver now) data in
  Ok (sortByName (keepItems mapped)).

(** The body of the [try] of [loadDriverStatuses] once the response is
    there: [Some] list to store, or [None] when nothing is stored. [now] is
    the [Date.now()] taken after the response has arrived. *)
Definition driverStatusesOf (now : Z) (response : JSON)
  : Throws (option (list DriverStatusItem)) :=
  let! success := get_prop response "success" in
  if negb (truthy success) then Ok None
  else
    let! data := get_prop response "data" in
    match data with
    | Some (JArr items) =>
        let! normalized := normalizeDrivers now items in
        Ok (Some normalized)
    | _ => Ok None
    end.

(** The data path of [loadDriverStatuses]: the request, then the
    normalization. *)
Definition driverStatusesPath (ls : Storage) (now_request now : Z)
  : Throws (option (list DriverStatusItem)) * Storage :=
  let '(r, ls') := getCurrentLocations getBaseUrl fetch ls now_request in
  (let! response := r in driverStatusesOf now response, ls').

(** The events of a call of [loadDriverStatuses] whose data path ended in
    [outcome]. *)
Definition loadDriverStatuses_events (silent : bool)
    (outcome : Throws (option (list DriverStatusItem))) : list UiEvent :=
  (if negb silent then [SetDriversLoading true] else [])
  ++ match outcome with
     | Ok (Some normalized) => [SetDriverStatuses normalized]
     | Ok None => []
     | Throw error =>
         ConsoleError error ::
         (if negb silent
          then [Toast "Falha ao carregar motoristas"
                  "Nao foi possivel atualizar o status dos motoristas."
                  "destructive"]
          else [])
     end
  ++ (if negb silent then [SetDriversLoading false] else []).

Definition loadDriverStatuses (silent : bool) (ls : Storage) (now_request now : Z)
  : list UiEvent * Storage :=
  let '(outcome, ls') := driverStatusesPath ls now_request now in
  (loadDriverStatuses_events silent outcome, ls').

End DriverStatus.

(** ** A reference platform

    An executable instance of [Platform], used to run the embedding on
    concrete inputs. [atob] follows the forgiving base64 decoding of the
    browsers. A text is read as a number by the grammar of the language,
    and a number is the double nearest to what is written; it is rendered
    with the fewest digits that are read back as the same double. The other
    functions cover a fragment of their originals and fail outside of it:
    ASCII white space, JSON texts without [\u] escapes in strings, dates
    written [YYYY-MM-DDTHH:MM:SSZ], and the byte order of strings instead of
    the pt-BR collation. The general theorems below hold for every
    platform; this one serves where a statement is about one run of the
    code. *)
Module Reference.

Definition chars (s : string) : list ascii := String.list_ascii_of_string s.
Definition unchars (l : list ascii) : string := String.string_of_list_ascii l.

Definition code (c : ascii) : Z := Z.of_N (N_of_ascii c).

Definition is_space (c : ascii) : bool :=
  let n := code c in
  (n =? 9) || (n =? 10) || (n =? 12) || (n =? 13) || (n =? 32).

Definition is_digit (c : ascii) : bool :=
  let n := code c in (48 <=? n) && (n <=? 57).

(** *** base64 *)

Definition b64_value (c : ascii) : option Z :=
  let n := code c in
  if (65 <=? n) && (n <=? 90) then Some (n - 65)
  else if (97 <=? n) && (n <=? 122) then Some (n - 71)
  else if (48 <=? n) && (n <=? 57) then Some (n + 4)
  else if n =? 43 then Some 62
  else if n =? 47 then Some 63
  else None.

Definition byte_of (z : Z) : ascii := ascii_of_N (Z.to_N (z `mod` 256)).

Fixpoint b64_bytes (l : list Z) : list ascii :=
  match l with
  | a :: b :: c :: d :: rest =>
      let w := a * 262144 + b * 4096 + c * 64 + d in
      byte_of (w `div` 65536) :: byte_of (w `div` 256) :: byte_of w
      :: b64_bytes rest
  | [a; b; c] =>
      let w := a * 4096 + b * 64 + c in
      [byte_of (w `div` 1024); byte_of (w `div` 4)]
  | [a; b] => [byte_of ((a * 64 + b) `div` 16)]
  | _ => []
  end.

Definition strip_padding (l : list ascii) : list ascii :=
  if (length l `mod` 4 =? 0)%nat then
    match reverse l with
    | "="%char :: "="%char :: r => reverse r
    | "="%char :: r => reverse r
    | _ => l
    end
  else l.

Definition atob (s : string) : Throws string :=
  let l := strip_padding (filter (fun c => is_space c = false) (chars s)) in
  if (length l `mod` 4 =? 1)%nat then Throw (JsError "InvalidCharacterError")
  else
    match mapM b64_value l with
    | Some vs => Ok (unchars (b64_bytes vs))
    | None => Throw (JsError "InvalidCharacterError")
    end.

(** *** Numbers *)

Fixpoint digits_value (acc : Z) (l : list ascii) : Z :=
  match l with
  | [] => acc
  | c :: rest => digits_value (acc * 10 + (code c - 48)) rest
  end.

Fixpoint take_digits (l : list ascii) : list ascii * list ascii :=
  match l with
  | c :: rest =>
      if is_digit c then let '(ds, r) := take_digits rest in (c :: ds, r)
      else ([], l)
  | [] => ([], [])
  end.

(** [b^e] for an exponent of either sign. *)
Definition power (b e : Z) : Q :=
  if 0 <=? e then inject_Z (b ^ e) else 1 # Z.to_pos (b ^ (- e)).

(** The integer nearest to [a / b], the even one on a tie, for [0 <= a] and
    [0 < b]. *)
Definition round_half_even (a b : Z) : Z :=
  let q := a `div` b in
  let r := a `mod` b in
  if 2 * r <? b then q
  else if b <? 2 * r then q + 1
  else if Z.even q then q else q + 1.

(** [floor (log2 (n / d))] for positive [n] and [d]. *)
Definition floor_log2 (n d : Z) : Z :=
  let t := Z.log2 n - Z.log2 d in
  if (if 0 <=? t then d * 2 ^ t <=? n else d <=? n * 2 ^ (- t)) then t
  else t - 1.

(** The double nearest to the positive rational [n / d], the one with the
    even mantissa on a tie: a mantissa of at most 53 bits and an exponent
    not below -1074. There is none from [2^1024] on. *)
Definition nearest_double (n d : Z) : option Q :=
  let e := Z.max (floor_log2 n d - 52) (-1074) in
  let m := if 0 <=? e then round_half_even n (d * 2 ^ e)
           else round_half_even (n * 2 ^ (- e)) d in
  if (0 <=? e) && (2 ^ 1024 <=? m * 2 ^ e) then None
  else Some (Qred (inject_Z m * power 2 e)).

(** The number value of a rational: the nearest double, or an infinity. *)
Definition to_double (q : Q) : JsNumber :=
  match Qnum q with
  | 0 => Fin 0%Q
  | Z.pos n =>
      match nearest_double (Z.pos n) (Z.pos (Qden q)) with
      | Some v => Fin v
      | None => PosInf
      end
  | Z.neg n =>
      match nearest_double (Z.pos n) (Z.pos (Qden q)) with
      | Some v => Fin (- v)
      | None => NegInf
      end
  end.

(** The number of decimal digits of a positive integer. *)
Definition decimal_length (z : Z) : Z := Z.of_nat (String.length (pretty z)).

(** The number value of [M * 10^scale], for the digits [ds] of [M]. Far
    outside the range of the doubles the power is not computed. *)
Definition decimal_double (neg : bool) (ds : list ascii) (scale : Z) : JsNumber :=
  let M := digits_value 0 ds in
  if M =? 0 then Fin 0%Q
  else
    let top := decimal_length M + scale in
    if 310 <? top then (if neg then NegInf else PosInf)
    else if top <? -330 then Fin 0%Q
    else to_double ((if neg then - inject_Z M else inject_Z M) * power 10 scale).

(** An optional exponent part: [None] when the [e] is followed by no
    digits. *)
Definition take_exponent (l : list ascii) : option (Z * list ascii) :=
  match l with
  | c :: r =>
      if Ascii.eqb c "e" || Ascii.eqb c "E" then
        let '(neg, r1) := match r with
                          | "-"%char :: r' => (true, r')
                          | "+"%char :: r' => (false, r')
                          | _ => (false, r)
                          end in
        let '(ds, r2) := take_digits r1 in
        match ds with
        | [] => None
        | _ => Some (if neg then - digits_value 0 ds else digits_value 0 ds, r2)
        end
      else Some (0, l)
  | [] => Some (0, [])
  end.

(** A number of a JSON text: an optional minus, an integer part without
    leading zero, an optional fraction and an optional exponent. *)
Definition parse_number (l : list ascii) : option (JsNumber * list ascii) :=
  let '(neg, l1) := match l with
                    | "-"%char :: r => (true, r)
                    | _ => (false, l)
                    end in
  let '(ip, l2) := take_digits l1 in
  match ip with
  | [] => None
  | d :: more =>
      if Ascii.eqb d "0" && negb (bool_decide (more = [])) then None
      else
        '(fp, l3) ← match l2 with
                     | "."%char :: r =>
                         let '(fp, r') := take_digits r in
                         match fp with
                         | [] => None
                         | _ => Some (fp, r')
                         end
                     | _ => Some ([], l2)
                     end;
        '(ex, l4) ← take_exponent l3;
        Some (decimal_double neg (ip ++ fp)%list (ex - Z.of_nat (length fp)), l4)
  end.

(** White space of the language, in ASCII. *)
Definition is_js_space (c : ascii) : bool :=
  let n := code c in ((9 <=? n) && (n <=? 13)) || (n =? 32).

Fixpoint trim_left (l : list ascii) : list ascii :=
  match l with
  | c :: rest => if is_js_space c then trim_left rest else l
  | [] => []
  end.

Definition trim_both (l : list ascii) : list ascii :=
  reverse (trim_left (reverse (trim_left l))).

(** The value of a digit in a base up to 16. *)
Definition digit_in (base : Z) (c : ascii) : option Z :=
  let n := code c in
  let v := if (48 <=? n) && (n <=? 57) then n - 48
           else if (97 <=? n) && (n <=? 102) then n - 87
           else if (65 <=? n) && (n <=? 70) then n - 55
           else base in
  if v <? base then Some v else None.

(** The value of a text of one digit at least in a base. *)
Definition based_value (base : Z) (l : list ascii) : option Z :=
  match l with
  | [] => None
  | _ => foldl (fun acc c => a ← acc; v ← digit_in base c; Some (a * base + v))
               (Some 0) l
  end.

(** The base that a prefix [0x], [0o] or [0b] announces. *)
Definition prefix_base (c : ascii) : option Z :=
  if Ascii.eqb c "x" || Ascii.eqb c "X" then Some 16
  else if Ascii.eqb c "o" || Ascii.eqb c "O" then Some 8
  else if Ascii.eqb c "b" || Ascii.eqb c "B" then Some 2
  else None.

(** A signed decimal literal: [Infinity], or digits with an optional
    fraction, on either side of the dot, and an optional exponent. *)
Definition decimal_literal (l : list ascii) : JsNumber :=
  let '(neg, l1) := match l with
                    | "-"%char :: r => (true, r)
                    | "+"%char :: r => (false, r)
                    | _ => (false, l)
                    end in
  if String.eqb (unchars l1) "Infinity" then (if neg then NegInf else PosInf)
  else
    let '(ip, l2) := take_digits l1 in
    let '(fp, l3) := match l2 with
                     | "."%char :: r => take_digits r
                     | _ => ([], l2)
                     end in
    match (ip ++ fp)%list with
    | [] => NaN
    | ds =>
        match take_exponent l3 with
        | Some (ex, []) => decimal_double neg ds (ex - Z.of_nat (length fp))
        | _ => NaN
        end
    end.

(** The numeric value of a text: white space is dropped at both ends, the
    empty text is zero. *)
Definition StringToNumber (s : string) : JsNumber :=
  match trim_both (chars s) with
  | [] => Fin 0%Q
  | c0 :: c1 :: r =>
      match (if Ascii.eqb c0 "0" then prefix_base c1 else None) with
      | Some base =>
          match based_value base r with
          | Some z => to_double (inject_Z z)
          | None => NaN
          end
      | None => decimal_literal (c0 :: c1 :: r)
      end
  | l => decimal_literal l
  end.

(** [s * 10^e] is read back as [x]. *)
Definition reads_back (x : Q) (s e : Z) : bool :=
  match to_double (inject_Z s * power 10 e) with
  | Fin v => Qeq_bool v x
  | _ => false
  end.

(** The integer [s] of [k] digits for which [s * 10^(n - k)] is read back as
    [x], the closest one when there are two. *)
Definition digits_at (x : Q) (n k : Z) : option Z :=
  let e := n - k in
  let scaled := (x * power 10 (- e))%Q in
  let lo := Qfloor scaled in
  let hi := lo + 1 in
  match reads_back x lo e, reads_back x hi e with
  | true, false => Some lo
  | false, true => Some hi
  | false, false => None
  | true, true =>
      match (scaled - inject_Z lo ?= 1 # 2)%Q with
      | Lt => Some lo
      | Gt => Some hi
      | Eq => Some (if Z.even lo then lo else hi)
      end
  end.

(** [n] with [10^(n-1) <= a / b < 10^n], for positive [a] and [b]. *)
Definition decimal_exponent (a b : Z) : Z :=
  let t := decimal_length a - decimal_length b in
  if (if 0 <=? t then b * 10 ^ t <=? a else b <=? a * 10 ^ (- t)) then t + 1
  else t.

Fixpoint strip_zeros (l : list ascii) : list ascii :=
  match l with
  | "0"%char :: rest => strip_zeros rest
  | _ => l
  end.

Definition zeros (n : Z) : string := unchars (replicate (Z.to_nat n) "0"%char).

(** The rendering of the digits [ds] of a number below [10^n]: plain up to
    21 integer digits and down to six zeros after the dot, with an exponent
    beyond. *)
Definition render (ds : list ascii) (n : Z) : string :=
  let k := Z.of_nat (length ds) in
  if (k <=? n) && (n <=? 21) then unchars ds ++ zeros (n - k)
  else if (0 <? n) && (n <=? 21) then
    unchars (take (Z.to_nat n) ds) ++ "." ++ unchars (drop (Z.to_nat n) ds)
  else if (-6 <? n) && (n <=? 0) then "0." ++ zeros (- n) ++ unchars ds
  else
    let e := n - 1 in
    match ds with
    | [] => ""
    | [d] => String d ""
    | d :: rest => String d ("." ++ unchars rest)
    end ++ "e" ++ (if 0 <=? e then "+" else "-") ++ pretty (Z.abs e).

(** The first length of the list at which digits are read back as [x],
    with those digits. *)
Fixpoint find_digits (x : Q) (n : Z) (ks : list Z) : option (Z * Z) :=
  match ks with
  | [] => None
  | k :: rest =>
      match digits_at x n k with
      | Some s => Some (s, k)
      | None => find_digits x n rest
      end
  end.

(** The rendering of the positive double [x] with the fewest digits that
    are read back as [x]; 17 digits always do. *)
Definition shortest (x : Q) : string :=
  let n := decimal_exponent (Qnum x) (Z.pos (Qden x)) in
  let '(s, k) := default (Qfloor (x * power 10 (17 - n)), 17)
                   (find_digits x n (map Z.of_nat (seq 1 17))) in
  let all := chars (pretty s) in
  render (reverse (strip_zeros (reverse all))) (Z.of_nat (length all) + n - k).

(** The decimal rendering of a number; a rational that is no double is
    rendered as the nearest one. *)
Definition NumberToString (n : JsNumber) : string :=
  match n with
  | NaN => "NaN"
  | PosInf => "Infinity"
  | NegInf => "-Infinity"
  | Fin q =>
      match to_double q with
      | Fin x =>
          match Qnum x with
          | 0 => "0"
          | Z.pos _ => shortest x
          | Z.neg _ => "-" ++ shortest (- x)
          end
      | PosInf => "Infinity"
      | NegInf => "-Infinity"
      | NaN => "NaN"
      end
  end.

(** *** JSON *)

(** White space of a JSON text. *)
Definition is_json_space (c : ascii) : bool :=
  let n := code c in (n =? 9) || (n =? 10) || (n =? 13) || (n =? 32).

Fixpoint skip_ws (l : list ascii) : list ascii :=
  match l with
  | c :: rest => if is_json_space c then skip_ws rest else l
  | [] => []
  end.

Definition quote : ascii := "034"%char.
Definition backslash : ascii := "092"%char.

(** The character that a one-letter escape stands for. *)
Definition unescaped (c : ascii) : option ascii :=
  if Ascii.eqb c quote || Ascii.eqb c backslash || Ascii.eqb c "/" then Some c
  else if Ascii.eqb c "b" then Some "008"%char
  else if Ascii.eqb c "t" then Some "009"%char
  else if Ascii.eqb c "n" then Some "010"%char
  else if Ascii.eqb c "f" then Some "012"%char
  else if Ascii.eqb c "r" then Some "013"%char
  else None.

(** The characters of a string up to its closing quote: no control
    character, and no escape other than the one-letter ones. *)
Fixpoint take_string (l : list ascii) : option (list ascii * list ascii) :=
  match l with
  | [] => None
  | c :: rest =>
      if Ascii.eqb c quote then Some ([], rest)
      else if code c <? 32 then None
      else if Ascii.eqb c backslash then
        match rest with
        | e :: rest' =>
            c' ← unescaped e;
            '(s, r) ← take_string rest';
            Some (c' :: s, r)
        | [] => None
        end
      else '(s, r) ← take_string rest; Some (c :: s, r)
  end.

Definition take_word (w : string) (l : list ascii) : option (list ascii) :=
  let n := String.length w in
  if String.eqb (unchars (take n l)) w then Some (drop n l) else None.

Fixpoint parse_value (fuel : nat) (l : list ascii) : option (JSON * list ascii) :=
  match fuel with
  | O => None
  | S fuel =>
      match skip_ws l with
      | [] => None
      | c :: r =>
          if Ascii.eqb c "{" then
            match skip_ws r with
            | "}"%char :: r' => Some (JObj [], r')
            | _ => parse_members fuel r []
            end
          else if Ascii.eqb c "[" then
            match skip_ws r with
            | "]"%char :: r' => Some (JArr [], r')
            | _ => parse_elements fuel r []
            end
          else if Ascii.eqb c "t" then
            r' ← take_word "true" (c :: r); Some (JBool true, r')
          else if Ascii.eqb c "f" then
            r' ← take_word "false" (c :: r); Some (JBool false, r')
          else if Ascii.eqb c "n" then
            r' ← take_word "null" (c :: r); Some (JNull, r')
          else if Ascii.eqb c quote then
            '(s, r') ← take_string r; Some (JStr (unchars s), r')
          else
            '(n, r') ← parse_number (c :: r); Some (JNum n, r')
      end
  end
with parse_members (fuel : nat) (l : list ascii) (acc : list (string * JSON))
  : option (JSON * list ascii) :=
  match fuel with
  | O => None
  | S fuel =>
      match skip_ws l with
      | c :: r =>
          if Ascii.eqb c quote then
            '(k, r1) ← take_string r;
            match skip_ws r1 with
            | ":"%char :: r2 =>
                '(v, r3) ← parse_value fuel r2;
                let acc := assoc_set (unchars k) v acc in
                match skip_ws r3 with
                | ","%char :: r4 => parse_members fuel r4 acc
                | "}"%char :: r4 => Some (JObj acc, r4)
                | _ => None
                end
            | _ => None
            end
          else None
      | [] => None
      end
  end
with parse_elements (fuel : nat) (l : list ascii) (acc : list JSON)
  : option (JSON * list ascii) :=
  match fuel with
  | O => None
  | S fuel =>
      '(v, r) ← parse_value fuel l;
      match skip_ws r with
      | ","%char :: r' => parse_elements fuel r' (acc ++ [v])
      | "]"%char :: r' => Some (JArr (acc ++ [v]), r')
      | _ => None
      end
  end.

Definition JSON_parse (s : string) : Throws JSON :=
  match parse_value (S (String.length s)) (chars s) with
  | Some (v, r) =>
      match skip_ws r with
      | [] => Ok v
      | _ => Throw (JsError "SyntaxError: Unexpected token in JSON")
      end
  | None => Throw (JsError "SyntaxError: Unexpected token in JSON")
  end.

Definition hex_digit (n : Z) : ascii :=
  ascii_of_N (Z.to_N (if n <? 10 then 48 + n else 87 + n)).

(** A character as it stands between the quotes of a JSON text. *)
Definition escaped (c : ascii) : list ascii :=
  let n := code c in
  if Ascii.eqb c quote || Ascii.eqb c backslash then [backslash; c]
  else if n =? 8 then [backslash; "b"%char]
  else if n =? 9 then [backslash; "t"%char]
  else if n =? 10 then [backslash; "n"%char]
  else if n =? 12 then [backslash; "f"%char]
  else if n =? 13 then [backslash; "r"%char]
  else if n <? 32 then
    [backslash; "u"%char; "0"%char; "0"%char;
     hex_digit (n `div` 16); hex_digit (n `mod` 16)]
  else [c].

Definition quoted (s : string) : string :=
  unchars (quote :: concat (map escaped (chars s)) ++ [quote])%list.

Fixpoint JSON_stringify (v : JSON) : string :=
  match v with
  | JNull => "null"
  | JBool true => "true"
  | JBool false => "false"
  | JNum n => if isFinite n then NumberToString n else "null"
  | JStr s => quoted s
  | JArr items =>
      "[" ++ (fix go (l : list JSON) : string :=
                match l with
                | [] => ""
                | [x] => JSON_stringify x
                | x :: rest => JSON_stringify x ++ "," ++ go rest
                end) items ++ "]"
  | JObj fields =>
      "{" ++ (fix go (l : list (string * JSON)) : string :=
                match l with
                | [] => ""
                | [(k, x)] => quoted k ++ ":" ++ JSON_stringify x
                | (k, x) :: rest =>
                    quoted k ++ ":" ++ JSON_stringify x ++ "," ++ go rest
                end) fields ++ "}"
  end.

(** The conversion of an array (its elements joined by commas, [null] as the
    empty string) or of an object ([[object Object]], a [TypeError] when an
    own property hides [toString]). *)
Fixpoint ObjectToString (v : JSON) : Throws string :=
  match v with
  | JNull => Ok ""
  | JBool true => Ok "true"
  | JBool false => Ok "false"
  | JNum n => Ok (NumberToString n)
  | JStr s => Ok s
  | JArr items =>
      (fix go (l : list JSON) : Throws string :=
         match l with
         | [] => Ok ""
         | [x] => ObjectToString x
         | x :: rest =>
             let! a := ObjectToString x in
             let! b := go rest in
             Ok (a ++ "," ++ b)
         end) items
  | JObj fields =>
      match assoc_get "toString" fields with
      | Some _ => Throw (JsError "TypeError: Cannot convert object to primitive value")
      | None => Ok "[object Object]"
      end
  end.

(** *** Dates *)

Definition days_from_civil (y m d : Z) : Z :=
  let y' := if m <=? 2 then y - 1 else y in
  let era := y' `div` 400 in
  let yoe := y' - era * 400 in
  let doy := (153 * (if 2 <? m then m - 3 else m + 9) + 2) `div` 5 + d - 1 in
  let doe := yoe * 365 + yoe `div` 4 - yoe `div` 100 + doy in
  era * 146097 + doe - 719468.

Definition field (from len : nat) (l : list ascii) : option Z :=
  let ds := take len (drop from l) in
  if forallb is_digit ds && (length ds =? len)%nat then Some (digits_value 0 ds)
  else None.

(** [YYYY-MM-DDTHH:MM:SSZ], in milliseconds since the epoch. *)
Definition Date_parse (s : string) : option Z :=
  let l := chars s in
  if negb (String.eqb (unchars (omap (fun i => l !! i) [4; 7; 10; 13; 16; 19]%nat)) "--T::Z"
           && (length l =? 20)%nat)
  then None
  else
    y ← field 0 4 l; mo ← field 5 2 l; d ← field 8 2 l;
    h ← field 11 2 l; mi ← field 14 2 l; se ← field 17 2 l;
    if (1 <=? mo) && (mo <=? 12) && (1 <=? d) && (d <=? 31)
       && (h <=? 23) && (mi <=? 59) && (se <=? 59)
    then Some ((((days_from_civil y mo d * 24 + h) * 60 + mi) * 60 + se) * 1000)
    else None.

Definition localeCompare (a b : string) : Z :=
  match String_as_OT.compare a b with
  | Lt => -1
  | Eq => 0
  | Gt => 1
  end.

Definition createObjectURL (content : string) : string := "blob:" ++ content.

Definition platform : Platform :=
  Build_Platform atob JSON_parse StringToNumber NumberToString ObjectToString
    Date_parse localeCompare JSON_stringify createObjectURL.

(** The routing table of the examples: one host for every endpoint. *)
Definition getBaseUrl (endpoint : string) : string := "http://localhost:3000".

(** A backend that answers every request with the same response. *)
Definition always (r : Throws Response) : string -> RequestInit -> Throws Response :=
  fun _ _ => r.

Definition respond (st : Z) (text : string) : Response :=
  {| ok := (200 <=? st) && (st <=? 299);
     status := st;
     statusText := "";
     json := JSON_parse text;
     blob := Ok text |}.

Definition respond_json (st : Z) (v : JSON) : Response :=
  {| ok := (200 <=? st) && (st <=? 299);
     status := st;
     statusText := "";
     json := Ok v;
     blob := Ok (JSON_stringify v) |}.

End Reference.

(** ** Notions used by the statements *)

(** Every character of [s] satisfies [p]. *)
Fixpoint str_all (p : ascii -> bool) (s : string) : bool :=
  match s with
  | EmptyString => true
  | String a rest => p a && str_all p rest
  end.

(** The message that the [catch] of [request] makes of the message of an
    [Error], as the specification words it. *)
Definition classified (message : string) : string :=
  if includes "secretOrPrivateKey" message then CONFIG_ERROR
  else if includes "Failed to fetch" message then CONNECTION_ERROR
  else message.

(** A token whose payload is the JSON text of an object with the single
    member [exp], equal to 2000000000. *)
Definition sample_token : string := "x.eyJleHAiOjIwMDAwMDAwMDB9.y".

(** *** The words of the token check *)

(** The active token of a storage: the final slot when it holds a text
    that is not empty, the temporary slot otherwise; an empty text is no
    token. *)
Definition active_token (ls : Storage) (token : string) : Prop :=
  token ≠ ""
  /\ (ls !! "id_transporte_token" = Some token
      \/ ((ls !! "id_transporte_token" = None
           \/ ls !! "id_transporte_token" = Some "")
          /\ ls !! "temp_token" = Some token)).

(** [s] holds no occurrence of the character [c]. *)
Definition free_of (c : ascii) (s : string) : Prop :=
  str_all (fun a => negb (Ascii.eqb a c)) s = true.

(** [token] is made of exactly three segments delimited by dots. *)
Definition three_segments (token header segment signature : string) : Prop :=
  token = header ++ "." ++ segment ++ "." ++ signature
  /\ free_of "." header /\ free_of "." segment /\ free_of "." signature.

(** base64url is base64 written with [-] for [+] and [_] for [/]. *)
Definition base64url_char (c : ascii) : ascii :=
  if Ascii.eqb c "-" then "+"%char
  else if Ascii.eqb c "_" then "/"%char
  else c.

(** A text of base64url in the alphabet of base64. *)
Definition base64url_to_base64 (s : string) : string :=
  String.string_of_list_ascii
    (map base64url_char (String.list_ascii_of_string s)).

(** The number [n] lies strictly after the second [seconds]. *)
Definition strictly_after (n : JsNumber) (seconds : Z) : Prop :=
  match n with
  | Fin q => (inject_Z seconds < q)%Q
  | PosInf => True
  | NaN | NegInf => False
  end.

(** A token whose payload, the JSON text of an object with the members
    [sub] and [exp], is written in base64url with both [_] and [-]; [exp]
    is 2000000000. *)
Definition sample_token_url : string :=
  "x.eyJzdWIiOiI_Pz4-IiwiZXhwIjoyMDAwMDAwMDAwfQ.y".

(** Tokens whose [exp] is the text [2000000000] and the array
    [[2000000000]]. *)
Definition text_exp_token : string := "x.eyJleHAiOiIyMDAwMDAwMDAwIn0.y".
Definition array_exp_token : string := "x.eyJleHAiOlsyMDAwMDAwMDAwXX0.y".


(** [driver['driver_id'] ?? driver['id']] for [driver = raw ?? {}]. *)
Definition rawDriverId (raw : JSON) : option JSON :=
  nullish (get_prop_opt (Some raw) "driver_id") (get_prop_opt (Some raw) "id").

(** ** Sample inputs *)

Definition sample_credentials : JSON :=
  JObj [("username", JStr "ana"); ("password", JStr "segredo")].

Definition sample_token_user : JSON :=
  JObj [("token", JStr "t"); ("user", JObj [("id", JStr "1")])].

(** The body [{ data: { token, user } }]. *)
Definition nested_body : JSON := JObj [("data", sample_token_user)].

(** The body [{ data: { data: { token, user } } }]. *)
Definition double_nested_body : JSON := JObj [("data", nested_body)].

(** A backend that answers every request with status 200 and [body]. *)
Definition backend (body : JSON) : string -> RequestInit -> Throws Response :=
  Reference.always (Ok (Reference.respond_json 200 body)).


Definition sample_items : list DriverStatusItem :=
  [{| item_id := "a1"; item_name := "Ana"; item_speed := Fin 0%Q;
      item_lastUpdate := None; item_status := offline |};
   {| item_id := "2"; item_name := "Bruno"; item_speed := Fin (-3)%Q;
      item_lastUpdate := Some "2024-01-01T00:00:50Z"; item_status := idle |}].



(** A snapshot whose identifier cannot be converted to a string. *)
Definition unprintable_id_locations : JSON :=
  JArr [JObj [("driver_id", JObj [("toString", JNull)])]].

(** Ten seconds after the last update of Bruno. *)
Definition sample_now : Z := 1704067260000.

(** * The other operations *)

(** ** More of ApiService *)

(** [delete o[k]], or a key whose value is [undefined]: such a key is not
    serialised and reads as [undefined], so it is left out. *)
Fixpoint assoc_remove (k : string) (fields : list (string * JSON))
  : list (string * JSON) :=
  match fields with
  | [] => []
  | (k', v) :: rest =>
      if String.eqb k k' then assoc_remove k rest
      else (k', v) :: assoc_remove k rest
  end.

(** The options of an endpoint with a JSON body:
    [{ method, body: JSON.stringify(v) }]. *)
Definition json_options {P : Platform} (verb : string) (v : JSON) : RequestInit :=
  {| method := Some verb; headers := None;
     body := Some (BodyText (JSON_stringify v)) |}.

(** The options of an endpoint with a multipart body:
    [{ method: 'POST', body: formData }]. *)
Definition form_options (formData : list (string * string)) : RequestInit :=
  {| method := Some "POST"; headers := None;
     body := Some (BodyFormData formData) |}.

(** [occurrenceData] of [createOccurrence]; a file is given by its
    content. *)
Record OccurrenceData : Type := {
  occ_type : string;
  occ_description : string;
  occ_photo : option string;
  occ_latitude : option JsNumber;
  occ_longitude : option JsNumber
}.

(** A value of the payload of [createDelivery]: [undefined], a [Blob] (or
    [File]) given by its content, or plain data. *)
Inductive PayloadValue : Type :=
| PUndefined
| PBlob (content : string)
| PData (v : JSON).

(** Truthiness of an optional number: [if (occurrenceData.latitude)]. *)
Definition truthy_number (n : option JsNumber) : bool :=
  match n with
  | Some x => truthy (Some (JNum x))
  | None => false
  end.

Section Endpoints.
Context {P : Platform}.
Variable getBaseUrl : string -> string.
Variable fetch : string -> RequestInit -> Throws Response.

(** The unwrapping shared by [login] and [getAuthCompanies]:
    [if (response.success && response.data && response.data.data)
       return { ...response, data: response.data.data };
     return response;] *)
Definition unwrapData (response : JSON) : Throws JSON :=
  let! success := get_prop response "success" in
  if negb (truthy success) then Ok response
  else
    let! data := get_prop response "data" in
    if negb (truthy data) then Ok response
    else
      let! inner := get_prop (default JNull data) "data" in
      match inner with
      | Some v => if truthy inner then Ok (with_data response v) else Ok response
      | None => Ok response
      end.

Definition getAuthCompanies (ls : Storage) (now : Z) : Throws JSON * Storage :=
  let '(r, ls') := request getBaseUrl fetch ls now "/api/auth/companies" no_options in
  (let! response := r in unwrapData response, ls').

Definition createDriver (ls : Storage) (now : Z) (driverData : JSON)
  : Throws JSON * Storage :=
  request getBaseUrl fetch ls now "/api/drivers" (json_options "POST" driverData).

(** [{ ...payload, name: payload.full_name }] *)
Definition withName (payload : list (string * JSON)) : list (string * JSON) :=
  match assoc_get "full_name" payload with
  | Some v => assoc_set "name" v payload
  | None => assoc_remove "name" payload
  end.

Definition REGISTER_FAILED : string := "Falha ao registrar a conta do motorista.".

(** [registerDriverAccount]. In the result [{ success: true, data:
    response.data }] the key [data] is left out when its value is
    [undefined]; so is [error] in the [catch] when the thrown value has no
    [message]. *)
Definition registerDriverAccount (ls : Storage) (now : Z)
    (payload : list (string * JSON)) : Throws JSON * Storage :=
  let '(r, ls') := createDriver ls now (JObj (withName payload)) in
  (try_catch
     (let! response := r in
      let! success := get_prop response "success" in
      if negb (truthy success) then
        let! err := get_prop response "error" in
        let! msg := (if truthy err then ToStringJ (default JNull err)
                     else Ok REGISTER_FAILED) in
        Throw (JsError msg)
      else
        let! data := get_prop response "data" in
        Ok (JObj (("success", JBool true)
                  :: match data with
                     | Some d => [("data", d)]
                     | None => []
                     end)))
     (fun error =>
        Ok (match error with
            | JsError message => failed message
            | NonError _ => JObj [("success", JBool false)]
            end)),
   ls').

Definition attachReceipt_form (deliveryId driverId receiptFile : string)
  : list (string * string) :=
  [("file", receiptFile); ("delivery_id", deliveryId); ("driver_id", driverId)].

Definition attachReceipt (ls : Storage) (now : Z)
    (deliveryId driverId receiptFile : string) : Throws JSON * Storage :=
  request getBaseUrl fetch ls now "/api/receipts/upload"
    (form_options (attachReceipt_form deliveryId driverId receiptFile)).

Definition uploadReceipt (ls : Storage) (now : Z)
    (formData : list (string * string)) : Throws JSON * Storage :=
  request getBaseUrl fetch ls now "/api/receipts/upload" (form_options formData).

Definition smartProcessDocument (ls : Storage) (now : Z) (file : string)
  : Throws JSON * Storage :=
  request getBaseUrl fetch ls now "/api/receipts/process-documentai"
    (form_options [("file", file)]).

(** The form built by [createOccurrence]: the photo and each coordinate
    are appended only when truthy. *)
Definition createOccurrence_form (occurrenceData : OccurrenceData)
  : list (string * string) :=
  [("type", occ_type occurrenceData);
   ("description", occ_description occurrenceData)]
  ++ match occ_photo occurrenceData with
     | Some photo => [("photo", photo)]
     | None => []
     end
  ++ (if truthy_number (occ_latitude occurrenceData)
      then [("latitude",
             NumberToString (default NaN (occ_latitude occurrenceData)))]
      else [])
  ++ (if truthy_number (occ_longitude occurrenceData)
      then [("longitude",
             NumberToString (default NaN (occ_longitude occurrenceData)))]
      else []).

Definition createOccurrence (ls : Storage) (now : Z) (deliveryId : string)
    (occurrenceData : OccurrenceData) : Throws JSON * Storage :=
  request getBaseUrl fetch ls now
    ("/api/deliveries/" ++ deliveryId ++ "/occurrence")
    (form_options (createOccurrence_form occurrenceData)).

(** What [createDelivery] appends for one own key of the payload. *)
Definition createDelivery_entry (key : string) (value : PayloadValue)
  : option (string * string) :=
  match value with
  | PUndefined => None
  | PData JNull => None
  | PBlob content => Some (key, content)
  | PData (JArr items) => Some (key, JSON_stringify (JArr items))
  | PData (JObj fields) => Some (key, JSON_stringify (JObj fields))
  | PData (JBool true) => Some (key, "true")
  | PData (JBool false) => Some (key, "false")
  | PData (JNum n) => Some (key, NumberToString n)
  | PData (JStr s) => Some (key, s)
  end.

(** The form built by the loop of [createDelivery] over the own keys of the
    payload, given in the order of their enumeration. *)
Definition createDelivery_form (payload : list (string * PayloadValue))
  : list (string * string) :=
  omap (fun kv => createDelivery_entry kv.1 kv.2) payload.

Definition createDelivery (ls : Storage) (now : Z)
    (payload : list (string * PayloadValue)) : Throws JSON * Storage :=
  request getBaseUrl fetch ls now "/api/deliveries/create-from-sefaz"
    (form_options (createDelivery_form payload)).

End Endpoints.

(** ** More of SupervisorDashboard *)

(** [formatRelativeTime]; [now] is [Date.now()]. The numbers shown are
    integers far below [10^21], written in decimal. *)
Definition formatRelativeTime {P : Platform} (timestamp : option string) (now : Z)
  : string :=
  match timestamp with
  | None => "Sem atualizacao"
  | Some ts =>
      if str_empty ts then "Sem atualizacao"
      else
        match Date_parse ts with
        | None => "Sem atualizacao"
        | Some parsed =>
            let diffMs := now - parsed in
            if diffMs <? 60000 then "Agora mesmo"
            else
              let diffMinutes := diffMs `div` 60000 in
              if diffMinutes <? 60 then "Ha " ++ pretty diffMinutes ++ " min"
              else
                let diffHours := diffMinutes `div` 60 in
                if diffHours <? 24 then "Ha " ++ pretty diffHours ++ " h"
                else
                  let diffDays := diffHours `div` 24 in
                  "Ha " ++ pretty diffDays ++ " d"
        end
  end.

(** The raw entry has an identifier: [driver_id ?? id] is neither
    [undefined] nor [null]. *)
Definition hasDriverId (raw : JSON) : bool :=
  match rawDriverId raw with
  | None | Some JNull => false
  | Some _ => true
  end.

(** The state [stats] of the dashboard. *)
Record DashboardStats : Type := {
  totalEntregas : JsNumber;
  entregasRealizadas : JsNumber;
  entregasPendentes : JsNumber;
  motoristasAtivos : JsNumber
}.

(** What [loadDashboardData] does to the page, in order; the console output
    is left out. *)
Inductive DashboardEvent : Type :=
| SetStats (newStats : DashboardStats)
| DashboardToast (title description variant : string)
| SetLoading (b : bool).

Section DashboardData.
Context {P : Platform}.
Variable getBaseUrl : string -> string.
Variable fetch : string -> RequestInit -> Throws Response.

(** [Number(v ?? 0) || 0] *)
Definition numberOrZero (v : option JSON) : Throws JsNumber :=
  let! n := ToNumber (nullish v (Some (JNum (Fin 0%Q)))) in
  Ok (if truthy (Some (JNum n)) then n else Fin 0%Q).

(** [a ?? b ?? 0], a value that is never nullish. *)
Definition firstOrZero (a b : option JSON) : JSON :=
  default (JNum (Fin 0%Q)) (nullish a (nullish b (Some (JNum (Fin 0%Q))))).

(** [kpis.today_deliveries ?? kpis.todayDeliveries ?? { total: ...,
    completed: ..., pending: ... }], for a truthy [kpis]. *)
Definition todayDeliveriesOf (kpis : JSON) : option JSON :=
  let get k := get_prop_opt (Some kpis) k in
  nullish (get "today_deliveries")
    (nullish (get "todayDeliveries")
       (Some (JObj [("total",
                     firstOrZero (get "total_deliveries") (get "totalEntregas"));
                    ("completed",
                     firstOrZero (get "completed_deliveries")
                       (get "entregasRealizadas"));
                    ("pending",
                     firstOrZero (get "pending_deliveries")
                       (get "entregasPendentes"))]))).

(** The [newStats] computed from a truthy [kpis]. *)
Definition kpiStats (kpis : JSON) : Throws DashboardStats :=
  let get k := get_prop_opt (Some kpis) k in
  let todayDeliveries := todayDeliveriesOf kpis in
  let! total := numberOrZero (get_prop_opt todayDeliveries "total") in
  let! completed := numberOrZero (get_prop_opt todayDeliveries "completed") in
  let! pending := numberOrZero (get_prop_opt todayDeliveries "pending") in
  let! active := numberOrZero (nullish (get "active_drivers") (get "activeDrivers")) in
  Ok {| totalEntregas := total; entregasRealizadas := completed;
        entregasPendentes := pending; motoristasAtivos := active |}.

(** The body of the [try] of [loadDashboardData] once the response is
    there. *)
Definition dashboardStatsOf (response : JSON) : Throws (option DashboardStats) :=
  let! success := get_prop response "success" in
  if negb (truthy success) then Ok None
  else
    let! data := get_prop response "data" in
    match data with
    | Some kpis =>
        if truthy data then
          let! newStats := kpiStats kpis in
          Ok (Some newStats)
        else Ok None
    | None => Ok None
    end.

Definition getDashboardKPIs (ls : Storage) (now : Z) : Throws JSON * Storage :=
  request getBaseUrl fetch ls now "/api/dashboard/kpis" no_options.

Definition loadDashboardData_events (outcome : Throws (option DashboardStats))
  : list DashboardEvent :=
  match outcome with
  | Ok (Some newStats) => [SetStats newStats]
  | Ok None => []
  | Throw _ =>
      [DashboardToast "Erro ao carregar dados"
         "Não foi possível carregar os dados do dashboard" "destructive"]
  end
  ++ [SetLoading false].

Definition loadDashboardData (ls : Storage) (now : Z)
  : list DashboardEvent * Storage :=
  let '(r, ls') := getDashboardKPIs ls now in
  (loadDashboardData_events (let! response := r in dashboardStatsOf response),
   ls').

End DashboardData.

(** ** The driver form of the dashboard *)

(** [/\d/]: a decimal digit. *)
Definition isDigit (c : ascii) : bool :=
  let n := N_of_ascii c in (48 <=? n)%N && (n <=? 57)%N.

(** [s.replace(/\D/g, '')] *)
Fixpoint stripNonDigits (s : string) : string :=
  match s with
  | EmptyString => EmptyString
  | String c rest =>
      if isDigit c then String c (stripNonDigits rest) else stripNonDigits rest
  end.

(** The values of the form, once the schema has accepted them. *)
Record DriverFormValues : Type := {
  dfv_name : string;
  dfv_username : string;
  dfv_email : string;
  dfv_password : string;
  dfv_cpf : string;
  dfv_cnh : string;
  dfv_phone : string;
  dfv_company_id : string
}.

(** The [payload] of [onSubmit]. *)
Definition driverPayload (data : DriverFormValues) : list (string * JSON) :=
  [("username", JStr (dfv_username data));
   ("password", JStr (dfv_password data));
   ("email", JStr (dfv_email data));
   ("full_name", JStr (dfv_name data));
   ("cpf", JStr (stripNonDigits (dfv_cpf data)));
   ("cnh", JStr (stripNonDigits (dfv_cnh data)));
   ("phone", JStr (stripNonDigits (dfv_phone data)));
   ("company_id", JStr (dfv_company_id data))].

(** What [onSubmit] does to the dialog, in order. *)
Inductive FormEvent : Type :=
| SetIsSubmitting (b : bool)
| FormToast (title description : string) (destructive : bool)
| OnSuccess
| OnOpenChange (open : bool)
| FormReset
| FormConsoleError (error : Exn).

Definition is_form_toast (ev : FormEvent) : bool :=
  match ev with
  | FormToast _ _ _ => true
  | _ => false
  end.

(** [error.message || fallback] in a [catch (error: any)]. *)
Definition messageOr (error : Exn) (fallback : string) : string :=
  match error with
  | JsError message => if str_empty message then fallback else message
  | NonError _ => fallback
  end.

Section DriverFormSubmit.
Context {P : Platform}.
Variable getBaseUrl : string -> string.
Variable fetch : string -> RequestInit -> Throws Response.

(** The [try] of [onSubmit] after the response of [registerDriverAccount]:
    the events of the success branch, or the error thrown. *)
Definition onSubmit_try (data : DriverFormValues) (r : Throws JSON)
  : Throws (list FormEvent) :=
  let! response := r in
  let! success := get_prop response "success" in
  if truthy success then
    Ok [FormToast "Motorista Cadastrado!"
          ("O motorista " ++ dfv_name data ++ " foi criado com sucesso.") false;
        OnSuccess; OnOpenChange false; FormReset]
  else
    let! err := get_prop response "error" in
    let! msg := (if truthy err then ToStringJ (default JNull err)
                 else Ok "Falha ao criar motorista.") in
    Throw (JsError msg).

Definition onSubmit (ls : Storage) (now : Z) (data : DriverFormValues)
  : list FormEvent * Storage :=
  let '(r, ls') :=
    registerDriverAccount getBaseUrl fetch ls now (driverPayload data) in
  (([SetIsSubmitting true]
    ++ match onSubmit_try data r with
      | Ok events => events
      | Throw error =>
          [FormConsoleError error;
           FormToast "Erro no Cadastro"
             (messageOr error
                "Não foi possível cadastrar o motorista. Tente novamente.")
             true]
      end
    ++ [SetIsSubmitting false])%list,
   ls').

End DriverFormSubmit.

(** ** The driver form of the pages: the company of the form *)

Record DriverFormData : Type := {
  fd_name : string;
  fd_username : string;
  fd_email : string;
  fd_password : string;
  fd_cpf : string;
  fd_cnh : string;
  fd_phone : string;
  fd_company_id : string
}.

Definition withCompany (prev : DriverFormData) (company : string) : DriverFormData :=
  {| fd_name := fd_name prev; fd_username := fd_username prev;
     fd_email := fd_email prev; fd_password := fd_password prev;
     fd_cpf := fd_cpf prev; fd_cnh := fd_cnh prev; fd_phone := fd_phone prev;
     fd_company_id := company |}.

(** The function given to [setFormData] by the effect on the company:
    [prev => { if (normalized && prev.company_id !== normalized) ...;
               if (!normalized && prev.company_id) ...; return prev; }] *)
Definition syncCompany (normalized : string) (prev : DriverFormData)
  : DriverFormData :=
  if negb (str_empty normalized)
     && negb (String.eqb (fd_company_id prev) normalized)
  then withCompany prev normalized
  else if str_empty normalized && negb (str_empty (fd_company_id prev))
  then withCompany prev ""
  else prev.

(** ** The page of the users *)

Record AuthUser : Type := {
  au_role : option string;
  au_user_type : option string
}.

(** [authUser?.role || authUser?.user_type] *)
Definition userRoleOf (authUser : option AuthUser) : option string :=
  match authUser with
  | None => None
  | Some u => if token_present (au_role u) then au_role u else au_user_type u
  end.

(** [getAllowedUserTypes]: the pairs of [value] and [label]. *)
Definition getAllowedUserTypes (authUser : option AuthUser)
  : list (string * string) :=
  match userRoleOf authUser with
  | Some userRole =>
      if String.eqb userRole "MASTER" then
        [("ADMIN", "Administrador"); ("SUPERVISOR", "Supervisor");
         ("OPERATOR", "Operador"); ("DRIVER", "Motorista");
         ("CLIENT", "Cliente")]
      else if String.eqb userRole "ADMIN" || String.eqb userRole "ADMINISTRADOR" then
        [("SUPERVISOR", "Supervisor"); ("OPERATOR", "Operador");
         ("DRIVER", "Motorista"); ("CLIENT", "Cliente")]
      else if String.eqb userRole "SUPERVISOR" then
        [("OPERATOR", "Operador"); ("DRIVER", "Motorista")]
      else []
  | None => []
  end.



Section UsersPage.
(** [toUpperCase], [toLowerCase] and [trim] of the language. *)
Variable toUpperCase : string -> string.
Variable toLowerCase : string -> string.
Variable trim : string -> string.

(** [(formData.status || 'ATIVO').toUpperCase() === 'INATIVO'
      ? 'INATIVO' : 'ATIVO'] *)
Definition normalizedStatus (status : string) : string :=
  if String.eqb (toUpperCase (if str_empty status then "ATIVO" else status))
       "INATIVO"
  then "INATIVO" else "ATIVO".

(** [is_active: normalizedStatus === 'ATIVO'] *)
Definition isActiveFlag (status : string) : bool :=
  String.eqb (normalizedStatus status) "ATIVO".

(** [isActive] of [getStatusBadge]. *)
Definition statusIsActive (status : option JSON) : bool :=
  match status with
  | Some (JStr text) =>
      let s := toLowerCase (trim text) in
      if String.eqb s "ativo" || String.eqb s "active" || String.eqb s "1" then true
      else if String.eqb s "inativo" || String.eqb s "inactive" || String.eqb s "0"
      then false
      else truthy status
  | _ => truthy status
  end.

(** [user.status || user.is_active], the argument of [getStatusBadge] in
    the table. *)
Definition shownStatus (status is_active : option JSON) : option JSON :=
  if truthy status then status else is_active.



End UsersPage.

(** ** More sample inputs *)

(** The case conversions and the trimming of the language, on ASCII
    texts. *)
Module ReferenceText.

Definition upper_char (c : ascii) : ascii :=
  let n := N_of_ascii c in
  if (97 <=? n)%N && (n <=? 122)%N then ascii_of_N (n - 32) else c.

Definition lower_char (c : ascii) : ascii :=
  let n := N_of_ascii c in
  if (65 <=? n)%N && (n <=? 90)%N then ascii_of_N (n + 32) else c.

Fixpoint map_chars (f : ascii -> ascii) (s : string) : string :=
  match s with
  | EmptyString => EmptyString
  | String c rest => String (f c) (map_chars f rest)
  end.

Definition toUpperCase : string -> string := map_chars upper_char.
Definition toLowerCase : string -> string := map_chars lower_char.

Fixpoint trim_start (s : string) : string :=
  match s with
  | String c rest => if Reference.is_js_space c then trim_start rest else s
  | EmptyString => EmptyString
  end.

Definition trim (s : string) : string :=
  Reference.unchars
    (reverse (Reference.chars
                (trim_start
                   (Reference.unchars
                      (reverse (Reference.chars (trim_start s))))))).

End ReferenceText.

(** A storage with an expired token and a preference of the user. *)
Definition stale_storage : Storage :=
  {["id_transporte_token" := sample_token; "theme" := "dark"]}.

Definition sample_driver : DriverFormValues :=
  {| dfv_name := "Ana Souza"; dfv_username := "ana"; dfv_email := "ana@x.com";
     dfv_password := "Segredo1"; dfv_cpf := "123.456.789-09";
     dfv_cnh := "01234567890"; dfv_phone := "(11) 99999-0000";
     dfv_company_id := "7" |}.

(** An occurrence reported at latitude zero. *)
Definition equator_occurrence : OccurrenceData :=
  {| occ_type := "avaria"; occ_description := "caixa amassada";
     occ_photo := None; occ_latitude := Some (Fin 0%Q);
     occ_longitude := Some (Fin (-47)%Q) |}.

Definition sample_delivery : list (string * PayloadValue) :=
  [("file", PBlob "xml"); ("notes", PData JNull);
   ("nf_number", PData (JStr "123")); ("driver_id", PUndefined)].

(** A backend that creates the driver when it receives the POST to
    [/api/drivers] whose body is the JSON text of [expected], and that no
    other request reaches. *)
Definition drivers_backend (expected : JSON)
  : string -> RequestInit -> Throws Response :=
  fun url init =>
    match method init, body init with
    | Some verb, Some (BodyText text) =>
        if String.eqb url "http://localhost:3000/api/drivers"
           && String.eqb verb "POST"
           && String.eqb text (Reference.JSON_stringify expected)
        then Ok (Reference.respond_json 201 (JObj [("id", JStr "d1")]))
        else Throw (JsError "TypeError: Failed to fetch")
    | _, _ => Throw (JsError "TypeError: Failed to fetch")
    end.



(** * Properties *)

(** ** Strings, numbers and exceptions *)

Lemma str_empty_true (s : string) : str_empty s = true <-> s = "".
Proof. destruct s; simpl; split; congruence. Qed.

Lemma str_empty_false (s : string) : str_empty s = false <-> s ≠ "".
Proof. destruct s; simpl; split; congruence. Qed.

Lemma bindT_Ok {A B} (m : Throws A) (k : A -> Throws B) (b : B) :
  bindT m k = Ok b <-> exists a, m = Ok a /\ k a = Ok b.
Proof.
  destruct m as [a|e]; simpl; split.
  - eauto.
  - intros (a' & Ha & Hk). congruence.
  - discriminate.
  - intros (a' & Ha & _). discriminate.
Qed.

Lemma bindT_Throw {A B} (m : Throws A) (k : A -> Throws B) (e : Exn) :
  bindT m k = Throw e <-> m = Throw e \/ exists a, m = Ok a /\ k a = Throw e.
Proof.
  destruct m as [a|e']; simpl; split.
  - eauto.
  - intros [H|(a' & Ha & Hk)]; congruence.
  - intros [= ->]. by left.
  - intros [[= ->]|(a' & Ha & _)]; [done | discriminate].
Qed.

Lemma num_gt_Fin (x y : Q) : num_gt (Fin x) (Fin y) = true <-> (y < x)%Q.
Proof.
  simpl. rewrite negb_true_iff. split.
  - intros H. apply Qnot_le_lt. intros Hle. apply Qle_bool_iff in Hle. congruence.
  - intros H. destruct (Qle_bool x y) eqn:E; [|done].
    apply Qle_bool_iff in E. exfalso. by apply (Qlt_not_le y x).
Qed.

Lemma num_gt_NaN_l (n : JsNumber) : num_gt NaN n = false.
Proof. by destruct n. Qed.

Lemma num_lt_zero (q : Q) : (q < 0)%Q -> num_lt (Fin q) (Fin 0%Q) = true.
Proof. intros H. unfold num_lt. by apply num_gt_Fin. Qed.

(** [split] yields three segments exactly when the check of the length
    passes; the second one is then [parts[1]]. *)
Lemma three_parts (parts : list string) :
  Nat.eqb (length parts) 3 = true <->
  exists a b c, parts = [a; b; c].
Proof.
  split.
  - intros H. apply Nat.eqb_eq in H.
    destruct parts as [|a [|b [|c [|d rest]]]]; simplify_eq/=. eauto.
  - intros (a & b & c & ->). done.
Qed.

(** ** The token store *)

Section TokenStore.
Context {P : Platform}.

(** The final slot is preferred, the temporary one is the fallback. *)
Lemma readToken_final (ls : Storage) (t : string) :
  ls !! "id_transporte_token" = Some t -> t ≠ "" -> readToken ls = Some t.
Proof.
  intros H Hne. unfold readToken, getItem. rewrite H. simpl.
  apply str_empty_false in Hne. by rewrite Hne.
Qed.

Lemma readToken_fallback (ls : Storage) :
  ls !! "id_transporte_token" = None \/ ls !! "id_transporte_token" = Some "" ->
  readToken ls = ls !! "temp_token".
Proof. intros [H|H]; unfold readToken, getItem; by rewrite H. Qed.

Lemma isTokenValid_try_true (token : string) (now : Z) :
  isTokenValid_try token now = Ok true <->
  exists header segment signature decoded payload exp,
    split_on "." token = [header; segment; signature] /\
    atob (replace_all "_" "/" (replace_all "-" "+" segment)) = Ok decoded /\
    JSON_parse decoded = Ok payload /\
    get_prop payload "exp" = Ok exp /\
    js_gt exp (num_of_Z (now `div` 1000)) = Ok true.
Proof.
  unfold isTokenValid_try. split.
  - destruct (Nat.eqb (length (split_on "." token)) 3) eqn:E; simpl; [|discriminate].
    apply three_parts in E as (a & b & c & E). rewrite E. simpl.
    intros H.
    apply bindT_Ok in H as (decoded & Hd & H).
    apply bindT_Ok in H as (payload & Hp & H).
    apply bindT_Ok in H as (exp & He & H).
    exists a, b, c, decoded, payload, exp. done.
  - intros (a & b & c & decoded & payload & exp & E & Hd & Hp & He & H).
    rewrite E. simpl. rewrite Hd. simpl. rewrite Hp. simpl. rewrite He. simpl.
    done.
Qed.

Lemma isTokenValid_true (ls : Storage) (now : Z) :
  isTokenValid ls now = true <->
  exists token, readToken ls = Some token /\ token ≠ "" /\
                isTokenValid_try token now = Ok true.
Proof.
  unfold isTokenValid. split.
  - destruct (readToken ls) as [token|]; [|discriminate].
    destruct (str_empty token) eqn:E; [discriminate|].
    apply str_empty_false in E.
    destruct (isTokenValid_try token now) as [b|e] eqn:Ht; [|discriminate].
    intros ->. by exists token.
  - intros (token & -> & Hne & ->). apply str_empty_false in Hne. by rewrite Hne.
Qed.

(** The active token is what the opening lines read, when it is truthy. *)
Lemma active_token_read (ls : Storage) (token : string) :
  active_token ls token <-> readToken ls = Some token /\ token ≠ "".
Proof.
  unfold active_token, readToken, getItem, token_present. split.
  - intros (Hne & H). split; [|done]. apply str_empty_false in Hne.
    destruct H as [H|[[H|H] Ht]]; rewrite H; simpl; rewrite ?Hne; done.
  - destruct (ls !! "id_transporte_token") as [t|] eqn:Hf.
    + destruct (str_empty t) eqn:He; cbn [negb].
      * apply str_empty_true in He as ->. intros [Ht Hne]. split; [done|].
        right. split; [by right | done].
      * intros [[= ->] Hne]. split; [done | by left].
    + cbn [negb]. intros [Ht Hne]. split; [done|].
      right. split; [by left | done].
Qed.

(** A text without the separator is its own single segment. *)
Lemma split_on_free (c : ascii) (s : string) :
  free_of c s -> split_on c s = [s].
Proof.
  unfold free_of. induction s as [|a s IH]; [done|].
  cbn [str_all split_on]. intros [Ha Hs]%andb_prop.
  apply negb_true_iff in Ha. rewrite Ha, IH; done.
Qed.

(** The first segment ends at the first separator. *)
Lemma split_on_app (c : ascii) (a rest : string) :
  free_of c a -> split_on c (a ++ String c rest) = a :: split_on c rest.
Proof.
  unfold free_of. induction a as [|x a IH].
  - intros _. simpl. by rewrite Ascii.eqb_refl.
  - simpl. intros [Hx Ha]%andb_prop.
    apply negb_true_iff in Hx. rewrite Hx, IH; done.
Qed.

(** No segment holds the separator, and the segments joined by the
    separator give the text back. *)
Lemma split_on_segments (c : ascii) (s : string) :
  Forall (free_of c) (split_on c s)
  /\ match split_on c s with
     | [] => False
     | p :: ps => s = foldl (fun acc q => acc ++ String c q) p ps
     end.
Proof.
  assert (forall ps p x, String x (foldl (fun acc q => acc ++ String c q) p ps)
                         = foldl (fun acc q => acc ++ String c q) (String x p) ps)
    as Hcons.
  { induction ps as [|q ps IH]; intros p x; [done|]. simpl. apply IH. }
  induction s as [|a s [IHf IHj]].
  - cbn [split_on]. split; [|done]. by repeat constructor.
  - cbn [split_on]. destruct (Ascii.eqb a c) eqn:Ha.
    + apply Ascii.eqb_eq in Ha as ->. split.
      * constructor; [done | exact IHf].
      * destruct (split_on c s) as [|p ps]; [done|]. cbn [foldl].
        change ("" ++ String c p) with (String c p). rewrite <- Hcons.
        by f_equal.
    + destruct (split_on c s) as [|p ps]; [done|]. split.
      * inversion IHf as [|? ? Hp Hps]; subst. constructor; [|done].
        unfold free_of in *. cbn [str_all]. by rewrite Ha, Hp.
      * rewrite <- Hcons. by f_equal.
Qed.

(** Three segments are what [split] at the dots yields. *)
Lemma three_segments_split (token header segment signature : string) :
  three_segments token header segment signature <->
  split_on "." token = [header; segment; signature].
Proof.
  unfold three_segments. split.
  - intros (-> & Ha & Hb & Hc).
    change ("." ++ segment ++ "." ++ signature)
      with (String "." (segment ++ String "." signature)).
    rewrite !split_on_app by done. by rewrite split_on_free.
  - intros H. destruct (split_on_segments "." token) as [Hf Hj].
    rewrite H in Hf, Hj. cbn [foldl] in Hj.
    apply Forall_cons in Hf as [Ha Hf]. apply Forall_cons in Hf as [Hb Hf].
    apply Forall_cons in Hf as [Hc _]. repeat split; try done.
    rewrite Hj. clear.
    induction header as [|x header IH]; [done|].
    change (String x ((header ++ String "." segment) ++ String "." signature)
            = String x (header ++ "." ++ segment ++ "." ++ signature)).
    by rewrite IH.
Qed.

(** The two replacements of [isTokenValid] turn base64url into base64. *)
Lemma replace_all_base64url (s : string) :
  replace_all "_" "/" (replace_all "-" "+" s) = base64url_to_base64 s.
Proof.
  unfold base64url_to_base64. induction s as [|a s IH]; [done|].
  cbn [replace_all String.list_ascii_of_string map String.string_of_list_ascii].
  rewrite IH. f_equal. unfold base64url_char.
  destruct (Ascii.eqb a "-") eqn:E1; [done|].
  by destruct (Ascii.eqb a "_").
Qed.

(** The comparison of [isTokenValid] with the floor of the clock. *)
Lemma num_gt_strictly_after (n : JsNumber) (seconds : Z) :
  num_gt n (num_of_Z seconds) = true <-> strictly_after n seconds.
Proof.
  destruct n as [| | |q]; cbn [num_gt num_of_Z strictly_after];
    [done | done | done |].
  apply (num_gt_Fin q (inject_Z seconds)).
Qed.

(** The answer of [isTokenValid] once the token is decoded and parsed. *)
Lemma isTokenValid_decoded (ls : Storage) (now : Z)
    (token header segment signature decoded : string) (payload : JSON) :
  active_token ls token ->
  three_segments token header segment signature ->
  atob (base64url_to_base64 segment) = Ok decoded ->
  JSON_parse decoded = Ok payload ->
  isTokenValid ls now
  = match (let! exp := get_prop payload "exp" in
           js_gt exp (num_of_Z (now `div` 1000))) with
    | Ok b => b
    | Throw _ => false
    end.
Proof.
  intros [Hr Hne]%active_token_read Hs%three_segments_split Hd Hp.
  unfold isTokenValid. rewrite Hr. apply str_empty_false in Hne. rewrite Hne.
  unfold isTokenValid_try. rewrite Hs. cbn [length Nat.eqb negb nth].
  rewrite replace_all_base64url, Hd. cbn [bindT]. by rewrite Hp.
Qed.

(** [isTokenValid] in the words of the token check. *)
Lemma isTokenValid_accepts (ls : Storage) (now : Z) :
  isTokenValid ls now = true <->
  exists token header segment signature decoded fields exp n,
    active_token ls token
    /\ three_segments token header segment signature
    /\ atob (base64url_to_base64 segment) = Ok decoded
    /\ JSON_parse decoded = Ok (JObj fields)
    /\ assoc_get "exp" fields = Some exp
    /\ ToNumber (Some exp) = Ok n
    /\ strictly_after n (now `div` 1000).
Proof.
  split.
  - intros (token & Hr & Hne & H)%isTokenValid_true.
    apply isTokenValid_try_true in H
      as (a & b & c & decoded & payload & exp & Hs & Hd & Hp & He & Hgt).
    rewrite replace_all_base64url in Hd.
    unfold js_gt in Hgt. apply bindT_Ok in Hgt as (n & Hn & [= Hgt]).
    apply num_gt_strictly_after in Hgt.
    destruct payload as [| | | | |fields]; try discriminate He;
      try (injection He as <-; injection Hn as <-; done).
    injection He as <-.
    destruct (assoc_get "exp" fields) as [v|] eqn:Hv;
      [|injection Hn as <-; done].
    exists token, a, b, c, decoded, fields, v, n.
    split; [by apply active_token_read|].
    split; [by apply three_segments_split|]. done.
  - intros (token & a & b & c & decoded & fields & exp & n
            & Ha & Hs & Hd & Hp & He & Hn & Hgt).
    rewrite (isTokenValid_decoded ls now token a b c decoded (JObj fields))
      by done.
    cbn [get_prop bindT]. rewrite He. unfold js_gt. rewrite Hn. cbn [bindT].
    by apply num_gt_strictly_after.
Qed.

(** C4. [isTokenValid] is a total boolean function of the storage and of the
    clock. It answers [true] exactly when the active token (the final slot,
    or the temporary one when the final slot is missing or empty) is not
    empty, is made of exactly three segments delimited by dots, its second
    segment read as base64url is decoded by [atob] into a text that
    [JSON.parse] reads as an object with a member [exp], and the number that
    [exp] is converted to lies strictly after the floor of the clock in
    seconds. The conversion is that of the operands of [>]: a number is
    itself, so it passes exactly when it is strictly greater and fails when
    equal; a text is the number it denotes, [true] is 1, [false] and [null]
    are 0, and an array or an object is the number that its string form
    denotes. In every other case the answer is [false]: no active token, a
    wrong count of segments, an undecodable segment, an unparsable text, a
    payload that is no object, a missing [exp]. *)
Theorem isTokenValid_characterisation (ls : Storage) (now : Z) :
  (isTokenValid ls now = true <->
   exists token header segment signature decoded fields exp n,
     active_token ls token
     /\ three_segments token header segment signature
     /\ atob (base64url_to_base64 segment) = Ok decoded
     /\ JSON_parse decoded = Ok (JObj fields)
     /\ assoc_get "exp" fields = Some exp
     /\ ToNumber (Some exp) = Ok n
     /\ strictly_after n (now `div` 1000))
  /\ (forall token header segment signature decoded fields,
        active_token ls token ->
        three_segments token header segment signature ->
        atob (base64url_to_base64 segment) = Ok decoded ->
        JSON_parse decoded = Ok (JObj fields) ->
        match assoc_get "exp" fields with
        | None => isTokenValid ls now = false
        | Some (JNum (Fin q)) =>
            (isTokenValid ls now = true <-> (inject_Z (now `div` 1000) < q)%Q)
            /\ (q == inject_Z (now `div` 1000) -> isTokenValid ls now = false)%Q
        | Some (JNum n) =>
            isTokenValid ls now = true <-> strictly_after n (now `div` 1000)
        | Some (JStr s) =>
            isTokenValid ls now = true <->
            strictly_after (StringToNumber s) (now `div` 1000)
        | Some (JBool b) =>
            isTokenValid ls now = true <->
            strictly_after (Fin (if b then 1 else 0)) (now `div` 1000)
        | Some JNull =>
            isTokenValid ls now = true <-> strictly_after (Fin 0) (now `div` 1000)
        | Some v =>
            isTokenValid ls now = true <->
            exists s, ObjectToString v = Ok s
                      /\ strictly_after (StringToNumber s) (now `div` 1000)
        end)
  /\ ((forall token, ~ active_token ls token) -> isTokenValid ls now = false)
  /\ (forall token,
        active_token ls token ->
        ((forall header segment signature,
            ~ three_segments token header segment signature) ->
         isTokenValid ls now = false)
        /\ (forall header segment signature,
              three_segments token header segment signature ->
              (forall e, atob (base64url_to_base64 segment) = Throw e ->
                         isTokenValid ls now = false)
              /\ (forall decoded,
                    atob (base64url_to_base64 segment) = Ok decoded ->
                    (forall e, JSON_parse decoded = Throw e ->
                               isTokenValid ls now = false)
                    /\ (forall payload,
                          JSON_parse decoded = Ok payload ->
                          (forall fields, payload ≠ JObj fields) ->
                          isTokenValid ls now = false))))
  /\ (isTokenValid ls now = true \/ isTokenValid ls now = false).
Proof.
  split; [apply isTokenValid_accepts|].
  split.
  { intros token a b c decoded fields Ha Hs Hd Hp.
    rewrite (isTokenValid_decoded ls now token a b c decoded (JObj fields))
      by done.
    cbn [get_prop bindT]. unfold js_gt.
    destruct (assoc_get "exp" fields) as [[|b'|n|s|items|fs]|];
      cbn [ToNumber bindT].
    - apply num_gt_strictly_after.
    - apply num_gt_strictly_after.
    - destruct n as [| | |q]; try apply num_gt_strictly_after.
      split; [apply (num_gt_strictly_after (Fin q))|].
      intros Hq. apply not_true_is_false. intros H.
      apply (num_gt_strictly_after (Fin q)) in H. cbn [strictly_after] in H.
      rewrite Hq in H. by apply Qlt_irrefl in H.
    - apply num_gt_strictly_after.
    - destruct (ObjectToString (JArr items)) as [s|e]; cbn [bindT].
      + rewrite num_gt_strictly_after. split; [by exists s|].
        by intros (s' & [= <-] & H).
      + split; [done | by intros (s' & [=] & _)].
    - destruct (ObjectToString (JObj fs)) as [s|e]; cbn [bindT].
      + rewrite num_gt_strictly_after. split; [by exists s|].
        by intros (s' & [= <-] & H).
      + split; [done | by intros (s' & [=] & _)].
    - done. }
  split.
  { intros Hnone. apply not_true_is_false.
    intros (token & ? & ? & ? & ? & ? & ? & ? & Ha & _)%isTokenValid_accepts.
    by apply (Hnone token). }
  split.
  { intros token Ha.
    assert (forall token', active_token ls token' -> token' = token) as Huniq.
    { intros token' [Hr' _]%active_token_read.
      apply active_token_read in Ha as [Hr _]. congruence. }
    assert (forall a b c a' b' c',
              three_segments token a b c -> three_segments token a' b' c' ->
              b' = b) as Hsame.
    { intros a b c a' b' c' H1%three_segments_split H2%three_segments_split.
      congruence. }
    split.
    - intros Hnot. apply not_true_is_false.
      intros (token' & a & b & c & ? & ? & ? & ? & Ha' & Hs & _)%isTokenValid_accepts.
      apply Huniq in Ha' as ->. by apply (Hnot a b c).
    - intros a b c Hs. split.
      + intros e He. apply not_true_is_false.
        intros (token' & a' & b' & c' & ? & ? & ? & ? & Ha' & Hs' & Hd & _)
          %isTokenValid_accepts.
        apply Huniq in Ha' as ->.
        rewrite (Hsame _ _ _ _ _ _ Hs Hs') in Hd. congruence.
      + intros decoded Hd. split.
        * intros e He. apply not_true_is_false.
          intros (token' & a' & b' & c' & decoded' & fields & ? & ?
                  & Ha' & Hs' & Hd' & Hp' & _)%isTokenValid_accepts.
          apply Huniq in Ha' as ->.
          rewrite (Hsame _ _ _ _ _ _ Hs Hs') in Hd'. congruence.
        * intros payload Hp Hno. apply not_true_is_false.
          intros (token' & a' & b' & c' & decoded' & fields & ? & ?
                  & Ha' & Hs' & Hd' & Hp' & _)%isTokenValid_accepts.
          apply Huniq in Ha' as ->.
          rewrite (Hsame _ _ _ _ _ _ Hs Hs') in Hd'.
          apply (Hno fields). congruence. }
  destruct (isTokenValid ls now); auto.
Qed.

(** A token is rejected as soon as one step of the decoding fails. *)
Lemma isTokenValid_malformed (ls : Storage) (now : Z) (token : string) :
  readToken ls = Some token ->
  (length (split_on "." token) ≠ 3%nat
   \/ (exists e, atob (replace_all "_" "/" (replace_all "-" "+"
                         (nth 1 (split_on "." token) ""))) = Throw e)
   \/ (exists decoded e,
         atob (replace_all "_" "/" (replace_all "-" "+"
                 (nth 1 (split_on "." token) ""))) = Ok decoded
         /\ JSON_parse decoded = Throw e)) ->
  isTokenValid ls now = false.
Proof.
  intros Hr H. unfold isTokenValid. rewrite Hr.
  destruct (str_empty token); [done|]. unfold isTokenValid_try.
  destruct H as [H|[(e & H)|(decoded & e & H1 & H2)]].
  - apply Nat.eqb_neq in H. by rewrite H.
  - destruct (Nat.eqb _ 3); [|done]. simpl. by rewrite H.
  - destruct (Nat.eqb _ 3); [|done]. simpl. rewrite H1. simpl. by rewrite H2.
Qed.

End TokenStore.

(** ** The auth header *)

Section AuthHeader.
Context {P : Platform}.

Lemma clearSession_lookup (ls : Storage) (k : string) :
  clearSession ls !! k = if bool_decide (k ∈ session_keys) then None else ls !! k.
Proof.
  unfold clearSession, removeItem, session_keys.
  case_bool_decide as Hk.
  - repeat (apply elem_of_cons in Hk as [->|Hk];
            [by repeat first [apply lookup_delete_eq
                             | rewrite lookup_delete_ne by done]|]).
    by apply elem_of_nil in Hk.
  - rewrite !lookup_delete_ne; [done|..]; intros <-; apply Hk; set_solver.
Qed.

Lemma clearSession_cleared (ls : Storage) (k : string) :
  k ∈ session_keys -> clearSession ls !! k = None.
Proof. intros H. rewrite clearSession_lookup. by rewrite bool_decide_eq_true_2. Qed.

Lemma getAuthHeader_valid (ls : Storage) (now : Z) :
  isTokenValid ls now = true ->
  exists token, readToken ls = Some token /\
    getAuthHeader ls now = ({["Authorization" := "Bearer " ++ token]}, ls).
Proof.
  intros H. pose proof H as H'.
  apply isTokenValid_true in H' as (token & Hr & Hne & _).
  exists token. split; [done|]. unfold getAuthHeader. rewrite Hr.
  apply str_empty_false in Hne. by rewrite Hne, H.
Qed.

(** A token that is present and not valid empties the header and clears
    the five keys of the session, which leaves every other key as it was. *)
Lemma getAuthHeader_invalid (ls : Storage) (now : Z) (token : string) :
  readToken ls = Some token -> token ≠ "" -> isTokenValid ls now = false ->
  getAuthHeader ls now = (∅, clearSession ls)
  /\ (forall k, k ∈ session_keys -> (getAuthHeader ls now).2 !! k = None)
  /\ (forall k, k ∉ session_keys -> (getAuthHeader ls now).2 !! k = ls !! k).
Proof.
  intros Hr Hne Hv.
  assert (getAuthHeader ls now = (∅, clearSession ls)) as E.
  { unfold getAuthHeader. rewrite Hr. apply str_empty_false in Hne.
    by rewrite Hne, Hv. }
  rewrite E. simpl. split; [done|]. split; intros k Hk.
  - by apply clearSession_cleared.
  - rewrite clearSession_lookup. by rewrite bool_decide_eq_false_2.
Qed.

Lemma getAuthHeader_empty_iff (ls : Storage) (now : Z) :
  (getAuthHeader ls now).1 = ∅ <-> isTokenValid ls now = false.
Proof.
  unfold getAuthHeader.
  destruct (isTokenValid ls now) eqn:Hv.
  - apply isTokenValid_true in Hv as (token & -> & Hne & _).
    apply str_empty_false in Hne. rewrite Hne. simpl. split; [|done].
    intros H. exfalso. eapply (insert_non_empty (M := gmap string)). exact H.
  - split; [done|]. intros _.
    destruct (readToken ls) as [token|]; [|done]. by destruct (str_empty token).
Qed.

End AuthHeader.

(** ** The headers of a request *)

Section RequestHeaders.
Context {P : Platform}.
Variable getBaseUrl : string -> string.

(** Without [options.headers], the headers given to [fetch] are the
    default, overridden by the auth header; the default [Content-Type] is
    deleted for a multipart body. *)
Lemma request_prepare_without_headers (ls : Storage) (now : Z) (endpoint : string)
    (options : RequestInit) :
  headers options = None ->
  headers (request_prepare getBaseUrl ls now endpoint options).1.2 =
    Some (let merged := (getAuthHeader ls now).1
                        ∪ {["Content-Type" := "application/json"]} in
          if isFormData (body options) then delete "Content-Type" merged
          else merged).
Proof.
  intros H. unfold request_prepare, merged_headers, fetch_options.
  destruct (getAuthHeader ls now) as [auth ls']. simpl. rewrite H. simpl.
  rewrite <- (assoc_L (∪)). by rewrite (left_id_L ∅ (∪)).
Qed.

(** For a multipart body no [Content-Type] is left. *)
Lemma request_prepare_multipart (ls : Storage) (now : Z) (endpoint : string)
    (options : RequestInit) (entries : list (string * string)) :
  headers options = None -> body options = Some (BodyFormData entries) ->
  exists hdrs,
    headers (request_prepare getBaseUrl ls now endpoint options).1.2 = Some hdrs
    /\ hdrs !! "Content-Type" = None
    /\ hdrs !! "Authorization" = (getAuthHeader ls now).1 !! "Authorization".
Proof.
  intros Hh Hb. rewrite request_prepare_without_headers by done.
  rewrite Hb. cbn [isFormData]. eexists. split; [done|].
  split; [apply lookup_delete_eq|].
  rewrite lookup_delete_ne by done. rewrite lookup_union.
  rewrite lookup_singleton_ne by done. by destruct (_ !! _).
Qed.

(** With [options.headers], they are what [fetch] receives: the spread of
    [options] comes after the merged [headers] and replaces them. *)
Lemma request_prepare_with_headers (ls : Storage) (now : Z) (endpoint : string)
    (options : RequestInit) (h : Headers) :
  headers options = Some h ->
  headers (request_prepare getBaseUrl ls now endpoint options).1.2 = Some h.
Proof.
  intros H. unfold request_prepare, fetch_options.
  destruct (getAuthHeader ls now) as [auth ls']. simpl. by rewrite H.
Qed.

End RequestHeaders.

(** C1. The call [request('/api/drivers', { method: 'GET', headers:
    { 'X-Request-Id': '42' } })], made with a valid token in the storage:
    the merge computed by [request] holds the default [Content-Type], the
    auth header and the header of the caller, but the headers that [fetch]
    receives are those of the caller alone. *)
Theorem request_caller_headers_replace_merge :
  let ls : Storage := {["id_transporte_token" := sample_token]} in
  let now := 1700000000000 in
  let options := {| method := Some "GET";
                    headers := Some {["X-Request-Id" := "42"]};
                    body := None |} in
  isTokenValid (P := Reference.platform) ls now = true
  /\ merged_headers (getAuthHeader (P := Reference.platform) ls now).1 options
     = {["X-Request-Id" := "42";
         "Authorization" := "Bearer " ++ sample_token;
         "Content-Type" := "application/json"]}
  /\ headers (request_prepare (P := Reference.platform) Reference.getBaseUrl
                ls now "/api/drivers" options).1.2
     = Some {["X-Request-Id" := "42"]}
  /\ (forall k, k ≠ "X-Request-Id" ->
        default ∅ (headers (request_prepare (P := Reference.platform)
                              Reference.getBaseUrl ls now "/api/drivers"
                              options).1.2) !! k = None).
Proof.
  intros ls now options.
  assert (isTokenValid (P := Reference.platform) ls now = true) as Hv
    by (vm_compute; reflexivity).
  split; [exact Hv|].
  destruct (getAuthHeader_valid (P := Reference.platform) ls now Hv)
    as (token & Hr & Hh).
  assert (readToken ls = Some sample_token) as Hs by (vm_compute; reflexivity).
  assert (token = sample_token) as -> by congruence.
  rewrite (request_prepare_with_headers (P := Reference.platform)
             Reference.getBaseUrl ls now "/api/drivers" options
             {["X-Request-Id" := "42"]} eq_refl).
  rewrite Hh. simpl. split; [|split; [done|]].
  - unfold merged_headers. simpl. apply map_eq. intros k.
    rewrite !lookup_union, !lookup_insert, !lookup_singleton.
    repeat case_decide; subst; simpl; done.
  - intros k Hk. by rewrite lookup_singleton_ne.
Qed.

(** C3. [uploadCompanyLogo] with an expired final token in the storage (its
    [exp] is 2000000000 and the clock is at 2100000000 seconds): the token is
    not valid and [getAuthHeader] would answer with no header and clear the
    session, but [uploadCompanyLogo] sends the token in the [Authorization]
    header and leaves the storage as it is. *)
Theorem uploadCompanyLogo_sends_expired_token :
  let ls : Storage := {["id_transporte_token" := sample_token;
                        "id_transporte_user" := "ana"]} in
  let now := 2100000000000 in
  isTokenValid (P := Reference.platform) ls now = false
  /\ getAuthHeader (P := Reference.platform) ls now = (∅, ∅)
  /\ headers (uploadCompanyLogo_options ls "logo.png")
     = Some {["Authorization" := "Bearer " ++ sample_token]}
  /\ forall fetch,
       (uploadCompanyLogo (P := Reference.platform) Reference.getBaseUrl fetch
          ls "7" "logo.png").2 = ls.
Proof.
  intros ls now.
  assert (isTokenValid (P := Reference.platform) ls now = false) as Hv
    by (vm_compute; reflexivity).
  split; [exact Hv|]. split; [|split; [done|done]].
  assert (readToken ls = Some sample_token) as Hr by (vm_compute; reflexivity).
  destruct (getAuthHeader_invalid (P := Reference.platform) ls now sample_token
              Hr ltac:(done) Hv) as (E & _).
  rewrite E. f_equal.
Qed.

(** [uploadCompanyLogo] never looks at the validity of the token: whatever
    non-empty final token is stored is sent, and the storage is unchanged. *)
Lemma uploadCompanyLogo_ignores_validity {P : Platform}
    (getBaseUrl : string -> string)
    (fetch : string -> RequestInit -> Throws Response)
    (ls : Storage) (token companyId logoFile : string) :
  ls !! "id_transporte_token" = Some token -> token ≠ "" ->
  headers (uploadCompanyLogo_options ls logoFile)
    = Some {["Authorization" := "Bearer " ++ token]}
  /\ (uploadCompanyLogo getBaseUrl fetch ls companyId logoFile).2 = ls.
Proof.
  intros H Hne. unfold uploadCompanyLogo_options, getItem. rewrite H.
  apply str_empty_false in Hne. by rewrite Hne.
Qed.

(** ** Messages *)

Lemma str_all_app (p : ascii -> bool) (s1 s2 : string) :
  str_all p (s1 ++ s2) = str_all p s1 && str_all p s2.
Proof. induction s1 as [|a s1 IH]; simpl; [done|]. by rewrite IH, andb_assoc. Qed.

(** A string without the first character of [needle] does not include it. *)
Lemma includes_without_head (c : ascii) (needle s : string) :
  str_all (fun a => negb (Ascii.eqb a c)) s = true ->
  includes (String c needle) s = false.
Proof.
  induction s as [|a s IH]; simpl; [done|].
  intros H. apply andb_true_iff in H as [Ha Hs].
  rewrite (IH Hs), orb_false_r.
  destruct (ascii_dec c a) as [->|]; [|done].
  by rewrite Ascii.eqb_refl in Ha.
Qed.

Lemma str_all_pretty_N_go (p : ascii -> bool) (x : N) (s : string) :
  (forall n, p (pretty_N_char n) = true) -> str_all p s = true ->
  str_all p (pretty_N_go x s) = true.
Proof.
  intros Hp. revert s. induction (N.lt_wf_0 x) as [x _ IH]. intros s Hs.
  destruct (decide (x = 0)%N) as [->|Hx].
  - by rewrite pretty_N_go_0.
  - rewrite pretty_N_go_step by lia. apply IH.
    + apply N.div_lt; lia.
    + simpl. by rewrite Hp, Hs.
Qed.

Lemma str_all_pretty_Z (p : ascii -> bool) (z : Z) :
  (forall n, p (pretty_N_char n) = true) -> p "-"%char = true ->
  str_all p (pretty z) = true.
Proof.
  intros Hp Hd.
  assert (forall x : positive, str_all p (pretty x) = true) as Hpos.
  { intros x. unfold pretty, pretty_positive, pretty, pretty_N.
    case_decide; [done|]. by apply str_all_pretty_N_go. }
  destruct z as [|x|x]; unfold pretty, pretty_Z.
  - simpl. rewrite andb_true_r. apply (Hp 0%N).
  - apply Hpos.
  - simpl. rewrite Hd. apply Hpos.
Qed.

(** The message [HTTP <status>] is passed through by the [catch]. *)
Lemma classified_http_status (st : Z) :
  classified ("HTTP " ++ pretty st) = "HTTP " ++ pretty st.
Proof.
  unfold classified.
  rewrite includes_without_head, includes_without_head; [done|..];
    rewrite str_all_app; apply andb_true_iff; (split; [done|]);
    apply str_all_pretty_Z; try done;
    intros n; unfold pretty_N_char; by repeat case_match.
Qed.

Lemma classified_config_error : classified CONFIG_ERROR = CONFIG_ERROR.
Proof. by vm_compute. Qed.

(** ** The envelope of a request *)

Section Request.
Context {P : Platform}.
Variable getBaseUrl : string -> string.
Variable fetch : string -> RequestInit -> Throws Response.

Lemma request_catch_classified (message : string) :
  request_catch (JsError message) = classified message.
Proof. done. Qed.

Lemma request_unfold (ls : Storage) (now : Z) (endpoint : string)
    (options : RequestInit) (url : string) (init : RequestInit) (ls' : Storage) :
  request_prepare getBaseUrl ls now endpoint options = (url, init, ls') ->
  request getBaseUrl fetch ls now endpoint options =
    (try_catch (let! response := fetch url init in request_response response)
               (fun error => Ok (failed (request_catch error))),
     ls').
Proof. intros H. unfold request. by rewrite H. Qed.

Lemma has_success_key_true (body : JSON) :
  has_success_key body = true <->
  exists fields v, body = JObj fields /\ assoc_get "success" fields = Some v.
Proof.
  split.
  - destruct body; simpl; try discriminate.
    intros H. apply bool_decide_eq_true in H as [v Hv]. eauto.
  - intros (fields & v & -> & Hv). simpl. apply bool_decide_eq_true. eauto.
Qed.

(** C6. For a response with a 2xx status whose body parses as JSON, [request]
    resolves to the body itself when the body is an object with a [success]
    key, and to [{ success: true, data: body }] otherwise. *)
Theorem request_success_envelope (ls : Storage) (now : Z) (endpoint : string)
    (options : RequestInit) (url : string) (init : RequestInit) (ls' : Storage)
    (response : Response) (body : JSON) :
  request_prepare getBaseUrl ls now endpoint options = (url, init, ls') ->
  fetch url init = Ok response ->
  ok response = true ->
  json response = Ok body ->
  ((exists fields v, body = JObj fields /\ assoc_get "success" fields = Some v) ->
   (request getBaseUrl fetch ls now endpoint options).1 = Ok body)
  /\ (¬ (exists fields v, body = JObj fields /\ assoc_get "success" fields = Some v) ->
      (request getBaseUrl fetch ls now endpoint options).1
        = Ok (JObj [("success", JBool true); ("data", body)])).
Proof.
  intros Hprep Hfetch Hok Hjson.
  rewrite (request_unfold _ _ _ _ _ _ _ Hprep). simpl.
  rewrite Hfetch. simpl. unfold request_response. rewrite Hok, Hjson. simpl.
  split; intros H.
  - apply has_success_key_true in H. by rewrite H.
  - destruct (has_success_key body) eqn:E; [|done].
    apply has_success_key_true in E. contradiction.
Qed.

(** C2. [request] never throws: its promise always resolves to an envelope.
    When [fetch] throws an [Error], or when the body of a 2xx response does
    not parse, the envelope is [{ success: false, error: msg }] where [msg]
    is the configuration message if the message of the error contains
    [secretOrPrivateKey], else the connectivity message if it contains
    [Failed to fetch], else the message itself. For a response that is not
    2xx the same holds of the error thrown inside: without a structured
    error in the body its message is [HTTP <status>], which passes through
    unchanged, and with a textual error it is the configuration message or
    that text. In general, whatever [Error] leaves the [try], the envelope
    carries its message, classified in that way. *)
Theorem request_never_throws (ls : Storage) (now : Z) (endpoint : string)
    (options : RequestInit) (url : string) (init : RequestInit) (ls' : Storage) :
  request_prepare getBaseUrl ls now endpoint options = (url, init, ls') ->
  let result := (request getBaseUrl fetch ls now endpoint options).1 in
  let msg_of (message : string) :=
    if includes "secretOrPrivateKey" message then CONFIG_ERROR
    else if includes "Failed to fetch" message then CONNECTION_ERROR
    else message in
  let failure (msg : string) :=
    Ok (JObj [("success", JBool false); ("error", JStr msg)]) in
  (exists envelope, result = Ok envelope)
  /\ (forall message,
        fetch url init = Throw (JsError message) ->
        result = failure (msg_of message))
  /\ (forall response message,
        fetch url init = Ok response -> ok response = true ->
        json response = Throw (JsError message) ->
        result = failure (msg_of message))
  /\ (forall response,
        fetch url init = Ok response -> ok response = false ->
        let err := get_prop_opt (Some (catch_default (json response) JNull)) "error" in
        err = None \/ err = Some JNull ->
        result = failure ("HTTP " ++ pretty (status response)))
  /\ (forall response text,
        fetch url init = Ok response -> ok response = false ->
        get_prop_opt (Some (catch_default (json response) JNull)) "error"
          = Some (JStr text) ->
        text ≠ "" ->
        result = failure (msg_of text))
  /\ (forall message,
        (let! response := fetch url init in request_response response)
          = Throw (JsError message) ->
        result = failure (msg_of message)).
Proof.
  intros Hprep result msg_of failure. unfold result.
  rewrite (request_unfold _ _ _ _ _ _ _ Hprep). cbn [fst].
  change msg_of with classified. unfold failure.
  split; [|split; [|split; [|split; [|split]]]]; cycle 5.
  { intros message H. by rewrite H. }
  - destruct (let! response := fetch url init in request_response response);
      simpl; eauto.
  - intros message Hfetch. by rewrite Hfetch.
  - intros response message Hfetch Hok Hjson.
    rewrite Hfetch. cbn [bindT]. unfold request_response. by rewrite Hok, Hjson.
  - intros response Hfetch Hok Herr.
    rewrite Hfetch. cbn [bindT]. unfold request_response. rewrite Hok.
    cbn [negb]. unfold failed.
    destruct Herr as [Herr|Herr]; rewrite Herr;
      cbn [bindT includes_call truthy try_catch];
      by rewrite request_catch_classified, classified_http_status.
  - intros response text Hfetch Hok Herr Hne.
    rewrite Hfetch. cbn [bindT]. unfold request_response. rewrite Hok.
    cbn [negb]. rewrite Herr. cbn [bindT includes_call truthy].
    apply str_empty_false in Hne. rewrite Hne.
    destruct (includes "secretOrPrivateKey" text) eqn:E;
      cbn [negb default from_option id ToStringJ bindT try_catch];
      rewrite request_catch_classified.
    + rewrite classified_config_error. unfold classified. by rewrite E.
    + done.
Qed.

End Request.

(** ** Protected files *)

Section SecureFile.
Context {P : Platform}.
Variable fetch : string -> RequestInit -> Throws Response.

(** C8. [getSecureFile] rejects where [request] would resolve to a failed
    envelope. Without a valid token it throws before any call of [fetch];
    an error thrown by [fetch] or by the reading of the body is thrown
    again as it is; a response that is not 2xx makes it throw. It returns
    a URL only when the token is valid, the response is 2xx and its body
    could be read. *)
Theorem getSecureFile_propagates (ls : Storage) (now : Z) (url : string) :
  let init := {| method := Some "GET";
                 headers := Some (getAuthHeader ls now).1;
                 body := None |} in
  let result := (getSecureFile fetch ls now url).1 in
  (isTokenValid ls now = false ->
   result = Throw (JsError "Usuário não autenticado."))
  /\ (isTokenValid ls now = true ->
      (forall e, fetch url init = Throw e -> result = Throw e)
      /\ (forall response,
            fetch url init = Ok response -> ok response = false ->
            exists e, result = Throw e)
      /\ (forall response e,
            fetch url init = Ok response -> ok response = true ->
            blob response = Throw e -> result = Throw e))
  /\ (forall u, result = Ok u ->
      isTokenValid ls now = true
      /\ exists response content,
           fetch url init = Ok response /\ ok response = true
           /\ blob response = Ok content /\ u = createObjectURL content).
Proof.
  intros init result. unfold result, init, getSecureFile.
  pose proof (getAuthHeader_empty_iff ls now) as Hempty.
  destruct (getAuthHeader ls now) as [hdrs ls'] eqn:Hh. cbn [fst] in *.
  split; [|split].
  - intros Hv. apply Hempty in Hv. by rewrite bool_decide_eq_true_2.
  - intros Hv.
    assert (hdrs ≠ ∅) as Hne by (intros H; apply Hempty in H; congruence).
    rewrite bool_decide_eq_false_2 by done.
    split; [|split].
    + intros e Hf. by rewrite Hf.
    + intros response Hf Hok. rewrite Hf. cbn [bindT]. rewrite Hok. cbn [negb].
      destruct (if truthy _ then _ else _) as [msg|e]; cbn [bindT try_catch]; eauto.
    + intros response e Hf Hok Hb. rewrite Hf. cbn [bindT]. rewrite Hok.
      cbn [negb]. by rewrite Hb.
  - intros u. case_bool_decide as Hd; [discriminate|].
    assert (isTokenValid ls now = true) as Hv.
    { destruct (isTokenValid ls now); [done|]. exfalso. by apply Hd, Hempty. }
    destruct (fetch url _) as [response|e] eqn:Hf; [|discriminate].
    cbn [bindT]. destruct (ok response) eqn:Hok; cbn [negb].
    + destruct (blob response) as [content|e] eqn:Hb; [|discriminate].
      cbn [bindT try_catch]. intros [= <-]. split; [done|]. by exists response, content.
    + destruct (if truthy _ then _ else _) as [msg|e]; discriminate.
Qed.

End SecureFile.

(** ** Login *)

Section Login.
Context {P : Platform}.
Variable getBaseUrl : string -> string.
Variable fetch : string -> RequestInit -> Throws Response.

(** A response that is not 2xx always ends in a thrown error. *)
Lemma request_response_not_ok (response : Response) :
  ok response = false -> exists e, request_response response = Throw e.
Proof.
  intros Hok. unfold request_response. rewrite Hok. cbn [negb].
  destruct (includes_call _ _) as [[|]|e]; cbn [bindT]; eauto.
  destruct (if truthy _ then _ else _) as [msg|e]; cbn [bindT]; eauto.
Qed.

(** Every envelope of [request] is an object. *)
Lemma request_envelope_object (ls : Storage) (now : Z) (endpoint : string)
    (options : RequestInit) (envelope : JSON) :
  (request getBaseUrl fetch ls now endpoint options).1 = Ok envelope ->
  exists fields, envelope = JObj fields.
Proof.
  unfold request. destruct (request_prepare _ _ _ _ _) as [[url init] ls'].
  cbn [fst]. destruct (fetch url init) as [response|e]; cbn [bindT try_catch];
    [|intros [= <-]; unfold failed; eauto].
  destruct (ok response) eqn:Hok.
  - unfold request_response. rewrite Hok. cbn [negb].
    destruct (json response) as [body|e]; cbn [bindT try_catch];
      [|intros [= <-]; unfold failed; eauto].
    destruct (has_success_key body) eqn:E.
    + apply has_success_key_true in E as (fields & v & -> & _).
      intros [= <-]. eauto.
    + intros [= <-]. unfold succeeded. eauto.
  - destruct (request_response_not_ok response Hok) as [e ->].
    cbn [try_catch]. intros [= <-]. unfold failed. eauto.
Qed.

(** C5, as amended. [login] removes one level of nesting from the envelope
    of [request]: when [success], [data] and [data.data] of that envelope
    are truthy, it returns the envelope with [data] replaced by [data.data];
    in every other case it returns the envelope unchanged. For a 2xx body
    without [success] key the envelope is [{ success: true, data: body }],
    so the result is [{ success: true, data: body.data }] when [body.data]
    is truthy: a body [{ data: { token, user } }] gives
    [{ success: true, data: { token, user } }]. *)
Theorem login_unwraps_envelope (ls : Storage) (now : Z) (credentials envelope : JSON) :
  let options := {| method := Some "POST"; headers := None;
                    body := Some (BodyText (JSON_stringify credentials)) |} in
  (request getBaseUrl fetch ls now "/api/auth/login" options).1 = Ok envelope ->
  let success := get_prop_opt (Some envelope) "success" in
  let data := get_prop_opt (Some envelope) "data" in
  let inner := get_prop_opt data "data" in
  (login getBaseUrl fetch ls now credentials).1 =
    Ok (if truthy success && truthy data && truthy inner
        then with_data envelope (default JNull inner)
        else envelope)
  /\ (forall url init ls' response body,
        request_prepare getBaseUrl ls now "/api/auth/login" options
          = (url, init, ls') ->
        fetch url init = Ok response -> ok response = true ->
        json response = Ok body -> has_success_key body = false ->
        envelope = JObj [("success", JBool true); ("data", body)]
        /\ (login getBaseUrl fetch ls now credentials).1 =
             Ok (match get_prop_opt (Some body) "data" with
                 | Some v => if truthy (Some v)
                             then JObj [("success", JBool true); ("data", v)]
                             else envelope
                 | None => envelope
                 end)).
Proof.
  intros options Hreq success data inner.
  assert ((login getBaseUrl fetch ls now credentials).1 =
          Ok (if truthy success && truthy data && truthy inner
              then with_data envelope (default JNull inner)
              else envelope)) as Hlogin.
  { destruct (request_envelope_object _ _ _ _ _ Hreq) as [fields ->].
    unfold login. fold options.
    destruct (request getBaseUrl fetch ls now "/api/auth/login" options)
      as [r ls'] eqn:Hr.
    cbn [fst] in *. subst r. cbn [bindT get_prop].
    change (assoc_get "success" fields) with success.
    change (assoc_get "data" fields) with data.
    destruct (truthy success); cbn [negb andb]; [|done].
    destruct (truthy data) eqn:Hd; cbn [negb andb]; [|done].
    assert (get_prop (default JNull data) "data" = Ok inner) as ->.
    { unfold inner. destruct data as [[| | | | |]|]; try done. }
    cbn [bindT]. destruct inner as [v|] eqn:Hi; [|done].
    by destruct (truthy (Some v)). }
  split; [exact Hlogin|].
  intros url init ls' response body Hprep Hfetch Hok Hjson Hkey.
  assert (envelope = JObj [("success", JBool true); ("data", body)]) as Henv.
  { rewrite (request_unfold _ _ _ _ _ _ _ _ _ Hprep) in Hreq. cbn [fst] in Hreq.
    rewrite Hfetch in Hreq. cbn [bindT] in Hreq. unfold request_response in Hreq.
    rewrite Hok, Hjson in Hreq. cbn [negb bindT] in Hreq. rewrite Hkey in Hreq.
    cbn [try_catch] in Hreq. by injection Hreq as <-. }
  split; [exact Henv|]. rewrite Hlogin. subst success data inner envelope.
  f_equal. destruct body as [| | | | |bfields]; simpl; try done.
  - by destruct b.
  - destruct n as [| | |q]; simpl; try done. by destruct (Qeq_bool q 0).
  - by destruct (str_empty s).
  - destruct (assoc_get "data" bfields) as [v|]; [|done].
    change (match v with
            | JBool b => b
            | JNull | JNum NaN => false
            | JNum (Fin q) => negb (Qeq_bool q 0)
            | JStr s => negb (str_empty s)
            | _ => true
            end) with (truthy (Some v)).
    by destruct (truthy (Some v)).
Qed.

End Login.

(** ** The list of driver statuses *)

Section DriverStatusProperties.
Context {P : Platform}.
Variable getBaseUrl : string -> string.
Variable fetch : string -> RequestInit -> Throws Response.
Variable OFFLINE_AFTER_MS : Z.
Variable MOVING_ABOVE_KMH : Q.



Lemma insertByName_perm (x : DriverStatusItem) (l : list DriverStatusItem) :
  insertByName x l ≡ₚ x :: l.
Proof.
  induction l as [|y l IH]; simpl; [done|].
  destruct (name_le x y); [done|]. rewrite IH. apply Permutation_swap.
Qed.

Lemma sortByName_perm (l : list DriverStatusItem) : sortByName l ≡ₚ l.
Proof.
  induction l as [|x l IH]; simpl; [done|].
  rewrite insertByName_perm. by rewrite IH.
Qed.

Section Sorting.
Hypothesis compare_total :
  forall a b : string, localeCompare a b <= 0 \/ localeCompare b a <= 0.
Hypothesis compare_trans :
  forall a b c : string,
    localeCompare a b <= 0 -> localeCompare b c <= 0 -> localeCompare a c <= 0.



End Sorting.

Lemma mapT_Ok {A B} (f : A -> Throws B) (l : list A) (ys : list B) :
  mapT f l = Ok ys -> Forall2 (fun x y => f x = Ok y) l ys.
Proof.
  revert ys. induction l as [|x l IH]; simpl; intros ys.
  - intros [= <-]. constructor.
  - intros H. apply bindT_Ok in H as (y & Hy & H).
    apply bindT_Ok in H as (ys' & Hys & [= <-]). constructor; auto.
Qed.

Lemma get_prop_null_object (raw : JSON) (k : string) :
  get_prop (match raw with JNull => JObj [] | _ => raw end) k
    = Ok (get_prop_opt (Some raw) k).
Proof. by destruct raw. Qed.


(** What an entry that is kept looks like. *)
Lemma normalizeDriver_kept (now : Z) (raw : JSON) (item : DriverStatusItem) :
  normalizeDriver OFFLINE_AFTER_MS MOVING_ABOVE_KMH now raw = Ok (Some item) ->
  exists id n,
    rawDriverId raw = Some id /\ id ≠ JNull
    /\ ToStringJ id = Ok (item_id item)
    /\ ToNumber (nullish (get_prop_opt (Some raw) "speed") (Some (JNum (Fin 0%Q))))
       = Ok n
    /\ item_speed item = (if isFinite n then n else Fin 0%Q)
    /\ item_lastUpdate item = match get_prop_opt (Some raw) "last_update" with
                              | Some (JStr s) => Some s
                              | _ => None
                              end
    /\ item_status item =
         computeMovementStatus OFFLINE_AFTER_MS MOVING_ABOVE_KMH (match get_prop_opt (Some raw) "speed" with
                        | Some (JNum x) => x
                        | _ => item_speed item
                        end) (item_lastUpdate item) now.
Proof.
  unfold normalizeDriver. rewrite !get_prop_null_object. cbn [bindT].
  fold (rawDriverId raw).
  destruct (rawDriverId raw) as [id|] eqn:Hid; [|discriminate].
  assert (id = JNull \/ id ≠ JNull) as [->|Hne]
    by (destruct id; [by left|by right..]); [discriminate|].
  assert (forall (A : Type) (a b : A),
            match id with JNull => a | _ => b end = b) as Hm
    by (intros; by destruct id).
  rewrite Hm. rewrite ?get_prop_null_object. cbn [bindT].
  intros H.
  apply bindT_Ok in H as (n & Hn & H).
  apply bindT_Ok in H as (id_string & Hs & H).
  apply bindT_Ok in H as (name_string & Hname & [= <-]). cbn.
  exists id, n. done.
Qed.



End DriverStatusProperties.

Section DashboardClaims.
Context {P : Platform}.
Variable getBaseUrl : string -> string.
Variable fetch : string -> RequestInit -> Throws Response.
Variable OFFLINE_AFTER_MS : Z.
Variable MOVING_ABOVE_KMH : Q.


(** C9. With the classifier of the specification, whose movement threshold
    is not negative: a negative speed is clamped to zero before it is
    compared, so a driver whose last update is fresh is idle, and the speed
    shown for that driver is [0.0]. The same holds of the entry that the
    normalization makes of a raw snapshot with that speed. *)
Theorem negative_speed_is_clamped (q : Q) (iso : string) (t now : Z) :
  (q < 0)%Q ->
  (0 <= MOVING_ABOVE_KMH)%Q ->
  Date_parse iso = Some t ->
  now - t <= OFFLINE_AFTER_MS ->
  clampSpeed (Fin q) = Fin 0%Q
  /\ computeMovementStatus OFFLINE_AFTER_MS MOVING_ABOVE_KMH (Fin q) (Some iso) now
     = idle
  /\ (forall driver, item_speed driver = Fin q -> formattedSpeed driver = "0.0")
  /\ (forall fields item,
        assoc_get "speed" fields = Some (JNum (Fin q)) ->
        assoc_get "last_update" fields = Some (JStr iso) ->
        normalizeDriver OFFLINE_AFTER_MS MOVING_ABOVE_KMH now (JObj fields)
          = Ok (Some item) ->
        item_status item = idle /\ formattedSpeed item = "0.0").
Proof.
  intros Hq Hm Hdate Hfresh.
  assert (clampSpeed (Fin q) = Fin 0%Q) as Hclamp.
  { unfold clampSpeed. by rewrite num_lt_zero. }
  assert (computeMovementStatus OFFLINE_AFTER_MS MOVING_ABOVE_KMH
            (Fin q) (Some iso) now = idle) as Hidle.
  { unfold computeMovementStatus. rewrite Hdate, Hclamp.
    assert ((OFFLINE_AFTER_MS <? now - t) = false) as -> by (apply Z.ltb_ge; lia).
    assert (num_gt (Fin 0%Q) (Fin MOVING_ABOVE_KMH) = false) as ->; [|done].
    simpl. apply negb_false_iff. by apply Qle_bool_iff. }
  assert (forall driver, item_speed driver = Fin q -> formattedSpeed driver = "0.0")
    as Hshown.
  { intros driver Hs. unfold formattedSpeed. rewrite Hs, num_lt_zero by done.
    by vm_compute. }
  split; [done|]. split; [done|]. split; [done|].
  intros fields item Hspeed Hlast Hnorm.
  apply normalizeDriver_kept in Hnorm
    as (id & n & _ & _ & _ & Hnum & Hs & Hl & Hst).
  cbn [get_prop_opt] in *. rewrite Hspeed in *. rewrite Hlast in *.
  cbn [nullish ToNumber] in Hnum. injection Hnum as <-. cbn [isFinite] in Hs.
  rewrite Hst, Hl. split; [done|]. by apply Hshown.
Qed.

(** C7. When the data path of [loadDriverStatuses] throws: a silent call
    only logs the error, so it never sets the loading flag, which keeps its
    value after every step of the call, and it shows no toast; a call that
    is not silent shows the error toast. *)
Theorem loadDriverStatuses_error_surfacing (ls : Storage) (now_request now : Z)
    (error : Exn) :
  (driverStatusesPath getBaseUrl fetch OFFLINE_AFTER_MS MOVING_ABOVE_KMH
     ls now_request now).1 = Throw error ->
  let events silent :=
    (loadDriverStatuses getBaseUrl fetch OFFLINE_AFTER_MS MOVING_ABOVE_KMH
       silent ls now_request now).1 in
  events true = [ConsoleError error]
  /\ Forall (fun ev => is_toast ev = false /\ forall b, ev ≠ SetDriversLoading b)
            (events true)
  /\ (forall st steps,
        steps `prefix_of` events true ->
        driversLoading (ui_run st steps) = driversLoading st
        /\ toasts (ui_run st steps) = toasts st)
  /\ (exists title description variant,
        Toast title description variant ∈ events false)
  /\ (forall st,
        toasts (ui_run st (events false))
          = (toasts st ++ ["Falha ao carregar motoristas"])%list
        /\ consoleErrors (ui_run st (events false))
           = (consoleErrors st ++ [error])%list).
Proof.
  intros Hpath events. unfold events, loadDriverStatuses.
  destruct (driverStatusesPath _ _ _ _ _ _ _) as [outcome ls'].
  cbn [fst] in *. subst outcome. cbn.
  split; [done|]. split; [|split; [|split]].
  - repeat constructor; done.
  - intros st steps Hpre.
    assert (steps = [] \/ steps = [ConsoleError error]) as [-> | ->]; [|done..].
    destruct Hpre as [rest Hrest].
    destruct steps as [|ev [|ev' steps]]; [by left|right|].
    + by injection Hrest as <-.
    + discriminate.
  - eexists _, _, _. do 2 apply list_elem_of_further. apply list_elem_of_here.
  - done.
Qed.

End DashboardClaims.

(** ** The embedding at work *)




Lemma isTokenValid_characterisation_witness :
  isTokenValid (P := Reference.platform)
    {["temp_token" := sample_token_url]} 1999999999999 = true
  /\ isTokenValid (P := Reference.platform)
       {["temp_token" := sample_token_url]} 2000000000000 = false.
Proof.
  assert (active_token {["temp_token" := sample_token_url]} sample_token_url)
    as Ha.
  { split; [discriminate|]. right. split; [by left | reflexivity]. }
  assert (three_segments sample_token_url
            "x" "eyJzdWIiOiI_Pz4-IiwiZXhwIjoyMDAwMDAwMDAwfQ" "y") as Hs.
  { repeat split. }
  split.
  - refine (proj2 (proj1 (proj1 (proj2
              (isTokenValid_characterisation (P := Reference.platform)
                 {["temp_token" := sample_token_url]} 1999999999999))
              sample_token_url _ _ _ _
              [("sub", JStr "??>>"); ("exp", JNum (Fin 2000000000%Q))]
              Ha Hs _ _)) _);
      [vm_compute; reflexivity ..].
  - refine (proj2 (proj1 (proj2
              (isTokenValid_characterisation (P := Reference.platform)
                 {["temp_token" := sample_token_url]} 2000000000000))
              sample_token_url _ _ _ _
              [("sub", JStr "??>>"); ("exp", JNum (Fin 2000000000%Q))]
              Ha Hs _ _) _);
      [vm_compute; reflexivity ..].
Defined.

(** C4, the counterexample. At the time 1700000000000 a token whose [exp]
    is no number is accepted: the text [2000000000] and the array
    [[2000000000]] are converted by [>] and pass like the number. *)
Lemma isTokenValid_coerced_exp_counterexample :
  (let! decoded := Reference.atob "eyJleHAiOiIyMDAwMDAwMDAwIn0" in
   Reference.JSON_parse decoded)
  = Ok (JObj [("exp", JStr "2000000000")])
  /\ isTokenValid (P := Reference.platform)
       {["id_transporte_token" := text_exp_token]} 1700000000000 = true
  /\ (let! decoded := Reference.atob "eyJleHAiOlsyMDAwMDAwMDAwXX0" in
      Reference.JSON_parse decoded)
     = Ok (JObj [("exp", JArr [JNum (Fin 2000000000%Q)])])
  /\ isTokenValid (P := Reference.platform)
       {["id_transporte_token" := array_exp_token]} 1700000000000 = true.
Proof. repeat split; vm_compute; reflexivity. Qed.

Lemma request_success_envelope_witness :
  (request (P := Reference.platform) Reference.getBaseUrl
     (backend (JObj [("success", JBool true); ("data", JArr [])]))
     ∅ 0 "/api/drivers" no_options).1
  = Ok (JObj [("success", JBool true); ("data", JArr [])])
  /\ (request (P := Reference.platform) Reference.getBaseUrl
        (backend (JArr [])) ∅ 0 "/api/drivers" no_options).1
     = Ok (JObj [("success", JBool true); ("data", JArr [])]).
Proof.
  split.
  - refine (proj1 (request_success_envelope (P := Reference.platform)
                     Reference.getBaseUrl
                     (backend (JObj [("success", JBool true); ("data", JArr [])]))
                     ∅ 0 "/api/drivers" no_options _ _ _
                     (Reference.respond_json 200
                        (JObj [("success", JBool true); ("data", JArr [])]))
                     (JObj [("success", JBool true); ("data", JArr [])])
                     eq_refl eq_refl eq_refl eq_refl) _).
    by eexists _, _.
  - refine (proj2 (request_success_envelope (P := Reference.platform)
                     Reference.getBaseUrl (backend (JArr []))
                     ∅ 0 "/api/drivers" no_options _ _ _
                     (Reference.respond_json 200 (JArr [])) (JArr [])
                     eq_refl eq_refl eq_refl eq_refl) _).
    intros (fields & v & H & _). discriminate.
Defined.

Lemma request_never_throws_witness :
  (request (P := Reference.platform) Reference.getBaseUrl
     (Reference.always (Throw (JsError "TypeError: Failed to fetch")))
     ∅ 0 "/api/drivers" no_options).1
  = Ok (JObj [("success", JBool false); ("error", JStr CONNECTION_ERROR)])
  /\ (request (P := Reference.platform) Reference.getBaseUrl
        (Reference.always (Ok (Reference.respond_json 500
           (JObj [("error", JStr "jwt: secretOrPrivateKey must have a value")]))))
        ∅ 0 "/api/drivers" no_options).1
     = Ok (JObj [("success", JBool false); ("error", JStr CONFIG_ERROR)])
  /\ (request (P := Reference.platform) Reference.getBaseUrl
        (Reference.always (Ok (Reference.respond 502 "<html>")))
        ∅ 0 "/api/drivers" no_options).1
     = Ok (JObj [("success", JBool false); ("error", JStr "HTTP 502")]).
Proof.
  split; [|split].
  - edestruct (request_never_throws (P := Reference.platform) Reference.getBaseUrl
                 (Reference.always (Throw (JsError "TypeError: Failed to fetch")))
                 ∅ 0 "/api/drivers" no_options)
      as (_ & H & _); [vm_compute; reflexivity|].
    exact (H _ eq_refl).
  - edestruct (request_never_throws (P := Reference.platform) Reference.getBaseUrl
                 (Reference.always (Ok (Reference.respond_json 500
                    (JObj [("error", JStr "jwt: secretOrPrivateKey must have a value")]))))
                 ∅ 0 "/api/drivers" no_options)
      as (_ & _ & _ & _ & H & _); [vm_compute; reflexivity|].
    refine (H (Reference.respond_json 500
                 (JObj [("error", JStr "jwt: secretOrPrivateKey must have a value")]))
              _ eq_refl eq_refl eq_refl _).
    discriminate.
  - edestruct (request_never_throws (P := Reference.platform) Reference.getBaseUrl
                 (Reference.always (Ok (Reference.respond 502 "<html>")))
                 ∅ 0 "/api/drivers" no_options)
      as (_ & _ & _ & H & _); [vm_compute; reflexivity|].
    refine (H (Reference.respond 502 "<html>") eq_refl eq_refl _). by left.
Defined.

Lemma getSecureFile_propagates_witness :
  (getSecureFile (P := Reference.platform) (backend JNull)
     {["id_transporte_token" := sample_token]} 2100000000000 "/files/1").1
  = Throw (JsError "Usuário não autenticado.")
  /\ (getSecureFile (P := Reference.platform)
        (Reference.always (Throw (JsError "TypeError: Failed to fetch")))
        {["id_transporte_token" := sample_token]} 1700000000000 "/files/1").1
     = Throw (JsError "TypeError: Failed to fetch").
Proof.
  split.
  - refine (proj1 (getSecureFile_propagates (P := Reference.platform) _ _ _ _) _).
    by vm_compute.
  - destruct (getSecureFile_propagates (P := Reference.platform)
                (Reference.always (Throw (JsError "TypeError: Failed to fetch")))
                {["id_transporte_token" := sample_token]} 1700000000000 "/files/1")
      as (_ & H & _).
    destruct H as (H & _); [by vm_compute|]. exact (H _ eq_refl).
Defined.

(** C5, the counterexample. For the raw body
    [{ data: { data: { token, user } } }], answered with status 200, [login]
    returns [{ success: true, data: { data: { token, user } } }] and not
    [{ success: true, data: { token, user } }]. *)
Lemma login_double_nested_counterexample :
  (login (P := Reference.platform) Reference.getBaseUrl
     (backend double_nested_body) ∅ 0 sample_credentials).1
  = Ok (JObj [("success", JBool true); ("data", nested_body)])
  /\ (login (P := Reference.platform) Reference.getBaseUrl
        (backend double_nested_body) ∅ 0 sample_credentials).1
     ≠ Ok (JObj [("success", JBool true); ("data", sample_token_user)]).
Proof.
  assert ((login (P := Reference.platform) Reference.getBaseUrl
             (backend double_nested_body) ∅ 0 sample_credentials).1
          = Ok (JObj [("success", JBool true); ("data", nested_body)])) as E
    by (vm_compute; reflexivity).
  split; [exact E|]. rewrite E. discriminate.
Qed.

Lemma login_unwraps_envelope_witness :
  (login (P := Reference.platform) Reference.getBaseUrl
     (backend nested_body) ∅ 0 sample_credentials).1
  = Ok (JObj [("success", JBool true); ("data", sample_token_user)]).
Proof.
  edestruct (login_unwraps_envelope (P := Reference.platform) Reference.getBaseUrl
               (backend nested_body) ∅ 0 sample_credentials
               (JObj [("success", JBool true); ("data", nested_body)]))
    as (_ & H); [vm_compute; reflexivity|].
  edestruct H as (_ & E); [vm_compute; reflexivity|reflexivity..|].
  exact E.
Defined.



Lemma negative_speed_is_clamped_witness :
  computeMovementStatus (P := Reference.platform) 300000 5
    (Fin (-3)%Q) (Some "2024-01-01T00:00:50Z") sample_now = idle
  /\ formattedSpeed (P := Reference.platform)
       {| item_id := "2"; item_name := "Bruno"; item_speed := Fin (-3)%Q;
          item_lastUpdate := Some "2024-01-01T00:00:50Z";
          item_status := idle |} = "0.0".
Proof.
  destruct (negative_speed_is_clamped (P := Reference.platform) 300000 5
              (-3)%Q "2024-01-01T00:00:50Z" 1704067250000 sample_now)
    as (_ & Hidle & Hshown & _).
  - reflexivity.
  - discriminate.
  - reflexivity.
  - discriminate.
  - split; [exact Hidle | by apply Hshown].
Defined.

Lemma loadDriverStatuses_error_surfacing_witness :
  (loadDriverStatuses (P := Reference.platform) Reference.getBaseUrl
     (backend unprintable_id_locations) 300000 5 true ∅ 0 sample_now).1
  = [ConsoleError (JsError "TypeError: Cannot convert object to primitive value")]
  /\ exists title description variant,
       Toast title description variant ∈
         (loadDriverStatuses (P := Reference.platform) Reference.getBaseUrl
            (backend unprintable_id_locations) 300000 5 false ∅ 0 sample_now).1.
Proof.
  edestruct (loadDriverStatuses_error_surfacing (P := Reference.platform)
               Reference.getBaseUrl (backend unprintable_id_locations) 300000 5
               ∅ 0 sample_now
               (JsError "TypeError: Cannot convert object to primitive value"))
    as (Hsilent & _ & _ & Htoast & _); [vm_compute; reflexivity|].
  split; [exact Hsilent | exact Htoast].
Defined.

(** * Properties of the other operations *)

Set Warnings "-clear-no-such-hyp".

(** ** Requests in general *)

Section RequestFacts.
Context {P : Platform}.
Variable getBaseUrl : string -> string.
Variable fetch : string -> RequestInit -> Throws Response.

Lemma request_storage (ls : Storage) (now : Z) (endpoint : string)
    (options : RequestInit) :
  (request getBaseUrl fetch ls now endpoint options).2 = (getAuthHeader ls now).2.
Proof.
  unfold request, request_prepare. by destruct (getAuthHeader ls now).
Qed.

Lemma request_prepare_target (ls : Storage) (now : Z) (endpoint : string)
    (options : RequestInit) :
  let '(url, init, ls') := request_prepare getBaseUrl ls now endpoint options in
  url = getBaseUrl endpoint ++ endpoint
  /\ method init = method options /\ body init = body options
  /\ ls' = (getAuthHeader ls now).2.
Proof. unfold request_prepare. by destruct (getAuthHeader ls now). Qed.

Lemma request_fetch_throws (ls : Storage) (now : Z) (endpoint : string)
    (options : RequestInit) (url : string) (init : RequestInit) (ls' : Storage)
    (e : Exn) :
  request_prepare getBaseUrl ls now endpoint options = (url, init, ls') ->
  fetch url init = Throw e ->
  (request getBaseUrl fetch ls now endpoint options).1
    = Ok (failed (request_catch e)).
Proof.
  intros Hprep Hf. rewrite (request_unfold _ _ _ _ _ _ _ _ _ Hprep).
  cbn [fst]. by rewrite Hf.
Qed.

Lemma request_ok_body (ls : Storage) (now : Z) (endpoint : string)
    (options : RequestInit) (url : string) (init : RequestInit) (ls' : Storage)
    (response : Response) (body : JSON) :
  request_prepare getBaseUrl ls now endpoint options = (url, init, ls') ->
  fetch url init = Ok response -> ok response = true ->
  json response = Ok body ->
  (request getBaseUrl fetch ls now endpoint options).1
    = Ok (if has_success_key body then body else succeeded body).
Proof.
  intros Hprep Hf Hok Hj. rewrite (request_unfold _ _ _ _ _ _ _ _ _ Hprep).
  cbn [fst]. rewrite Hf. cbn [bindT]. unfold request_response.
  rewrite Hok, Hj. cbn [negb bindT]. by destruct (has_success_key body).
Qed.

(** The auth header is stable: asking again, at the same time, gives the
    same header and changes nothing more. *)
Theorem getAuthHeader_idempotent (ls : Storage) (now : Z) :
  getAuthHeader (getAuthHeader ls now).2 now = getAuthHeader ls now.
Proof.
  clear getBaseUrl fetch.
  unfold getAuthHeader at 2 3.
  destruct (readToken ls) as [token|] eqn:Hr; cbn [snd].
  - destruct (str_empty token) eqn:He; cbn [snd].
    + unfold getAuthHeader. by rewrite Hr, He.
    + destruct (isTokenValid ls now) eqn:Hv; cbn [negb snd].
      * unfold getAuthHeader. by rewrite Hr, He, Hv.
      * unfold getAuthHeader.
        assert (readToken (clearSession ls) = None) as ->; [|done].
        unfold readToken, getItem.
        rewrite !clearSession_cleared by (unfold session_keys; set_solver).
        done.
  - unfold getAuthHeader. by rewrite Hr.
Qed.

(** A request made with a token that is present and not valid goes out
    without [Authorization] header, leaves the five session keys removed and
    every other key of the storage as it was. *)
Theorem request_stale_token_unauthenticated (ls : Storage) (now : Z)
    (endpoint : string) (options : RequestInit) (token : string) :
  readToken ls = Some token -> token ≠ "" -> isTokenValid ls now = false ->
  headers options = None ->
  (exists hdrs,
     headers (request_prepare getBaseUrl ls now endpoint options).1.2 = Some hdrs
     /\ hdrs !! "Authorization" = None)
  /\ (forall k, k ∈ session_keys ->
        (request getBaseUrl fetch ls now endpoint options).2 !! k = None)
  /\ (forall k, k ∉ session_keys ->
        (request getBaseUrl fetch ls now endpoint options).2 !! k = ls !! k).
Proof.
  intros Hr Hne Hv Hh. rewrite request_storage.
  destruct (getAuthHeader_invalid ls now token Hr Hne Hv) as (E & Hc & Ho).
  split; [|split; [exact Hc | exact Ho]].
  rewrite request_prepare_without_headers by done. rewrite E. cbn [fst].
  eexists. split; [done|].
  destruct (isFormData (body options)).
  - rewrite lookup_delete_ne by done. rewrite lookup_union, lookup_empty.
    by rewrite lookup_singleton_ne.
  - rewrite lookup_union, lookup_empty. by rewrite lookup_singleton_ne.
Qed.

(** A request made with a valid token carries [Authorization: Bearer
    <token>] and leaves the storage untouched. *)
Theorem request_valid_token_authenticated (ls : Storage) (now : Z)
    (endpoint : string) (options : RequestInit) :
  isTokenValid ls now = true -> headers options = None ->
  exists token hdrs,
    readToken ls = Some token
    /\ headers (request_prepare getBaseUrl ls now endpoint options).1.2 = Some hdrs
    /\ hdrs !! "Authorization" = Some ("Bearer " ++ token)
    /\ (request getBaseUrl fetch ls now endpoint options).2 = ls.
Proof.
  intros Hv Hh. rewrite request_storage.
  destruct (getAuthHeader_valid ls now Hv) as (token & Hr & E).
  rewrite request_prepare_without_headers by done. rewrite E. cbn [fst snd].
  exists token. eexists. split; [done|]. split; [done|]. split; [|done].
  destruct (isFormData (body options)).
  - rewrite lookup_delete_ne by done. rewrite lookup_union.
    by rewrite lookup_singleton_eq.
  - rewrite lookup_union. by rewrite lookup_singleton_eq.
Qed.

(** A response that is not 2xx never comes back as a success, whatever its
    body says: the envelope is [{ success: false, error }]. *)
Theorem request_http_error_never_succeeds (ls : Storage) (now : Z)
    (endpoint : string) (options : RequestInit) (url : string)
    (init : RequestInit) (ls' : Storage) (response : Response) :
  request_prepare getBaseUrl ls now endpoint options = (url, init, ls') ->
  fetch url init = Ok response -> ok response = false ->
  exists msg,
    (request getBaseUrl fetch ls now endpoint options).1
      = Ok (JObj [("success", JBool false); ("error", JStr msg)]).
Proof.
  intros Hprep Hf Hok. rewrite (request_unfold _ _ _ _ _ _ _ _ _ Hprep).
  cbn [fst]. rewrite Hf. cbn [bindT].
  destruct (request_response_not_ok response Hok) as [e ->].
  cbn [try_catch]. by eexists.
Qed.

(** The headers of the endpoint methods, which pass none of their own. A
    JSON body goes out with [Content-Type: application/json]; a multipart
    body goes out without [Content-Type]. In both cases the only other
    header is the auth header, and method and body are those of the
    endpoint. *)
Theorem endpoint_headers (ls : Storage) (now : Z) (endpoint verb : string)
    (v : JSON) (formData : list (string * string)) :
  let auth := (getAuthHeader ls now).1 in
  let sent options := (request_prepare getBaseUrl ls now endpoint options).1.2 in
  headers (sent (json_options verb v))
    = Some (auth ∪ {["Content-Type" := "application/json"]})
  /\ method (sent (json_options verb v)) = Some verb
  /\ body (sent (json_options verb v)) = Some (BodyText (JSON_stringify v))
  /\ headers (sent (form_options formData)) = Some auth
  /\ method (sent (form_options formData)) = Some "POST"
  /\ body (sent (form_options formData)) = Some (BodyFormData formData)
  /\ (forall k, k ≠ "Authorization" -> auth !! k = None).
Proof.
  intros auth sent. unfold sent.
  pose proof (request_prepare_target ls now endpoint (json_options verb v)) as Hj.
  pose proof (request_prepare_target ls now endpoint (form_options formData)) as Hm.
  rewrite !request_prepare_without_headers by done.
  destruct (request_prepare getBaseUrl ls now endpoint (json_options verb v))
    as [[u1 i1] l1].
  destruct (request_prepare getBaseUrl ls now endpoint (form_options formData))
    as [[u2 i2] l2].
  destruct Hj as (_ & Hj1 & Hj2 & _). destruct Hm as (_ & Hm1 & Hm2 & _).
  cbn [fst snd isFormData json_options form_options body] in *.
  assert (forall k, k ≠ "Authorization" -> auth !! k = None) as Hauth.
  { intros k Hk. unfold auth, getAuthHeader.
    destruct (readToken ls) as [token|]; [|done].
    destruct (str_empty token); [done|].
    destruct (isTokenValid ls now); cbn [negb fst]; [|done].
    by rewrite lookup_singleton_ne. }
  repeat split; try done.
  f_equal. fold auth. apply map_eq. intros k.
  destruct (decide (k = "Content-Type")) as [->|Hk].
  - rewrite lookup_delete_eq. by rewrite Hauth.
  - rewrite lookup_delete_ne by done. rewrite lookup_union.
    rewrite lookup_singleton_ne by done. by destruct (auth !! k).
Qed.

End RequestFacts.

(** ** Endpoint methods *)

Section EndpointFacts.
Context {P : Platform}.
Variable getBaseUrl : string -> string.
Variable fetch : string -> RequestInit -> Throws Response.

Lemma assoc_get_set_eq (k : string) (v : JSON) (fields : list (string * JSON)) :
  assoc_get k (assoc_set k v fields) = Some v.
Proof.
  induction fields as [|[k' v'] rest IH]; simpl.
  - by rewrite String.eqb_refl.
  - destruct (String.eqb k k') eqn:E; simpl; rewrite ?String.eqb_refl, ?E; done.
Qed.

Lemma assoc_get_set_ne (k k0 : string) (v : JSON) (fields : list (string * JSON)) :
  k0 ≠ k -> assoc_get k0 (assoc_set k v fields) = assoc_get k0 fields.
Proof.
  intros Hne. induction fields as [|[k' v'] rest IH]; simpl.
  - apply String.eqb_neq in Hne. by rewrite Hne.
  - destruct (String.eqb k k') eqn:E; simpl.
    + apply String.eqb_eq in E as <-. apply String.eqb_neq in Hne.
      by rewrite Hne.
    + by rewrite IH.
Qed.

Lemma assoc_get_remove_eq (k : string) (fields : list (string * JSON)) :
  assoc_get k (assoc_remove k fields) = None.
Proof.
  induction fields as [|[k' v'] rest IH]; simpl; [done|].
  destruct (String.eqb k k') eqn:E; simpl; rewrite ?E; done.
Qed.

Lemma assoc_get_remove_ne (k k0 : string) (fields : list (string * JSON)) :
  k0 ≠ k -> assoc_get k0 (assoc_remove k fields) = assoc_get k0 fields.
Proof.
  intros Hne. induction fields as [|[k' v'] rest IH]; simpl; [done|].
  destruct (String.eqb k k') eqn:E; simpl.
  - apply String.eqb_eq in E as <-. apply String.eqb_neq in Hne.
    by rewrite Hne.
  - by rewrite IH.
Qed.

(** On an object the unwrapping cannot throw. *)
Lemma unwrapData_object (fields : list (string * JSON)) :
  unwrapData (JObj fields) =
    Ok (let data := assoc_get "data" fields in
        let inner := get_prop_opt data "data" in
        if truthy (assoc_get "success" fields) && truthy data && truthy inner
        then with_data (JObj fields) (default JNull inner)
        else JObj fields).
Proof.
  unfold unwrapData. cbn [get_prop bindT].
  destruct (truthy (assoc_get "success" fields)); cbn [negb andb]; [|done].
  destruct (truthy (assoc_get "data" fields)) eqn:Hd; cbn [negb andb]; [|done].
  assert (get_prop (default JNull (assoc_get "data" fields)) "data"
          = Ok (get_prop_opt (assoc_get "data" fields) "data")) as ->.
  { destruct (assoc_get "data" fields) as [[| | | | |]|]; try done. }
  cbn [bindT].
  destruct (get_prop_opt (assoc_get "data" fields) "data") as [v|] eqn:Hi; [|done].
  by destruct (truthy (Some v)).
Qed.

Lemma login_unwrapData (ls : Storage) (now : Z) (credentials : JSON) :
  login getBaseUrl fetch ls now credentials =
    (let! response :=
       (request getBaseUrl fetch ls now "/api/auth/login"
          (json_options "POST" credentials)).1 in
     unwrapData response,
     (request getBaseUrl fetch ls now "/api/auth/login"
        (json_options "POST" credentials)).2).
Proof.
  unfold login, json_options.
  by destruct (request getBaseUrl fetch ls now "/api/auth/login" _).
Qed.

(** [login] never rejects: it always resolves to an object. A failed
    envelope of [request] comes back as it is; so a login during a network
    failure resolves to the failed envelope with the classified message. *)
Theorem login_never_throws (ls : Storage) (now : Z) (credentials : JSON) :
  (exists fields,
     (login getBaseUrl fetch ls now credentials).1 = Ok (JObj fields))
  /\ (forall msg,
        (request getBaseUrl fetch ls now "/api/auth/login"
           (json_options "POST" credentials)).1 = Ok (failed msg) ->
        (login getBaseUrl fetch ls now credentials).1 = Ok (failed msg))
  /\ (forall url init ls' message,
        request_prepare getBaseUrl ls now "/api/auth/login"
          (json_options "POST" credentials) = (url, init, ls') ->
        fetch url init = Throw (JsError message) ->
        (login getBaseUrl fetch ls now credentials).1
          = Ok (failed (classified message))).
Proof.
  rewrite login_unwrapData. cbn [fst].
  assert (forall msg,
            (request getBaseUrl fetch ls now "/api/auth/login"
               (json_options "POST" credentials)).1 = Ok (failed msg) ->
            (let! response :=
               (request getBaseUrl fetch ls now "/api/auth/login"
                  (json_options "POST" credentials)).1 in
             unwrapData response) = Ok (failed msg)) as Hfailed.
  { intros msg ->. cbn [bindT]. unfold failed. by rewrite unwrapData_object. }
  split; [|split].
  - destruct (request getBaseUrl fetch ls now "/api/auth/login" _).1
      as [envelope|e] eqn:Hreq.
    + destruct (request_envelope_object _ _ _ _ _ _ _ Hreq) as [fields ->].
      cbn [bindT]. rewrite unwrapData_object. cbn zeta.
      destruct (_ && _); [|by eexists].
      unfold with_data. by eexists.
    + exfalso. unfold request in Hreq.
      destruct (request_prepare _ _ _ _ _) as [[url init] ls'].
      cbn [fst] in Hreq.
      by destruct (let! response := fetch url init in request_response response).
  - exact Hfailed.
  - intros url init ls' message Hprep Hf. apply Hfailed.
    by rewrite (request_fetch_throws _ _ _ _ _ _ _ _ _ _ Hprep Hf).
Qed.

(** [getAuthCompanies] gives the same envelope whether the backend answers
    with the bare list or with the list under [data]. *)
Theorem getAuthCompanies_flat_or_nested (ls : Storage) (now : Z)
    (url : string) (init : RequestInit) (ls' : Storage)
    (response : Response) (body : JSON) (companies : list JSON) :
  request_prepare getBaseUrl ls now "/api/auth/companies" no_options
    = (url, init, ls') ->
  fetch url init = Ok response -> ok response = true ->
  json response = Ok body ->
  body = JArr companies
  \/ (exists fields, body = JObj fields
                     /\ assoc_get "success" fields = None
                     /\ assoc_get "data" fields = Some (JArr companies)) ->
  (getAuthCompanies getBaseUrl fetch ls now).1
    = Ok (JObj [("success", JBool true); ("data", JArr companies)]).
Proof.
  intros Hprep Hf Hok Hj Hbody. unfold getAuthCompanies.
  pose proof (request_ok_body _ _ _ _ _ _ _ _ _ _ _ Hprep Hf Hok Hj) as Hreq.
  destruct (request getBaseUrl fetch ls now "/api/auth/companies" no_options)
    as [r ls''].
  cbn [fst] in *. subst r. destruct Hbody as [->|(fields & -> & Hs & Hd)].
  - cbn [has_success_key bindT]. unfold succeeded. by rewrite unwrapData_object.
  - assert (has_success_key (JObj fields) = false) as ->.
    { cbn. rewrite Hs. by apply bool_decide_eq_false_2, is_Some_None. }
    cbn [bindT]. unfold succeeded. rewrite unwrapData_object.
    cbn. by rewrite Hd.
Qed.

(** A key set on an object that has not got it comes last. *)
Lemma assoc_set_absent (k : string) (v : JSON) (fields : list (string * JSON)) :
  assoc_get k fields = None -> assoc_set k v fields = (fields ++ [(k, v)])%list.
Proof.
  induction fields as [|[k' v'] rest IH]; simpl; [done|].
  destruct (String.eqb k k'); [done|]. intros H. by rewrite IH.
Qed.

(** What the endpoints with a JSON body hand to [fetch]. *)
Lemma request_prepare_json (ls : Storage) (now : Z) (endpoint verb : string)
    (v : JSON) :
  request_prepare getBaseUrl ls now endpoint (json_options verb v)
  = (getBaseUrl endpoint ++ endpoint,
     {| method := Some verb;
        headers := Some ((getAuthHeader ls now).1
                         ∪ {["Content-Type" := "application/json"]});
        body := Some (BodyText (JSON_stringify v)) |},
     (getAuthHeader ls now).2).
Proof.
  clear fetch. unfold request_prepare.
  destruct (getAuthHeader ls now) as [auth ls']. cbn.
  unfold merged_headers. cbn. by rewrite (left_id_L ∅ (∪) auth).
Qed.

(** What [registerDriverAccount] sends. Its outcome depends on the server
    through one request only: the POST to [/api/drivers], with the auth
    header and [Content-Type: application/json], whose body is the JSON text
    of the payload with [name] set to [full_name] and every other field
    kept ([name] comes last when the payload had none). A server that
    answers that request with a 2xx body makes the registration succeed
    with that body as [data]; a server on which that request fails makes it
    fail. *)
Theorem registerDriverAccount_sends_name (ls : Storage) (now : Z)
    (payload : list (string * JSON)) (full_name : JSON) :
  assoc_get "full_name" payload = Some full_name ->
  exists sent,
    assoc_get "name" sent = Some full_name
    /\ (forall k, k ≠ "name" -> assoc_get k sent = assoc_get k payload)
    /\ (assoc_get "name" payload = None ->
        sent = (payload ++ [("name", full_name)])%list)
    /\ let url := getBaseUrl "/api/drivers" ++ "/api/drivers" in
       let init :=
         {| method := Some "POST";
            headers := Some ((getAuthHeader ls now).1
                             ∪ {["Content-Type" := "application/json"]});
            body := Some (BodyText (JSON_stringify (JObj sent))) |} in
       (forall server server',
          server url init = server' url init ->
          registerDriverAccount getBaseUrl server ls now payload
          = registerDriverAccount getBaseUrl server' ls now payload)
       /\ (forall server response data,
             server url init = Ok response -> ok response = true ->
             json response = Ok data -> has_success_key data = false ->
             (registerDriverAccount getBaseUrl server ls now payload).1
             = Ok (JObj [("success", JBool true); ("data", data)]))
       /\ (forall server e,
             server url init = Throw e ->
             exists msg,
               (registerDriverAccount getBaseUrl server ls now payload).1
               = Ok (failed msg)).
Proof.
  clear fetch. intros Hfull. exists (withName payload).
  assert (withName payload = assoc_set "name" full_name payload) as Hw
    by (unfold withName; by rewrite Hfull).
  split; [rewrite Hw; apply assoc_get_set_eq|].
  split; [intros k Hk; rewrite Hw; by apply assoc_get_set_ne|].
  split; [intros Hnone; rewrite Hw; by apply assoc_set_absent|].
  intros url init.
  pose proof (request_prepare_json ls now "/api/drivers" "POST"
                (JObj (withName payload))) as Hprep.
  fold url in Hprep. fold init in Hprep.
  split; [|split].
  - intros server server' Hsame. unfold registerDriverAccount, createDriver.
    rewrite (request_unfold getBaseUrl server _ _ _ _ _ _ _ Hprep).
    rewrite (request_unfold getBaseUrl server' _ _ _ _ _ _ _ Hprep).
    by rewrite Hsame.
  - intros server response data Hs Hok Hj Hns.
    pose proof (request_ok_body getBaseUrl server _ _ _ _ _ _ _ _ _
                  Hprep Hs Hok Hj) as Hreq.
    rewrite Hns in Hreq. unfold registerDriverAccount, createDriver.
    destruct (request getBaseUrl server ls now "/api/drivers" _) as [r ls'].
    cbn [fst] in Hreq. subst r. reflexivity.
  - intros server e Hs.
    pose proof (request_fetch_throws getBaseUrl server _ _ _ _ _ _ _ _
                  Hprep Hs) as Hreq.
    revert Hreq. generalize (request_catch e) as m. intros m Hreq.
    unfold registerDriverAccount, createDriver.
    destruct (request getBaseUrl server ls now "/api/drivers" _) as [r ls'].
    cbn [fst] in Hreq. subst r. cbn.
    destruct (str_empty m); cbn; by eexists.
Qed.

(** [registerDriverAccount] never rejects. From an envelope with a truthy
    [success] it keeps [success: true] and the [data]; from any other
    envelope it makes [{ success: false, error }], where [error] is the
    text of the envelope, or the fixed text when the envelope has none or
    an empty one. *)
Theorem registerDriverAccount_result (ls : Storage) (now : Z)
    (payload : list (string * JSON)) (envelope : list (string * JSON)) :
  (createDriver getBaseUrl fetch ls now (JObj (withName payload))).1
    = Ok (JObj envelope) ->
  let result := (registerDriverAccount getBaseUrl fetch ls now payload).1 in
  (truthy (assoc_get "success" envelope) = true ->
   result = Ok (JObj (("success", JBool true)
                      :: match assoc_get "data" envelope with
                         | Some d => [("data", d)]
                         | None => []
                         end)))
  /\ (truthy (assoc_get "success" envelope) = false ->
      (forall text, assoc_get "error" envelope = Some (JStr text) -> text ≠ "" ->
                    result = Ok (failed text))
      /\ (assoc_get "error" envelope = None
          \/ assoc_get "error" envelope = Some (JStr "") ->
          result = Ok (failed REGISTER_FAILED)))
  /\ (exists fields, result = Ok (JObj fields)).
Proof.
  intros Hreq result. unfold result, registerDriverAccount.
  destruct (createDriver getBaseUrl fetch ls now (JObj (withName payload)))
    as [r ls'].
  cbn [fst] in *. subst r. cbn [bindT get_prop].
  destruct (truthy (assoc_get "success" envelope)) eqn:Hs; cbn [negb bindT].
  - split; [done|]. split; [discriminate|]. cbn [try_catch]. by eexists.
  - split; [discriminate|]. split; [split|].
    + intros text He Hne. rewrite He. cbn [truthy].
      apply str_empty_false in Hne. by rewrite Hne.
    + intros [He|He]; by rewrite He.
    + destruct (if truthy (assoc_get "error" envelope) then _ else _)
        as [msg|[m|d]]; cbn [bindT try_catch]; unfold failed; by eexists.
Qed.

(** [uploadCompanyLogo] never rejects and never touches the storage. It
    wraps every parsed 2xx body as [{ success: true, data: body }], also a
    body that has a [success] key of its own, and it reports the message of
    a thrown error as it is, without the translations of [request]. *)
Theorem uploadCompanyLogo_envelope (ls : Storage) (companyId logoFile : string) :
  let url := getBaseUrl "/api/companies" ++ "/api/companies/" ++ companyId ++ "/logo" in
  let init := uploadCompanyLogo_options ls logoFile in
  let result := (uploadCompanyLogo getBaseUrl fetch ls companyId logoFile).1 in
  (exists fields, result = Ok (JObj fields))
  /\ (uploadCompanyLogo getBaseUrl fetch ls companyId logoFile).2 = ls
  /\ (forall message, fetch url init = Throw (JsError message) ->
                      result = Ok (failed message))
  /\ (forall response body,
        fetch url init = Ok response -> ok response = true ->
        json response = Ok body ->
        result = Ok (JObj [("success", JBool true); ("data", body)]))
  /\ (forall response,
        fetch url init = Ok response -> ok response = false ->
        exists msg, result = Ok (failed msg)).
Proof.
  intros url init result. unfold result, uploadCompanyLogo. cbn [fst snd].
  fold init. fold url.
  split; [|split; [done|split; [|split]]].
  - destruct (fetch url init) as [response|[m|d]]; cbn [bindT try_catch];
      unfold failed; try by eexists.
    destruct (ok response); cbn [negb].
    + destruct (json response) as [body|[m|d]]; cbn [bindT try_catch];
        unfold failed, succeeded; by eexists.
    + destruct (if truthy _ then _ else _) as [msg|[m|d]];
        cbn [bindT try_catch]; unfold failed; by eexists.
  - intros message Hf. by rewrite Hf.
  - intros response body Hf Hok Hj. rewrite Hf. cbn [bindT].
    by rewrite Hok, Hj.
  - intros response Hf Hok. rewrite Hf. cbn [bindT]. rewrite Hok. cbn [negb].
    destruct (if truthy _ then _ else _) as [msg|[m|d]];
      cbn [bindT try_catch]; by eexists.
Qed.

(** In the form of [createOccurrence] a coordinate is present exactly when
    it is a number other than zero and [NaN]; a latitude or a longitude of
    zero is left out like a missing one. The form always starts with the
    type and the description. *)
Theorem createOccurrence_form_coordinates (occurrenceData : OccurrenceData) :
  let form := createOccurrence_form occurrenceData in
  take 2 form = [("type", occ_type occurrenceData);
                 ("description", occ_description occurrenceData)]
  /\ (forall text,
        ("latitude", text) ∈ form <->
        exists x, occ_latitude occurrenceData = Some x
                  /\ truthy (Some (JNum x)) = true /\ text = NumberToString x)
  /\ (forall text,
        ("longitude", text) ∈ form <->
        exists x, occ_longitude occurrenceData = Some x
                  /\ truthy (Some (JNum x)) = true /\ text = NumberToString x)
  /\ (occ_latitude occurrenceData = Some (Fin 0%Q) ->
      forall text, ("latitude", text) ∉ form)
  /\ (occ_longitude occurrenceData = Some (Fin 0%Q) ->
      forall text, ("longitude", text) ∉ form).
Proof.
  clear getBaseUrl fetch.
  intros form.
  assert (forall (b : bool) (k k0 v text : string),
            (k0, text) ∈ (if b then [(k, v)] else []) <->
            b = true /\ k0 = k /\ text = v) as Hopt.
  { intros [|] k k0 v text; rewrite ?elem_of_cons, ?elem_of_nil; naive_solver. }
  assert (forall k text,
            k ≠ "type" -> k ≠ "description" -> k ≠ "photo" ->
            (k, text) ∈ form <->
            (k, text) ∈ (if truthy_number (occ_latitude occurrenceData)
                         then [("latitude",
                                NumberToString
                                  (default NaN (occ_latitude occurrenceData)))]
                         else [])
            \/ (k, text) ∈ (if truthy_number (occ_longitude occurrenceData)
                            then [("longitude",
                                   NumberToString
                                     (default NaN (occ_longitude occurrenceData)))]
                            else [])) as Hform.
  { intros k text H1 H2 H3. unfold form, createOccurrence_form.
    rewrite !elem_of_app, !elem_of_cons, elem_of_nil.
    destruct (occ_photo occurrenceData);
      rewrite ?elem_of_cons, ?elem_of_nil; naive_solver. }
  assert (forall text,
            ("latitude", text) ∈ form <->
            exists x, occ_latitude occurrenceData = Some x
                      /\ truthy (Some (JNum x)) = true
                      /\ text = NumberToString x) as Hlat.
  { intros text. rewrite Hform by done. rewrite !Hopt. unfold truthy_number.
    destruct (occ_latitude occurrenceData) as [x|]; cbn [default from_option id];
      naive_solver. }
  assert (forall text,
            ("longitude", text) ∈ form <->
            exists x, occ_longitude occurrenceData = Some x
                      /\ truthy (Some (JNum x)) = true
                      /\ text = NumberToString x) as Hlon.
  { intros text. rewrite Hform by done. rewrite !Hopt. unfold truthy_number.
    destruct (occ_longitude occurrenceData) as [x|]; cbn [default from_option id];
      naive_solver. }
  split; [done|]. split; [exact Hlat|]. split; [exact Hlon|]. split.
  - intros H0 text Hin. apply Hlat in Hin as (x & Hx & Ht & _).
    rewrite H0 in Hx. injection Hx as <-. discriminate.
  - intros H0 text Hin. apply Hlon in Hin as (x & Hx & Ht & _).
    rewrite H0 in Hx. injection Hx as <-. discriminate.
Qed.

End EndpointFacts.

(** ** The dashboard *)

Section DashboardFacts.
Context {P : Platform}.
Variable getBaseUrl : string -> string.
Variable fetch : string -> RequestInit -> Throws Response.
Variable OFFLINE_AFTER_MS : Z.
Variable MOVING_ABOVE_KMH : Q.

(** The label of [formatRelativeTime]. Without a timestamp, or with one
    that is empty or no date, it is [Sem atualizacao]. Otherwise it depends
    on the age [now - parsed] alone: below one minute (also for a timestamp
    in the future) [Agora mesmo]; then the whole minutes, from 1 to 59;
    then the whole hours, from 1 to 23; then the whole days, at least 1. *)
Theorem formatRelativeTime_labels (now : Z) :
  formatRelativeTime None now = "Sem atualizacao"
  /\ formatRelativeTime (Some "") now = "Sem atualizacao"
  /\ (forall ts, Date_parse ts = None ->
                 formatRelativeTime (Some ts) now = "Sem atualizacao")
  /\ (forall ts parsed,
        ts ≠ "" -> Date_parse ts = Some parsed ->
        let age := now - parsed in
        (age < 60000 -> formatRelativeTime (Some ts) now = "Agora mesmo")
        /\ (60000 <= age < 3600000 ->
            formatRelativeTime (Some ts) now
              = "Ha " ++ pretty (age `div` 60000) ++ " min"
            /\ 1 <= age `div` 60000 <= 59)
        /\ (3600000 <= age < 86400000 ->
            formatRelativeTime (Some ts) now
              = "Ha " ++ pretty (age `div` 3600000) ++ " h"
            /\ 1 <= age `div` 3600000 <= 23)
        /\ (86400000 <= age ->
            formatRelativeTime (Some ts) now
              = "Ha " ++ pretty (age `div` 86400000) ++ " d"
            /\ 1 <= age `div` 86400000)).
Proof.
  split; [done|]. split; [done|]. split.
  { intros ts H. unfold formatRelativeTime. rewrite H. by destruct (str_empty ts). }
  intros ts parsed Hne Hd age. unfold formatRelativeTime.
  apply str_empty_false in Hne. rewrite Hne, Hd. fold age.
  assert ((age `div` 60000) `div` 60 = age `div` 3600000) as Hh
    by (rewrite Z.div_div by lia; done).
  assert (((age `div` 60000) `div` 60) `div` 24 = age `div` 86400000) as Hdays
    by (rewrite Hh, Z.div_div by lia; done).
  rewrite Hdays, Hh.
  split; [|split; [|split]]; intros Hage.
  - by rewrite (proj2 (Z.ltb_lt age 60000)) by lia.
  - rewrite (proj2 (Z.ltb_ge age 60000)) by lia.
    assert (1 <= age `div` 60000 <= 59) as Hb
      by (split; [apply Z.div_le_lower_bound | apply Z.lt_succ_r,
                    Z.div_lt_upper_bound]; lia).
    by rewrite (proj2 (Z.ltb_lt (age `div` 60000) 60)) by lia.
  - rewrite (proj2 (Z.ltb_ge age 60000)) by lia.
    assert (60 <= age `div` 60000) by (apply Z.div_le_lower_bound; lia).
    rewrite (proj2 (Z.ltb_ge (age `div` 60000) 60)) by lia.
    assert (1 <= age `div` 3600000 <= 23) as Hb
      by (split; [apply Z.div_le_lower_bound | apply Z.lt_succ_r,
                    Z.div_lt_upper_bound]; lia).
    by rewrite (proj2 (Z.ltb_lt (age `div` 3600000) 24)) by lia.
  - rewrite (proj2 (Z.ltb_ge age 60000)) by lia.
    assert (60 <= age `div` 60000) by (apply Z.div_le_lower_bound; lia).
    rewrite (proj2 (Z.ltb_ge (age `div` 60000) 60)) by lia.
    assert (24 <= age `div` 3600000) by (apply Z.div_le_lower_bound; lia).
    rewrite (proj2 (Z.ltb_ge (age `div` 3600000) 24)) by lia.
    split; [done|]. apply Z.div_le_lower_bound; lia.
Qed.

Lemma request_failure_envelope (ls : Storage) (now : Z) (endpoint : string)
    (options : RequestInit) (url : string) (init : RequestInit) (ls' : Storage) :
  request_prepare getBaseUrl ls now endpoint options = (url, init, ls') ->
  (exists e, fetch url init = Throw e)
  \/ (exists response, fetch url init = Ok response /\ ok response = false) ->
  exists msg,
    (request getBaseUrl fetch ls now endpoint options).1 = Ok (failed msg).
Proof.
  intros Hprep H. rewrite (request_unfold _ _ _ _ _ _ _ _ _ Hprep). cbn [fst].
  destruct H as [[e Hf]|(response & Hf & Hok)]; rewrite Hf; cbn [bindT].
  - by eexists.
  - destruct (request_response_not_ok response Hok) as [e ->]. by eexists.
Qed.

(** A failure of the request for the locations is never reported: when
    [fetch] throws or the response is not 2xx, [loadDriverStatuses] stores
    nothing, logs nothing and shows no toast, silent or not. *)
Theorem loadDriverStatuses_request_failure_unreported (silent : bool)
    (ls : Storage) (now_request now : Z) (url : string) (init : RequestInit)
    (ls' : Storage) :
  request_prepare getBaseUrl ls now_request
    "/api/tracking/drivers/current-locations" no_options = (url, init, ls') ->
  (exists e, fetch url init = Throw e)
  \/ (exists response, fetch url init = Ok response /\ ok response = false) ->
  (loadDriverStatuses getBaseUrl fetch OFFLINE_AFTER_MS MOVING_ABOVE_KMH
     silent ls now_request now).1
  = if silent then [] else [SetDriversLoading true; SetDriversLoading false].
Proof.
  intros Hprep H.
  destruct (request_failure_envelope _ _ _ _ _ _ _ Hprep H) as [msg Hreq].
  unfold loadDriverStatuses, driverStatusesPath, getCurrentLocations.
  destruct (request getBaseUrl fetch ls now_request _ no_options) as [r ls''].
  cbn [fst] in *. subst r. by destruct silent.
Qed.

(** The loading flag around a call of [loadDriverStatuses]: after a call
    that is not silent the flag is off, whatever happened; a silent call
    leaves it as it was and shows no toast; at most one toast is shown. *)
Theorem loadDriverStatuses_loading_flag (silent : bool) (ls : Storage)
    (now_request now : Z) (st : UiState) :
  let events :=
    (loadDriverStatuses getBaseUrl fetch OFFLINE_AFTER_MS MOVING_ABOVE_KMH
       silent ls now_request now).1 in
  driversLoading (ui_run st events) = (if silent then driversLoading st else false)
  /\ (length (filter (fun ev => is_toast ev = true) events) <= 1)%nat
  /\ (silent = true -> toasts (ui_run st events) = toasts st)
  /\ (silent = false ->
      head events = Some (SetDriversLoading true)
      /\ last events = Some (SetDriversLoading false)).
Proof.
  intros events. unfold events, loadDriverStatuses.
  destruct (driverStatusesPath _ _ _ _ _ _ _) as [[[items|]|e] ls'];
    destruct silent; cbn; repeat split; try done; compute; lia.
Qed.

Lemma keepItems_length (now : Z) (data : list JSON)
    (mapped : list (option DriverStatusItem)) :
  Forall2 (fun raw y =>
             normalizeDriver OFFLINE_AFTER_MS MOVING_ABOVE_KMH now raw = Ok y)
          data mapped ->
  length (keepItems mapped) = length (filter (fun raw => hasDriverId raw = true) data).
Proof.
  induction 1 as [|raw y data mapped Hy _ IH]; [done|].
  unfold keepItems in *. cbn [omap]. rewrite filter_cons. destruct y as [item|].
  - apply normalizeDriver_kept in Hy as (id & n & Hid & Hne & _).
    assert (hasDriverId raw = true) as Hh
      by (unfold hasDriverId; rewrite Hid; by destruct id).
    rewrite decide_True by done. cbn. f_equal. exact IH.
  - assert (hasDriverId raw = false) as Hh.
    { unfold hasDriverId.
      destruct (rawDriverId raw) as [id|] eqn:Hid; [|done].
      destruct id; try done;
        (unfold normalizeDriver in Hy; rewrite !get_prop_null_object in Hy;
         cbn [bindT] in Hy; fold (rawDriverId raw) in Hy; rewrite Hid in Hy;
         rewrite ?get_prop_null_object in Hy; cbn [bindT] in Hy;
         repeat match type of Hy with
                | bindT ?m _ = _ => destruct m; cbn [bindT] in Hy
                end; discriminate). }
    rewrite decide_False by (rewrite Hh; done). cbn. exact IH.
Qed.

(** No driver is lost or invented by the normalization: the stored list
    has exactly one entry for each raw entry with an identifier, and each
    such raw entry has its entry in the list. *)
Theorem stored_list_complete (now : Z) (data : list JSON)
    (items : list DriverStatusItem) :
  normalizeDrivers OFFLINE_AFTER_MS MOVING_ABOVE_KMH now data = Ok items ->
  length items = length (filter (fun raw => hasDriverId raw = true) data)
  /\ (forall raw, raw ∈ data -> hasDriverId raw = true ->
        exists item, item ∈ items
                     /\ normalizeDriver OFFLINE_AFTER_MS MOVING_ABOVE_KMH now raw
                        = Ok (Some item))
  /\ (length items <= length data)%nat.
Proof.
  intros Hn. unfold normalizeDrivers in Hn.
  apply bindT_Ok in Hn as (mapped & Hmap & [= <-]).
  apply mapT_Ok in Hmap.
  assert (length (sortByName (keepItems mapped))
          = length (filter (fun raw => hasDriverId raw = true) data)) as Hlen.
  { rewrite sortByName_perm. by eapply keepItems_length. }
  split; [exact Hlen|]. split.
  - intros raw Hraw Hid.
    apply list_elem_of_lookup_1 in Hraw as [i Hi].
    destruct (Forall2_lookup_l _ _ _ _ _ Hmap Hi) as (y & Hy & Hnorm).
    destruct y as [item|].
    + exists item. split; [|done]. rewrite sortByName_perm.
      unfold keepItems. apply list_elem_of_omap. exists (Some item).
      split; [|done]. by eapply list_elem_of_lookup_2.
    + exfalso. unfold hasDriverId in Hid.
      destruct (rawDriverId raw) as [id|] eqn:Hr; [|done].
      unfold normalizeDriver in Hnorm. rewrite !get_prop_null_object in Hnorm.
      cbn [bindT] in Hnorm. fold (rawDriverId raw) in Hnorm. rewrite Hr in Hnorm.
      destruct id; try done;
        (rewrite ?get_prop_null_object in Hnorm; cbn [bindT] in Hnorm;
         repeat match type of Hnorm with
                | bindT ?m _ = _ => destruct m; cbn [bindT] in Hnorm
                end; discriminate).
  - rewrite Hlen. apply length_filter.
Qed.

Lemma numberOrZero_not_NaN (v : option JSON) (n : JsNumber) :
  numberOrZero v = Ok n -> n ≠ NaN.
Proof.
  unfold numberOrZero. intros H. apply bindT_Ok in H as (x & _ & [= <-]).
  destruct x as [| | |q]; simpl; try done. by destruct (Qeq_bool q 0).
Qed.

(** The statistics computed from the KPIs never hold [NaN]; and when the
    KPIs carry none of the keys that are read, every statistic is zero. *)
Theorem kpiStats_never_NaN (kpis : JSON) :
  (forall stats, kpiStats kpis = Ok stats ->
     totalEntregas stats ≠ NaN /\ entregasRealizadas stats ≠ NaN
     /\ entregasPendentes stats ≠ NaN /\ motoristasAtivos stats ≠ NaN)
  /\ ((forall k, k ∈ ["today_deliveries"; "todayDeliveries"; "total_deliveries";
                      "totalEntregas"; "completed_deliveries";
                      "entregasRealizadas"; "pending_deliveries";
                      "entregasPendentes"; "active_drivers"; "activeDrivers"] ->
                 get_prop_opt (Some kpis) k = None) ->
      kpiStats kpis = Ok {| totalEntregas := Fin 0%Q; entregasRealizadas := Fin 0%Q;
                            entregasPendentes := Fin 0%Q;
                            motoristasAtivos := Fin 0%Q |}).
Proof.
  split.
  - intros stats H. unfold kpiStats in H.
    apply bindT_Ok in H as (a & Ha & H). apply bindT_Ok in H as (b & Hb & H).
    apply bindT_Ok in H as (c & Hc & H). apply bindT_Ok in H as (d & Hd & [= <-]).
    cbn. repeat split; by eapply numberOrZero_not_NaN.
  - intros H. unfold kpiStats, todayDeliveriesOf.
    rewrite !H by set_solver. done.
Qed.

(** [loadDashboardData] always ends by switching the loading flag off, and
    does at most one thing before. A failure of the request (a thrown
    [fetch] or a response that is not 2xx) is not reported: nothing else
    happens, and no toast is shown. *)
Theorem loadDashboardData_stops_loading (ls : Storage) (now : Z) :
  let events := (loadDashboardData getBaseUrl fetch ls now).1 in
  last events = Some (SetLoading false)
  /\ (length events <= 2)%nat
  /\ (forall url init ls',
        request_prepare getBaseUrl ls now "/api/dashboard/kpis" no_options
          = (url, init, ls') ->
        (exists e, fetch url init = Throw e)
        \/ (exists response, fetch url init = Ok response /\ ok response = false) ->
        events = [SetLoading false]).
Proof.
  intros events. unfold events, loadDashboardData, getDashboardKPIs.
  split; [|split].
  - destruct (request _ _ _ _ _ _) as [r ls'']. cbn [fst].
    unfold loadDashboardData_events.
    by destruct (let! response := r in dashboardStatsOf response) as [[s|]|e].
  - destruct (request _ _ _ _ _ _) as [r ls'']. cbn [fst].
    unfold loadDashboardData_events.
    destruct (let! response := r in dashboardStatsOf response) as [[s|]|e];
      cbn; lia.
  - intros url init ls' Hprep H.
    destruct (request_failure_envelope _ _ _ _ _ _ _ Hprep H) as [msg Hreq].
    destruct (request _ _ _ _ _ _) as [r ls'']. cbn [fst] in *. by subst r.
Qed.

End DashboardFacts.

(** ** The forms *)

Section FormFacts.
Context {P : Platform}.
Variable getBaseUrl : string -> string.
Variable fetch : string -> RequestInit -> Throws Response.

(** The form of [createDelivery] holds a key exactly when the payload has
    it with a value that is neither [undefined] nor [null]; the keys keep
    their order; a text and a file go in unchanged. *)
Theorem createDelivery_form_keys (payload : list (string * PayloadValue)) :
  let form := createDelivery_form payload in
  map fst form `sublist_of` map fst payload
  /\ (forall k,
        (exists text, (k, text) ∈ form) <->
        (exists v, (k, v) ∈ payload /\ v ≠ PUndefined /\ v ≠ PData JNull))
  /\ (forall k s, (k, PData (JStr s)) ∈ payload -> (k, s) ∈ form)
  /\ (forall k content, (k, PBlob content) ∈ payload -> (k, content) ∈ form).
Proof.
  intros form. unfold form, createDelivery_form.
  assert (forall k v k' text,
            createDelivery_entry k v = Some (k', text) ->
            k' = k /\ v ≠ PUndefined /\ v ≠ PData JNull) as Hentry.
  { intros k v k' text H.
    destruct v as [|content|[|[|]|n|s|items|fields]]; simplify_eq/=; done. }
  assert (forall k v, v ≠ PUndefined -> v ≠ PData JNull ->
                      exists text, createDelivery_entry k v = Some (k, text))
    as Hpresent.
  { intros k v H1 H2.
    destruct v as [|content|[|[|]|n|s|items|fields]]; simpl; try done; by eexists. }
  split; [|split; [|split]].
  - induction payload as [|[k v] rest IH]; [done|].
    change (omap (fun kv => createDelivery_entry kv.1 kv.2) ((k, v) :: rest))
      with (match createDelivery_entry k v with
            | Some y => y :: omap (fun kv => createDelivery_entry kv.1 kv.2) rest
            | None => omap (fun kv => createDelivery_entry kv.1 kv.2) rest
            end).
    destruct (createDelivery_entry k v) as [[k' text]|] eqn:E.
    + apply Hentry in E as (-> & _). apply sublist_skip, IH.
    + apply sublist_cons, IH.
  - intros k. split.
    + intros (text & Hin). apply list_elem_of_omap in Hin as ([k' v] & Hin & E).
      cbn [fst snd] in E. apply Hentry in E as (-> & H1 & H2). by exists v.
    + intros (v & Hin & H1 & H2). destruct (Hpresent k v H1 H2) as [text E].
      exists text. apply list_elem_of_omap. by exists (k, v).
  - intros k s Hin. apply list_elem_of_omap. by exists (k, PData (JStr s)).
  - intros k content Hin. apply list_elem_of_omap. by exists (k, PBlob content).
Qed.




(** The result of [registerDriverAccount] is a success with [success:
    true] first, or a failure with its message, or a failure without. *)
Lemma registerDriverAccount_shape (ls : Storage) (now : Z)
    (payload : list (string * JSON)) :
  (exists rest,
     (registerDriverAccount getBaseUrl fetch ls now payload).1
       = Ok (JObj (("success", JBool true) :: rest)))
  \/ (exists msg,
        (registerDriverAccount getBaseUrl fetch ls now payload).1
          = Ok (failed msg))
  \/ (registerDriverAccount getBaseUrl fetch ls now payload).1
       = Ok (JObj [("success", JBool false)]).
Proof.
  unfold registerDriverAccount.
  destruct (createDriver getBaseUrl fetch ls now (JObj (withName payload)))
    as [r ls'].
  cbn [fst]. destruct r as [response|[m|d]]; cbn [bindT try_catch]; eauto.
  destruct (get_prop response "success") as [success|[m|d]];
    cbn [bindT try_catch]; eauto.
  destruct (truthy success); cbn [negb].
  - destruct (get_prop response "data") as [data|[m|d]];
      cbn [bindT try_catch]; eauto.
  - destruct (get_prop response "error") as [err|[m|d]];
      cbn [bindT try_catch]; eauto.
    destruct (if truthy err then _ else _) as [msg|[m|d]];
      cbn [bindT try_catch]; eauto.
Qed.

(** Every submission of the driver form switches the submitting flag on
    first and off last and shows exactly one toast. On success the dialog
    is closed and the form reset; on failure neither happens, and the
    toast is the destructive one, with a description that is never
    empty. *)
Theorem onSubmit_events (ls : Storage) (now : Z) (data : DriverFormValues) :
  let events := (onSubmit getBaseUrl fetch ls now data).1 in
  head events = Some (SetIsSubmitting true)
  /\ last events = Some (SetIsSubmitting false)
  /\ length (filter (fun ev => is_form_toast ev = true) events) = 1%nat
  /\ (((OnOpenChange false ∈ events) /\ (FormReset ∈ events)
       /\ (OnSuccess ∈ events)
       /\ (forall title description,
             FormToast title description true ∉ events))
      \/ ((OnOpenChange false ∉ events) /\ (FormReset ∉ events)
          /\ (OnSuccess ∉ events)
          /\ (exists error description,
                description ≠ ""
                /\ events = [SetIsSubmitting true; FormConsoleError error;
                             FormToast "Erro no Cadastro" description true;
                             SetIsSubmitting false]))).
Proof.
  intros events. unfold events, onSubmit.
  pose proof (registerDriverAccount_shape ls now (driverPayload data)) as Hs.
  destruct (registerDriverAccount getBaseUrl fetch ls now (driverPayload data))
    as [r ls'].
  cbn [fst] in *.
  assert (forall error fallback, fallback ≠ "" -> messageOr error fallback ≠ "")
    as Hmsg.
  { intros [m|d] fallback Hf; simpl; [|done].
    destruct (str_empty m) eqn:E; [done|]. by apply str_empty_false. }
  assert (forall error description,
            description ≠ "" ->
            let evs := ([SetIsSubmitting true]
                        ++ [FormConsoleError error;
                            FormToast "Erro no Cadastro" description true]
                        ++ [SetIsSubmitting false])%list in
            head evs = Some (SetIsSubmitting true)
            /\ last evs = Some (SetIsSubmitting false)
            /\ length (filter (fun ev => is_form_toast ev = true) evs) = 1%nat
            /\ (((OnOpenChange false ∈ evs) /\ (FormReset ∈ evs)
                 /\ (OnSuccess ∈ evs)
                 /\ (forall title description0,
                       FormToast title description0 true ∉ evs))
                \/ ((OnOpenChange false ∉ evs) /\ (FormReset ∉ evs)
                    /\ (OnSuccess ∉ evs)
                    /\ (exists error0 description0,
                          description0 ≠ ""
                          /\ evs = [SetIsSubmitting true; FormConsoleError error0;
                                    FormToast "Erro no Cadastro" description0 true;
                                    SetIsSubmitting false])))) as Hfail.
  { intros error description Hd evs. unfold evs. cbn.
    split; [done|]. split; [done|]. split; [by compute|]. right.
    rewrite !elem_of_cons, !elem_of_nil.
    repeat split;
      try (intros H; repeat destruct H as [H|H]; first [discriminate H | done]).
    by exists error, description. }
  destruct Hs as [[rest ->]|[[msg ->]| ->]].
  - cbn. split; [done|]. split; [done|]. split; [by compute|]. left.
    rewrite !elem_of_cons, !elem_of_nil.
    repeat split; try tauto.
    intros title description. rewrite !elem_of_cons, !elem_of_nil. intros H.
    repeat destruct H as [H|H]; first [discriminate H | done].
  - unfold onSubmit_try, failed. cbn [bindT get_prop assoc_get String.eqb
      Ascii.eqb Bool.eqb truthy]. cbn [truthy].
    destruct (str_empty msg) eqn:E; cbn [negb default from_option id ToStringJ bindT].
    + apply Hfail, Hmsg. done.
    + apply Hfail, Hmsg. done.
  - unfold onSubmit_try. cbn. apply (Hfail (JsError "Falha ao criar motorista.")).
    done.
Qed.

(** After the effect on the company, the company of the form is the one
    resolved and every other field is as before; the same object is kept
    when the company was already right, and running the effect again
    changes nothing. *)
Theorem syncCompany_settles (normalized : string) (prev : DriverFormData) :
  fd_company_id (syncCompany normalized prev) = normalized
  /\ withCompany (syncCompany normalized prev) (fd_company_id prev) = prev
  /\ (fd_company_id prev = normalized -> syncCompany normalized prev = prev)
  /\ syncCompany normalized (syncCompany normalized prev)
     = syncCompany normalized prev.
Proof.
  assert (forall p c, fd_company_id (withCompany p c) = c) as Hc by done.
  assert (forall p, withCompany p (fd_company_id p) = p) as Hid by (by intros []).
  assert (fd_company_id prev = normalized -> syncCompany normalized prev = prev)
    as Hsame.
  { intros <-. unfold syncCompany. rewrite String.eqb_refl. cbn [negb].
    rewrite andb_false_r. by destruct (str_empty (fd_company_id prev)). }
  assert (fd_company_id (syncCompany normalized prev) = normalized) as Hset.
  { unfold syncCompany.
    destruct (str_empty normalized) eqn:En; cbn [negb andb].
    - apply str_empty_true in En as ->.
      destruct (str_empty (fd_company_id prev)) eqn:Ep; cbn [negb]; [|done].
      by apply str_empty_true in Ep.
    - destruct (String.eqb (fd_company_id prev) normalized) eqn:Ee;
        cbn [negb]; [|done].
      by apply String.eqb_eq in Ee. }
  split; [exact Hset|]. split; [|split; [exact Hsame|]].
  - unfold syncCompany.
    destruct (_ && _); [by destruct prev|]. destruct (_ && _); by destruct prev.
  - unfold syncCompany at 1. rewrite Hset, String.eqb_refl. cbn [negb].
    rewrite andb_false_r.
    destruct (str_empty normalized) eqn:En; cbn [andb]; [|done].
    apply str_empty_true in En. by rewrite En.
Qed.

(** Nobody can give a role at or above their own: the types offered never
    include MASTER, an administrator is not offered ADMIN, a supervisor is
    offered neither ADMIN nor SUPERVISOR, and every other role, or no role,
    is offered nothing. What a supervisor is offered an administrator is
    offered, and what an administrator is offered a master is. *)
Theorem getAllowedUserTypes_no_escalation (authUser : option AuthUser) :
  let offered u := map fst (getAllowedUserTypes u) in
  let as_role r := Some {| au_role := Some r; au_user_type := None |} in
  ("MASTER" ∉ offered authUser)
  /\ (userRoleOf authUser = Some "ADMIN"
      \/ userRoleOf authUser = Some "ADMINISTRADOR" ->
      "ADMIN" ∉ offered authUser)
  /\ (userRoleOf authUser = Some "SUPERVISOR" ->
      ("ADMIN" ∉ offered authUser) /\ ("SUPERVISOR" ∉ offered authUser))
  /\ (userRoleOf authUser ∉ [Some "MASTER"; Some "ADMIN"; Some "ADMINISTRADOR";
                             Some "SUPERVISOR"] ->
      getAllowedUserTypes authUser = [])
  /\ offered (as_role "SUPERVISOR") ⊆ offered (as_role "ADMIN")
  /\ offered (as_role "ADMIN") ⊆ offered (as_role "MASTER")
  /\ offered authUser ⊆ offered (as_role "MASTER").
Proof.
  clear getBaseUrl fetch.
  intros offered as_role. unfold offered, getAllowedUserTypes.
  split; [|split; [|split; [|split; [|split; [|split]]]]].
  - destruct (userRoleOf authUser) as [r|]; [|set_solver].
    repeat (destruct (_ || _) || destruct (String.eqb r _)); cbn;
      rewrite ?elem_of_cons, ?elem_of_nil; intros H;
      repeat destruct H as [H|H]; done.
  - intros [-> | ->]; cbn; rewrite ?elem_of_cons, ?elem_of_nil; intros H;
      repeat destruct H as [H|H]; done.
  - intros ->. cbn. rewrite ?elem_of_cons, ?elem_of_nil.
    split; intros H; repeat destruct H as [H|H]; done.
  - intros H. destruct (userRoleOf authUser) as [r|]; [|done].
    destruct (String.eqb r "MASTER") eqn:E1.
    { apply String.eqb_eq in E1 as ->. exfalso. apply H. set_solver. }
    destruct (String.eqb r "ADMIN") eqn:E2.
    { apply String.eqb_eq in E2 as ->. exfalso. apply H. set_solver. }
    destruct (String.eqb r "ADMINISTRADOR") eqn:E3.
    { apply String.eqb_eq in E3 as ->. exfalso. apply H. set_solver. }
    destruct (String.eqb r "SUPERVISOR") eqn:E4; [|done].
    apply String.eqb_eq in E4 as ->. exfalso. apply H. set_solver.
  - cbn. set_solver.
  - cbn. set_solver.
  - destruct (userRoleOf authUser) as [r|]; [|set_solver].
    repeat (destruct (_ || _) || destruct (String.eqb r _)); cbn; set_solver.
Qed.

End FormFacts.

Section UsersFacts.
Variable toUpperCase : string -> string.
Variable toLowerCase : string -> string.
Variable trim : string -> string.

(** What the form writes as status is shown back as written: the status
    is one of ATIVO and INATIVO (ATIVO unless the text typed is INATIVO in
    upper case, and for an empty text), the flag [is_active] says which,
    and the badge made of them is the active one exactly when the flag is
    set. *)
Theorem status_written_is_shown (status : string) :
  toLowerCase (trim "ATIVO") = "ativo" ->
  toLowerCase (trim "INATIVO") = "inativo" ->
  let written := normalizedStatus toUpperCase status in
  let flag := isActiveFlag toUpperCase status in
  (written = "ATIVO" /\ flag = true \/ written = "INATIVO" /\ flag = false)
  /\ (toUpperCase (if str_empty status then "ATIVO" else status) ≠ "INATIVO" ->
      written = "ATIVO")
  /\ statusIsActive toLowerCase trim
       (shownStatus (Some (JStr written)) (Some (JBool flag))) = flag.
Proof.
  intros Ha Hi written flag. unfold written, flag, isActiveFlag, normalizedStatus.
  destruct (String.eqb (toUpperCase _) "INATIVO") eqn:E.
  - split; [by right|]. split.
    + intros H. by apply String.eqb_neq in H; rewrite H in E.
    + cbn [shownStatus truthy str_empty negb statusIsActive]. rewrite Hi. done.
  - split; [by left|]. split; [done|].
    cbn [shownStatus truthy str_empty negb statusIsActive]. rewrite Ha. done.
Qed.


End UsersFacts.

(** ** The other operations at work *)

Lemma request_stale_token_unauthenticated_witness :
  (request (P := Reference.platform) Reference.getBaseUrl (backend JNull)
     stale_storage 2100000000000 "/api/drivers" no_options).2
    !! "id_transporte_token" = None
  /\ (request (P := Reference.platform) Reference.getBaseUrl (backend JNull)
        stale_storage 2100000000000 "/api/drivers" no_options).2
       !! "theme" = Some "dark".
Proof.
  destruct (request_stale_token_unauthenticated (P := Reference.platform)
              Reference.getBaseUrl (backend JNull) stale_storage 2100000000000
              "/api/drivers" no_options sample_token)
    as (_ & Hc & Ho).
  - vm_compute; reflexivity.
  - discriminate.
  - vm_compute; reflexivity.
  - reflexivity.
  - split.
    + apply Hc. apply list_elem_of_here.
    + rewrite Ho; [reflexivity|]. unfold session_keys.
      rewrite !not_elem_of_cons. repeat split; try discriminate.
      apply not_elem_of_nil.
Defined.

Lemma request_valid_token_authenticated_witness :
  (request (P := Reference.platform) Reference.getBaseUrl (backend JNull)
     stale_storage 1700000000000 "/api/drivers" no_options).2 = stale_storage.
Proof.
  destruct (request_valid_token_authenticated (P := Reference.platform)
              Reference.getBaseUrl (backend JNull) stale_storage 1700000000000
              "/api/drivers" no_options)
    as (token & hdrs & _ & _ & _ & H).
  - vm_compute; reflexivity.
  - reflexivity.
  - exact H.
Defined.

Lemma request_http_error_never_succeeds_witness :
  exists msg,
    (request (P := Reference.platform) Reference.getBaseUrl
       (Reference.always (Ok (Reference.respond_json 500
          (JObj [("success", JBool true); ("data", JArr [])]))))
       ∅ 0 "/api/drivers" no_options).1
    = Ok (JObj [("success", JBool false); ("error", JStr msg)]).
Proof.
  eapply (request_http_error_never_succeeds (P := Reference.platform)
            Reference.getBaseUrl
            (Reference.always (Ok (Reference.respond_json 500
               (JObj [("success", JBool true); ("data", JArr [])]))))
            ∅ 0 "/api/drivers" no_options).
  - vm_compute; reflexivity.
  - reflexivity.
  - reflexivity.
Defined.

Lemma endpoint_headers_witness :
  headers (request_prepare (P := Reference.platform) Reference.getBaseUrl
             ∅ 0 "/api/receipts/upload"
             (form_options [("file", "jpg")])).1.2 = Some ∅
  /\ (getAuthHeader (P := Reference.platform) stale_storage 1700000000000).1
       !! "Content-Type" = None.
Proof.
  split.
  - exact (proj1 (proj2 (proj2 (proj2
             (endpoint_headers (P := Reference.platform) Reference.getBaseUrl
                ∅ 0 "/api/receipts/upload" "POST" JNull [("file", "jpg")]))))).
  - destruct (endpoint_headers (P := Reference.platform) Reference.getBaseUrl
                stale_storage 1700000000000 "/api/receipts/upload" "POST" JNull
                [("file", "jpg")])
      as (_ & _ & _ & _ & _ & _ & H).
    apply H. discriminate.
Defined.

Lemma login_never_throws_witness :
  (login (P := Reference.platform) Reference.getBaseUrl
     (Reference.always (Throw (JsError "TypeError: Failed to fetch")))
     ∅ 0 sample_credentials).1
  = Ok (failed CONNECTION_ERROR).
Proof.
  edestruct (login_never_throws (P := Reference.platform) Reference.getBaseUrl
               (Reference.always (Throw (JsError "TypeError: Failed to fetch")))
               ∅ 0 sample_credentials)
    as (_ & _ & H).
  refine (H _ _ _ "TypeError: Failed to fetch" _ eq_refl).
  vm_compute; reflexivity.
Defined.

Lemma getAuthCompanies_flat_or_nested_witness :
  (getAuthCompanies (P := Reference.platform) Reference.getBaseUrl
     (backend (JArr [JStr "a"])) ∅ 0).1
  = Ok (JObj [("success", JBool true); ("data", JArr [JStr "a"])])
  /\ (getAuthCompanies (P := Reference.platform) Reference.getBaseUrl
        (backend (JObj [("data", JArr [JStr "a"])])) ∅ 0).1
     = Ok (JObj [("success", JBool true); ("data", JArr [JStr "a"])]).
Proof.
  split.
  - eapply (getAuthCompanies_flat_or_nested (P := Reference.platform)
              Reference.getBaseUrl (backend (JArr [JStr "a"])) ∅ 0).
    + vm_compute; reflexivity.
    + reflexivity.
    + reflexivity.
    + reflexivity.
    + by left.
  - eapply (getAuthCompanies_flat_or_nested (P := Reference.platform)
              Reference.getBaseUrl (backend (JObj [("data", JArr [JStr "a"])]))
              ∅ 0).
    + vm_compute; reflexivity.
    + reflexivity.
    + reflexivity.
    + reflexivity.
    + right. by eexists.
Defined.

Lemma registerDriverAccount_sends_name_witness :
  (registerDriverAccount (P := Reference.platform) Reference.getBaseUrl
     (drivers_backend
        (JObj (driverPayload sample_driver ++ [("name", JStr "Ana Souza")])))
     ∅ 0 (driverPayload sample_driver)).1
  = Ok (JObj [("success", JBool true); ("data", JObj [("id", JStr "d1")])]).
Proof.
  destruct (registerDriverAccount_sends_name (P := Reference.platform)
              Reference.getBaseUrl ∅ 0 (driverPayload sample_driver)
              (JStr "Ana Souza") eq_refl)
    as (sent & _ & _ & Hsent & H).
  rewrite (Hsent eq_refl) in H. cbv zeta in H. destruct H as (_ & Hok & _).
  apply (Hok _ (Reference.respond_json 201 (JObj [("id", JStr "d1")]))
           (JObj [("id", JStr "d1")]));
    vm_compute; reflexivity.
Defined.

Lemma registerDriverAccount_result_witness :
  (registerDriverAccount (P := Reference.platform) Reference.getBaseUrl
     (Reference.always (Ok (Reference.respond_json 409
        (JObj [("error", JStr "CPF ja cadastrado")]))))
     ∅ 0 (driverPayload sample_driver)).1
  = Ok (failed "CPF ja cadastrado").
Proof.
  edestruct (registerDriverAccount_result (P := Reference.platform)
               Reference.getBaseUrl
               (Reference.always (Ok (Reference.respond_json 409
                  (JObj [("error", JStr "CPF ja cadastrado")]))))
               ∅ 0 (driverPayload sample_driver))
    as (_ & H & _); [vm_compute; reflexivity|].
  destruct H as (H & _); [reflexivity|].
  apply H; [reflexivity | discriminate].
Defined.

Lemma uploadCompanyLogo_envelope_witness :
  (uploadCompanyLogo (P := Reference.platform) Reference.getBaseUrl
     (backend (JObj [("success", JBool false)])) ∅ "7" "png").1
  = Ok (JObj [("success", JBool true);
              ("data", JObj [("success", JBool false)])]).
Proof.
  destruct (uploadCompanyLogo_envelope (P := Reference.platform)
              Reference.getBaseUrl (backend (JObj [("success", JBool false)]))
              ∅ "7" "png")
    as (_ & _ & _ & H & _).
  exact (H (Reference.respond_json 200 (JObj [("success", JBool false)]))
           (JObj [("success", JBool false)]) eq_refl eq_refl eq_refl).
Defined.

Lemma createOccurrence_form_coordinates_witness :
  (forall text,
     ("latitude", text) ∉ createOccurrence_form (P := Reference.platform)
                            equator_occurrence)
  /\ ("longitude", "-47") ∈ createOccurrence_form (P := Reference.platform)
                              equator_occurrence.
Proof.
  destruct (createOccurrence_form_coordinates (P := Reference.platform)
              equator_occurrence)
    as (_ & _ & Hlon & Hlat & _).
  split.
  - exact (Hlat eq_refl).
  - apply Hlon. exists (Fin (-47)%Q). repeat split.
Defined.

Lemma formatRelativeTime_labels_witness :
  formatRelativeTime (P := Reference.platform)
    (Some "2024-01-01T00:00:50Z") 1704074450000 = "Ha 2 h".
Proof.
  destruct (formatRelativeTime_labels (P := Reference.platform) 1704074450000)
    as (_ & _ & _ & H).
  destruct (H "2024-01-01T00:00:50Z" 1704067250000) as (_ & _ & Hh & _).
  - discriminate.
  - vm_compute; reflexivity.
  - destruct Hh as (E & _); [split; [discriminate | reflexivity]|]. exact E.
Defined.

Lemma loadDriverStatuses_request_failure_unreported_witness :
  (loadDriverStatuses (P := Reference.platform) Reference.getBaseUrl
     (Reference.always (Throw (JsError "TypeError: Failed to fetch")))
     300000 5 false ∅ 0 sample_now).1
  = [SetDriversLoading true; SetDriversLoading false].
Proof.
  eapply (loadDriverStatuses_request_failure_unreported
            (P := Reference.platform) Reference.getBaseUrl
            (Reference.always (Throw (JsError "TypeError: Failed to fetch")))
            300000 5 false ∅ 0 sample_now).
  - vm_compute; reflexivity.
  - left. by eexists.
Defined.

Lemma loadDriverStatuses_loading_flag_witness :
  toasts (ui_run {| driversLoading := false; driverStatuses := [];
                    toasts := []; consoleErrors := [] |}
            (loadDriverStatuses (P := Reference.platform) Reference.getBaseUrl
               (backend unprintable_id_locations) 300000 5 true ∅ 0
               sample_now).1) = [].
Proof.
  destruct (loadDriverStatuses_loading_flag (P := Reference.platform)
              Reference.getBaseUrl (backend unprintable_id_locations) 300000 5
              true ∅ 0 sample_now
              {| driversLoading := false; driverStatuses := [];
                 toasts := []; consoleErrors := [] |})
    as (_ & _ & H & _).
  exact (H eq_refl).
Defined.

Lemma stored_list_complete_witness :
  length sample_items = 2%nat.
Proof.
  destruct (stored_list_complete (P := Reference.platform) 300000 5 sample_now
              [JObj [("driver_id", JNum (Fin 2%Q)); ("driver_name", JStr "Bruno");
                     ("speed", JNum (Fin (-3)%Q));
                     ("last_update", JStr "2024-01-01T00:00:50Z")];
               JObj [("driver_name", JStr "Caio")];
               JObj [("id", JStr "a1"); ("driver_name", JStr "Ana");
                     ("speed", JStr "abc")]]
              sample_items)
    as (H & _).
  - vm_compute; reflexivity.
  - rewrite H. reflexivity.
Defined.

Lemma kpiStats_never_NaN_witness :
  kpiStats (P := Reference.platform) (JObj [("other", JStr "x")])
  = Ok {| totalEntregas := Fin 0%Q; entregasRealizadas := Fin 0%Q;
          entregasPendentes := Fin 0%Q; motoristasAtivos := Fin 0%Q |}
  /\ forall stats,
       kpiStats (P := Reference.platform)
         (JObj [("today_deliveries", JObj [("total", JStr "doze")])]) = Ok stats ->
       totalEntregas stats ≠ NaN.
Proof.
  split.
  - apply (proj2 (kpiStats_never_NaN (P := Reference.platform)
                    (JObj [("other", JStr "x")]))).
    intros k Hk. repeat (apply elem_of_cons in Hk as [->|Hk]; [reflexivity|]).
    by apply elem_of_nil in Hk.
  - intros stats H.
    exact (proj1 (proj1 (kpiStats_never_NaN (P := Reference.platform) _) stats H)).
Defined.

Lemma loadDashboardData_stops_loading_witness :
  (loadDashboardData (P := Reference.platform) Reference.getBaseUrl
     (Reference.always (Ok (Reference.respond 503 "")))
     ∅ 0).1 = [SetLoading false].
Proof.
  destruct (loadDashboardData_stops_loading (P := Reference.platform)
              Reference.getBaseUrl
              (Reference.always (Ok (Reference.respond 503 ""))) ∅ 0)
    as (_ & _ & H).
  eapply H.
  - vm_compute; reflexivity.
  - right. eexists. split; reflexivity.
Defined.

Lemma createDelivery_form_keys_witness :
  ("nf_number", "123") ∈ createDelivery_form (P := Reference.platform)
                            sample_delivery
  /\ ("file", "xml") ∈ createDelivery_form (P := Reference.platform)
                          sample_delivery.
Proof.
  destruct (createDelivery_form_keys (P := Reference.platform) sample_delivery)
    as (_ & _ & Hs & Hb).
  split.
  - apply Hs. do 2 apply list_elem_of_further. apply list_elem_of_here.
  - apply Hb. apply list_elem_of_here.
Defined.


Lemma syncCompany_settles_witness :
  let form := {| fd_name := "Ana"; fd_username := ""; fd_email := "";
                 fd_password := ""; fd_cpf := ""; fd_cnh := ""; fd_phone := "";
                 fd_company_id := "7" |} in
  syncCompany "7" form = form.
Proof.
  intros form.
  destruct (syncCompany_settles "7" form) as (_ & _ & H & _).
  exact (H eq_refl).
Defined.

Lemma getAllowedUserTypes_no_escalation_witness :
  getAllowedUserTypes
    (Some {| au_role := None; au_user_type := Some "DRIVER" |}) = [].
Proof.
  destruct (getAllowedUserTypes_no_escalation
              (Some {| au_role := None; au_user_type := Some "DRIVER" |}))
    as (_ & _ & _ & H & _).
  apply H. cbn. rewrite !not_elem_of_cons. repeat split; try discriminate.
  apply not_elem_of_nil.
Defined.

Lemma status_written_is_shown_witness :
  normalizedStatus ReferenceText.toUpperCase "inativo" = "INATIVO"
  /\ statusIsActive ReferenceText.toLowerCase ReferenceText.trim
       (shownStatus (Some (JStr "INATIVO")) (Some (JBool false))) = false.
Proof.
  destruct (status_written_is_shown ReferenceText.toUpperCase
              ReferenceText.toLowerCase ReferenceText.trim "inativo")
    as (_ & _ & H).
  - reflexivity.
  - reflexivity.
  - split; [reflexivity | exact H].
Defined.

